(** * Response interpreter of the OJP journey-planner client

    A shallow embedding of [src/ojp/models.py], [src/ojp/parsers.py],
    [src/ojp/xml_templates.py], [src/ojp/client.py] and [src/main.py]:
    the pydantic records, the [OJPParser] class methods, the request
    templates, the client and the tools, with the notions of the
    Python runtime they rest on (exceptions, [str] methods, [int()],
    double-precision division, truthiness), followed by the properties
    of the duration decoder, the leg decoders, the trip assembler, the
    entry points and the request side. *)

From Stdlib Require Import ZArith QArith List String Ascii Bool Lia DecimalString.
Import ListNotations.

Local Open Scope string_scope.
Local Open Scope Z_scope.
Local Open Scope list_scope.

(* ================================================================== *)
(** * The Python runtime, as far as the parser uses it *)
(* ================================================================== *)

Module Py.

(** Exception classes that can reach a handler of [parsers.py].
    pydantic's [ValidationError] derives from [ValueError]; the
    argument of [LibraryError] is what [str(e)] returns for an
    exception of lxml, the only kind whose text a handler reads. *)
Inductive exn : Type :=
| ValueError
| TypeError
| IndexError
| ValidationError
| LibraryError (msg : string).

Definition str_of_exn (e : exn) : string :=
  match e with
  | ValueError => "invalid literal"
  | TypeError => "unsupported operand"
  | IndexError => "list index out of range"
  | ValidationError => "validation error"
  | LibraryError msg => msg
  end.

(** [isinstance(e, ValueError)] *)
Definition is_ValueError (e : exn) : bool :=
  match e with ValueError | ValidationError => true | _ => false end.

Definition is_TypeError (e : exn) : bool :=
  match e with TypeError => true | _ => false end.

Definition is_IndexError (e : exn) : bool :=
  match e with IndexError => true | _ => false end.

(** A computation either raises or returns. *)
Definition py (A : Type) : Type := (exn + A)%type.

Definition ret {A} (a : A) : py A := inr a.
Definition raise {A} (e : exn) : py A := inl e.

Definition bind {A B} (m : py A) (k : A -> py B) : py B :=
  match m with
  | inl e => inl e
  | inr a => k a
  end.

(** [try: body / except Exception: handler] *)
Definition try_except {A} (body : py A) (handler : exn -> A) : A :=
  match body with
  | inl e => handler e
  | inr a => a
  end.

(** [try: body / except (C1, C2): handler], other classes propagate *)
Definition try_except_only {A} (caught : exn -> bool)
           (body : py A) (handler : py A) : py A :=
  match body with
  | inl e => if caught e then handler else inl e
  | inr a => inr a
  end.

(** [xs[i]] for a non-negative index *)
Definition getitem {A} (xs : list A) (i : nat) : py A :=
  match nth_error xs i with
  | Some x => ret x
  | None => raise IndexError
  end.

(** [len(xs)] *)
Definition len {A} (xs : list A) : Z := Z.of_nat (List.length xs).

(** ** [str] methods.  A [str] is held as its UTF-8 bytes.  The
    methods below look for ASCII characters, whose bytes occur in
    UTF-8 text only as themselves. *)

(** [s.isascii()] *)
Fixpoint isascii (s : string) : bool :=
  match s with
  | EmptyString => true
  | String a s' => (nat_of_ascii a <? 128)%nat && isascii s'
  end.

(** [s.startswith(prefix)] *)
Fixpoint startswith (s prefix : string) {struct prefix} : bool :=
  match prefix, s with
  | EmptyString, _ => true
  | String _ _, EmptyString => false
  | String p prefix', String a s' => Ascii.eqb a p && startswith s' prefix'
  end.

(** [s[n:]] *)
Fixpoint slice_from (n : nat) (s : string) : string :=
  match n, s with
  | O, _ => s
  | S _, EmptyString => EmptyString
  | S n', String _ s' => slice_from n' s'
  end.

(** [c in s] for a one-character [c] *)
Fixpoint contains (c : ascii) (s : string) : bool :=
  match s with
  | EmptyString => false
  | String a s' => Ascii.eqb a c || contains c s'
  end.

(** [s.split(c)] for a one-character separator: never empty *)
Fixpoint split (c : ascii) (s : string) : list string :=
  match s with
  | EmptyString => [EmptyString]
  | String a s' =>
      if Ascii.eqb a c then EmptyString :: split c s'
      else match split c s' with
           | hd :: tl => String a hd :: tl
           | [] => [String a EmptyString]
           end
  end.

(** [s.replace(c, '')] for a one-character [c] *)
Fixpoint remove (c : ascii) (s : string) : string :=
  match s with
  | EmptyString => EmptyString
  | String a s' => if Ascii.eqb a c then remove c s' else String a (remove c s')
  end.

Definition lower_ascii (a : ascii) : ascii :=
  let n := nat_of_ascii a in
  if (65 <=? n)%nat && (n <=? 90)%nat then ascii_of_nat (n + 32) else a.

(** [s.lower()] for an ASCII text: only [A]-[Z] change *)
Fixpoint ascii_lower (s : string) : string :=
  match s with
  | EmptyString => EmptyString
  | String a s' => String (lower_ascii a) (ascii_lower s')
  end.

(** Truthiness of a [str] and of an optional [str] ([None] and [''] are false) *)
Definition truthy (s : string) : bool :=
  match s with EmptyString => false | _ => true end.

Definition truthy_opt (s : option string) : bool :=
  match s with Some s => truthy s | None => false end.

(** Truthiness of a list *)
Definition nonempty {A} (xs : list A) : bool :=
  match xs with [] => false | _ => true end.

(** ** [int(s)] in base ten on a text of ASCII characters:
    surrounding whitespace (tab to carriage return, and the blank) is
    stripped, one sign is allowed, single underscores may separate
    digits, and a numeral of more digits than the interpreter's limit
    is refused. *)

Definition is_space (a : ascii) : bool :=
  let n := nat_of_ascii a in
  ((9 <=? n)%nat && (n <=? 13)%nat) || (n =? 32)%nat.

Definition digit_of (a : ascii) : option Z :=
  let n := nat_of_ascii a in
  if (48 <=? n)%nat && (n <=? 57)%nat then Some (Z.of_nat n - 48) else None.

Fixpoint lstrip (s : string) : string :=
  match s with
  | EmptyString => EmptyString
  | String a s' => if is_space a then lstrip s' else s
  end.

Fixpoint rstrip (s : string) : string :=
  match s with
  | EmptyString => EmptyString
  | String a s' =>
      match rstrip s' with
      | EmptyString => if is_space a then EmptyString else String a EmptyString
      | r => String a r
      end
  end.

Definition strip (s : string) : string := rstrip (lstrip s).

(** Digits after the sign; [after_digit] tells whether the previous
    character was a digit (an underscore needs one on both sides). *)
Fixpoint int_digits (acc : Z) (after_digit : bool) (s : string) : option Z :=
  match s with
  | EmptyString => if after_digit then Some acc else None
  | String a s' =>
      match digit_of a with
      | Some d => int_digits (10 * acc + d) true s'
      | None =>
          if Ascii.eqb a "_" && after_digit then int_digits acc false s'
          else None
      end
  end.

(** The number of digits of a numeral; underscores do not count. *)
Fixpoint count_digits (s : string) : Z :=
  match s with
  | EmptyString => 0
  | String a s' =>
      match digit_of a with
      | Some _ => 1 + count_digits s'
      | None => count_digits s'
      end
  end.

(** The limit on the digits of a decimal numeral (CPython 3.11 and
    later): numerals of at most 640 digits always pass, longer ones
    pass when the limit is 0 (no limit) or not exceeded. *)
Definition within_digit_limit (max_str_digits digits : Z) : bool :=
  negb ((640 <? digits) && (0 <? max_str_digits) && (max_str_digits <? digits)).

(** [None] stands for [ValueError]. *)
Definition ascii_int (max_str_digits : Z) (s : string) : option Z :=
  let body := strip s in
  let signed :=
    match body with
    | String a rest =>
        if Ascii.eqb a "-" then
          if within_digit_limit max_str_digits (count_digits rest)
          then option_map Z.opp (int_digits 0 false rest) else None
        else if Ascii.eqb a "+" then
          if within_digit_limit max_str_digits (count_digits rest)
          then int_digits 0 false rest else None
        else
          if within_digit_limit max_str_digits (count_digits body)
          then int_digits 0 false body else None
    | EmptyString => None
    end in
  signed.

(** ** What [int()] does first to a text that is not all ASCII:
    characters below 127 stay, a Unicode whitespace character becomes
    a blank, a Unicode decimal digit becomes its ASCII digit, and at
    any other character the text is cut and closed with [?], which no
    numeral contains.  The two arguments are the character database:
    [isspace] and the decimal value of a code point. *)
Section DecimalAndSpaceToAscii.
Variable isspace : Z -> bool.
Variable decimal : Z -> option Z.

Definition ascii_of_code_point (cp : Z) : option ascii :=
  if isspace cp then Some " "%char
  else match decimal cp with
       | Some d =>
           if (0 <=? d) && (d <=? 9) then Some (ascii_of_nat (Z.to_nat (48 + d)))
           else None
       | None => None
       end.

(** The walk over the UTF-8 bytes: [pending] continuation bytes are
    still due for the code point whose leading bits are [cp]. *)
Fixpoint to_ascii (pending : nat) (cp : Z) (s : string) : string :=
  match s with
  | EmptyString => match pending with O => EmptyString | S _ => "?" end
  | String b s' =>
      let n := Z.of_nat (nat_of_ascii b) in
      match pending with
      | O =>
          if n <? 127 then String b (to_ascii 0 0 s')
          else if n <? 192 then "?"
          else if n <? 224 then to_ascii 1 (n - 192) s'
          else if n <? 240 then to_ascii 2 (n - 224) s'
          else if n <? 248 then to_ascii 3 (n - 240) s'
          else "?"
      | S more =>
          if (128 <=? n) && (n <? 192) then
            let cp := 64 * cp + (n - 128) in
            match more with
            | O =>
                match ascii_of_code_point cp with
                | Some a => String a (to_ascii 0 0 s')
                | None => "?"
                end
            | S _ => to_ascii more cp s'
            end
          else "?"
      end
  end.

End DecimalAndSpaceToAscii.

(** ** Double-precision arithmetic, as far as [timedelta] needs it.
    A finite double is held as the rational it stands for; a result
    is rounded to 53 significant bits, ties to the even neighbour.
    The values that arise from a [timedelta] lie far inside the range
    of normal doubles, so neither overflow nor gradual underflow is
    modelled. *)

(** The integer nearest to [n / d], ties to even, for [0 <= n], [0 < d] *)
Definition nearest_even (n d : Z) : Z :=
  let q := n / d in
  match 2 * (n mod d) ?= d with
  | Lt => q
  | Gt => q + 1
  | Eq => if Z.even q then q else q + 1
  end.

(** [n / (d * 2^s)] as a fraction of integers *)
Definition scaled (n d s : Z) : Z * Z :=
  if 0 <=? s then (n, d * 2 ^ s) else (n * 2 ^ (- s), d).

(** [m * 2^s] *)
Definition dyadic (m s : Z) : Q :=
  if 0 <=? s then inject_Z (m * 2 ^ s) else Qmake m (Z.to_pos (2 ^ (- s))).

Definition round_to_double (x : Q) : Q :=
  let n := Z.abs (Qnum x) in
  let d := Zpos (Qden x) in
  if n =? 0 then 0%Q
  else
    let k := Z.log2 n - Z.log2 d in
    let '(n1, d1) := scaled n d k in
    (* 2^e <= n / d < 2^(e+1) *)
    let e := if d1 <=? n1 then k else k - 1 in
    let '(n2, d2) := scaled n d (e - 52) in
    dyadic (Z.sgn (Qnum x) * nearest_even n2 d2) (e - 52).

(** [a / b] on two [int]s, [b] positive *)
Definition int_truediv (a : Z) (b : positive) : Q :=
  round_to_double (Qmake a b).

(** [x / b] on a [float] and an [int] that a double holds exactly *)
Definition float_div (x : Q) (b : Z) : Q :=
  round_to_double (Qdiv x (inject_Z b)).

(** [int(x)] on a [float]: truncation towards zero *)
Definition int_of_float (x : Q) : Z := Z.quot (Qnum x) (Zpos (Qden x)).

End Py.

Import Py.

Notation "x <- m ;; k" := (bind m (fun x => k))
  (at level 61, m at next level, right associativity).
Notation "' pat <- m ;; k" := (bind m (fun x => match x with pat => k end))
  (at level 61, pat pattern, m at next level, right associativity).

(* ================================================================== *)
(** * Element trees and the XPath fragment the parser evaluates *)
(* ================================================================== *)

Module XML.

Record qname : Type := { uri : string; local : string }.

Definition qname_eqb (a b : qname) : bool :=
  String.eqb (uri a) (uri b) && String.eqb (local a) (local b).

(** An lxml element: qualified tag, [.text] ([None] when there is no
    text before the first child) and child elements in document order. *)
#[warnings="-register-all"]
Inductive element : Type :=
| Element (tag : qname) (text : option string) (children : list element).

Definition tag (e : element) : qname := let 'Element t _ _ := e in t.
Definition text (e : element) : option string := let 'Element _ t _ := e in t.
Definition children (e : element) : list element := let 'Element _ _ c := e in c.

(** A location step [prefix:name], reached through [/] (child) or
    [//] (descendant), with the prefix already resolved. *)
Inductive axis : Type := Child | Descendant.

Record step : Type := { step_axis : axis; step_tag : qname }.

Definition path : Type := list step.

Definition is_descendant (st : step) : bool :=
  match step_axis st with Descendant => true | Child => false end.

Definition is_done (p : path) : bool :=
  match p with [] => true | _ => false end.

(** What is left of a pending path once the walk enters node [c]:
    a descendant step stays pending below [c]; a step that [c]
    satisfies hands over to the rest of the path. *)
Definition advance (c : element) (p : path) : list path :=
  match p with
  | [] => []
  | st :: rest =>
      (if is_descendant st then [p] else [])
      ++ (if qname_eqb (tag c) (step_tag st) then [rest] else [])
  end.

(** The nodes below [e] selected by one of the pending paths, each
    once, in document order. *)
Fixpoint select (pending : list path) (e : element) : list element :=
  match e with
  | Element _ _ cs =>
      flat_map
        (fun c =>
           let next := flat_map (advance c) pending in
           (if existsb is_done next then [c] else [])
           ++ select (filter (fun p => negb (is_done p)) next) c)
        cs
  end.

(** [e.xpath('./a/b')], [e.xpath('.//a/b')]: relative to [e] *)
Definition xpath (e : element) (p : path) : list element := select [p] e.

(** [root.xpath('//a')]: from the document node above the root element *)
Definition xpath_document (root : element) (p : path) : list element :=
  select [p] (Element {| uri := ""; local := "" |} None [root]).

End XML.

Import XML.

(* ================================================================== *)
(** * Library functions the repository calls but does not define *)
(* ================================================================== *)

(** A [datetime]: the wall-clock reading in microseconds since the
    epoch, and the UTC offset in microseconds when the value is
    timezone-aware ([None] for a naive value). *)
Record datetime : Type := { wall_us : Z; utcoffset : option Z }.

(** The type [float] with its literals and comparisons,
    [dateutil.parser.parse], [lxml.etree.fromstring], the clock, the
    Unicode character database and the interpreter's limit on the
    digits of a numeral are taken as given; every property below holds
    whatever they are. *)
Class Float : Type := float : Type.

Class Runtime {F : Float} : Type := {
  (** [float(s)]; [None] stands for [ValueError] *)
  float_of_str : string -> option float;
  (** pydantic's [ge=lo, le=hi] on a float *)
  float_between : Z -> Z -> float -> bool;
  (** [date_parser.parse(s)]; [None] stands for the parser's error *)
  dateutil_parse : string -> option datetime;
  (** [etree.fromstring(s.encode('utf-8'))]; [inl msg] stands for an
      exception whose [str()] is [msg] *)
  etree_fromstring : string -> string + element;
  (** [datetime.now()] *)
  datetime_now : datetime;
  (** [chr(cp).isspace()] for a code point from 127 on *)
  unicode_isspace : Z -> bool;
  (** [unicodedata.decimal(chr(cp))] for a code point from 127 on;
      [None] when the character is no decimal digit *)
  unicode_decimal : Z -> option Z;
  (** [sys.get_int_max_str_digits()] *)
  int_max_str_digits : Z;
  (** [s.lower()] for a text that is not all ASCII *)
  unicode_lower : string -> string
}.

Section Builtins.
Context {F : Float} {rt : Runtime}.

(** [int(s)] on a [str] *)
Definition int (s : string) : py Z :=
  let text := if isascii s then s else to_ascii unicode_isspace unicode_decimal 0 0 s in
  match ascii_int int_max_str_digits text with
  | Some z => ret z
  | None => raise ValueError
  end.

(** [s.lower()] *)
Definition lower (s : string) : string :=
  if isascii s then ascii_lower s else unicode_lower s.

End Builtins.

(** [a - d] on datetimes: a timedelta in microseconds; mixing a naive
    and an aware value raises. *)
Definition datetime_sub (a d : datetime) : py Z :=
  match utcoffset a, utcoffset d with
  | None, None => ret (wall_us a - wall_us d)
  | Some oa, Some od => ret ((wall_us a - oa) - (wall_us d - od))
  | _, _ => raise TypeError
  end.

(** [td.total_seconds()]: the microseconds of the timedelta divided
    by [10**6], one rounding. *)
Definition total_seconds (td_us : Z) : Q := int_truediv td_us 1000000.

(** [int(td.total_seconds() / 60)]: a second rounding, then
    truncation towards zero. *)
Definition whole_minutes (td_us : Z) : Z :=
  int_of_float (float_div (total_seconds td_us) 60).

(* ================================================================== *)
(** * models.py *)
(* ================================================================== *)

Module Coordinates.
Section WithRuntime.
Context {F : Float} {rt : Runtime}.

Record t : Type := { longitude : float; latitude : float }.

(** [Coordinates(longitude=.., latitude=..)] with its field bounds *)
Definition new (lon lat : float) : py t :=
  if float_between (-180) 180 lon && float_between (-90) 90 lat
  then ret {| longitude := lon; latitude := lat |}
  else raise ValidationError.
End WithRuntime.
End Coordinates.

Module Location.
Section WithRuntime.
Context {F : Float} {rt : Runtime}.

Inductive kind : Type := stop | poi | address.

Record t : Type := {
  id : option string;
  name : string;
  coordinates : option Coordinates.t;
  type : kind;
  probability : option float
}.

(** [Location(id=.., name=.., ..)]: [name] is a required [str], a
    given [probability] must lie in [[0, 1]]. *)
Definition new (id : option string) (name : option string)
           (coordinates : option Coordinates.t) (type : kind)
           (probability : option float) : py t :=
  match name with
  | None => raise ValidationError
  | Some name =>
      let ok := match probability with
                | Some p => float_between 0 1 p
                | None => true
                end in
      if ok then
        ret {| id := id; name := name; coordinates := coordinates;
               type := type; probability := probability |}
      else raise ValidationError
  end.

(** [Location(name="Unknown", probability=None)] *)
Definition unknown : t :=
  {| id := None; name := "Unknown"; coordinates := None;
     type := stop; probability := None |}.
End WithRuntime.
End Location.

Module Leg.
Section WithRuntime.
Context {F : Float} {rt : Runtime}.

Record t : Type := {
  mode : string;
  origin : Location.t;
  destination : Location.t;
  departure_time : option datetime;
  arrival_time : option datetime;
  duration_minutes : option Z;
  distance_meters : option Z;
  line_name : option string;
  direction : option string
}.
End WithRuntime.
End Leg.

Module Trip.
Section WithRuntime.
Context {F : Float} {rt : Runtime}.

(** [departure_time] and [arrival_time] are declared [datetime],
    not [Optional[datetime]]. *)
Record t : Type := {
  legs : list Leg.t;
  total_duration_minutes : Z;
  total_distance_meters : option Z;
  departure_time : datetime;
  arrival_time : datetime;
  transfers : Z
}.

(** [Trip(legs=.., total_duration_minutes=.., departure_time=..,
    arrival_time=.., transfers=..)]: validation rejects [None] for
    either instant. *)
Definition new (legs : list Leg.t) (total_duration_minutes : Z)
           (departure_time arrival_time : option datetime)
           (transfers : Z) : py t :=
  match departure_time, arrival_time with
  | Some d, Some a =>
      ret {| legs := legs; total_duration_minutes := total_duration_minutes;
             total_distance_meters := None;
             departure_time := d; arrival_time := a;
             transfers := transfers |}
  | _, _ => raise ValidationError
  end.
End WithRuntime.
End Trip.

Module TripResponse.
Section WithRuntime.
Context {F : Float} {rt : Runtime}.

Record t : Type := {
  success : bool;
  error_message : option string;
  timestamp : datetime;
  trips : list Trip.t
}.

Definition new (success : bool) (error_message : option string)
           (trips : list Trip.t) : t :=
  {| success := success; error_message := error_message;
     timestamp := datetime_now; trips := trips |}.
End WithRuntime.
End TripResponse.

Module LocationResponse.
Section WithRuntime.
Context {F : Float} {rt : Runtime}.

Record t : Type := {
  success : bool;
  error_message : option string;
  timestamp : datetime;
  locations : list Location.t
}.

Definition new (success : bool) (error_message : option string)
           (locations : list Location.t) : t :=
  {| success := success; error_message := error_message;
     timestamp := datetime_now; locations := locations |}.
End WithRuntime.
End LocationResponse.

(* ================================================================== *)
(** * parsers.py: class OJPParser *)
(* ================================================================== *)

Module OJPParser.

Definition NAMESPACES : list (string * string) :=
  [("siri", "http://www.siri.org.uk/siri"); ("ojp", "http://www.vdv.de/ojp")].

Definition namespace (prefix : string) : string :=
  match find (fun kv => String.eqb (fst kv) prefix) NAMESPACES with
  | Some kv => snd kv
  | None => EmptyString
  end.

(** [/prefix:name] and [//prefix:name] with [namespaces=cls.NAMESPACES] *)
Definition child (prefix name : string) : step :=
  {| step_axis := Child; step_tag := {| uri := namespace prefix; local := name |} |}.

Definition desc (prefix name : string) : step :=
  {| step_axis := Descendant; step_tag := {| uri := namespace prefix; local := name |} |}.

(** [elems[0].text if elems else default] *)
Definition first_text (elems : list element) (default : option string) : option string :=
  match elems with
  | e :: _ => text e
  | [] => default
  end.

(** The loops [for x in xs: r = f(x); if r: out.append(r)] of the
    entry points and of [_parse_trip]; model instances are truthy, so
    the test is [r is not None]. *)
Fixpoint collect {A B} (f : A -> option B) (xs : list A) : list B :=
  match xs with
  | [] => []
  | x :: xs' =>
      match f x with
      | Some r => r :: collect f xs'
      | None => collect f xs'
      end
  end.

(** The loops [for leg in legs: if leg.t: found = leg.t; break];
    a datetime is always truthy. *)
Fixpoint first_present {A B} (f : A -> option B) (xs : list A) : option B :=
  match xs with
  | [] => None
  | x :: xs' =>
      match f x with
      | Some b => Some b
      | None => first_present f xs'
      end
  end.

Section WithRuntime.
Context {F : Float} {rt : Runtime}.

(** [_parse_iso_duration] (parsers.py 375-402). *)
Definition _parse_iso_duration (duration_text : string) : py (option Z) :=
  try_except_only (fun e => is_ValueError e || is_IndexError e)
    (if negb (startswith duration_text "PT") then ret None
     else
       let duration_text := slice_from 2 duration_text in
       let minutes := 0 in
       '(minutes, duration_text) <-
         (if contains "H" duration_text then
            let parts := split "H" duration_text in
            part0 <- getitem parts 0 ;;
            hours <- int part0 ;;
            let minutes := minutes + hours * 60 in
            if 1 <? len parts then
              part1 <- getitem parts 1 ;; ret (minutes, part1)
            else ret (minutes, EmptyString)
          else ret (minutes, duration_text)) ;;
       minutes <-
         (if contains "M" duration_text then
            let minutes_part := remove "M" duration_text in
            if truthy minutes_part then
              m <- int minutes_part ;; ret (minutes + m)
            else ret minutes
          else ret minutes) ;;
       ret (Some minutes))
    (ret None).

(** [float(text)]: [None] is a [TypeError], a bad literal a [ValueError] *)
Definition py_float (text : option string) : py float :=
  match text with
  | None => raise TypeError
  | Some s =>
      match float_of_str s with
      | Some x => ret x
      | None => raise ValueError
      end
  end.

(** [date_parser.parse(text)] *)
Definition date_parser_parse (text : option string) : py datetime :=
  match text with
  | None => raise TypeError
  | Some s =>
      match dateutil_parse s with
      | Some d => ret d
      | None => raise ValueError
      end
  end.

(** [_parse_transfer_location] (parsers.py 355-373). *)
Definition _parse_transfer_location (location_elem : element) : Location.t :=
  try_except
    (let name_elem := xpath location_elem [desc "ojp" "Name"; child "ojp" "Text"] in
     let name_elem :=
       if negb (nonempty name_elem)
       then xpath location_elem [desc "ojp" "n"; child "ojp" "Text"]
       else name_elem in
     let name := first_text name_elem (Some "Unknown") in
     let ref_elem := xpath location_elem [desc "siri" "StopPointRef"] in
     let location_id := first_text ref_elem None in
     Location.new location_id name None Location.stop None)
    (fun _ => Location.unknown).

(** [_parse_leg_board_alight] (parsers.py 404-419). *)
Definition _parse_leg_board_alight (location_elem : element) : Location.t :=
  try_except
    (let name_elem := xpath location_elem [desc "ojp" "StopPointName"; child "ojp" "Text"] in
     let name := first_text name_elem (Some "Unknown") in
     let ref_elem := xpath location_elem [desc "siri" "StopPointRef"] in
     let location_id := first_text ref_elem None in
     Location.new location_id name None Location.stop None)
    (fun _ => Location.unknown).

(** [if elems: try: t = date_parser.parse(elems[0].text) except
    Exception: pass] (parsers.py 173-177, 183-187). *)
Definition parse_time (elems : list element) : option datetime :=
  match elems with
  | [] => None
  | e :: _ =>
      try_except (t <- date_parser_parse (text e) ;; ret (Some t))
                 (fun _ => None)
  end.

(** The transport mode read from a [Service] element; [mode] is
    the default in force (parsers.py 211-254). *)
Definition transport_mode (service0 : element) (mode : string) : string :=
  let mode_elem := xpath service0 [desc "ojp" "Mode"; child "ojp" "PtMode"] in
  match first_text mode_elem None with
  | None => mode
  | Some pt_mode =>
      if negb (truthy pt_mode) then mode
      else
        let mode := lower pt_mode in
        if (lower pt_mode =? "rail")%string then
          let rail_submode_elem :=
            xpath service0 [desc "ojp" "Mode"; child "siri" "RailSubmode"] in
          match first_text rail_submode_elem None with
          | None => mode
          | Some submode =>
              if negb (truthy submode) then mode
              else if (submode =? "regionalRail")%string then "regional_train"
              else if (submode =? "suburbanRailway")%string then "s_bahn"
              else if (submode =? "interregionalRail")%string then "intercity"
              else if (submode =? "highSpeedRail")%string then "high_speed_rail"
              else "train"
          end
        else if (lower pt_mode =? "bus")%string then
          let bus_submode_elem :=
            xpath service0 [desc "ojp" "Mode"; child "siri" "BusSubmode"] in
          match first_text bus_submode_elem None with
          | None => mode
          | Some submode =>
              if negb (truthy submode) then mode
              else if (submode =? "localBus")%string then "bus"
              else if (submode =? "expressBus")%string then "express_bus"
              else if (submode =? "nightBus")%string then "night_bus"
              else "bus"
          end
        else if (lower pt_mode =? "tram")%string then "tram"
        else if (lower pt_mode =? "metro")%string then "metro"
        else if (lower pt_mode =? "funicular")%string then "funicular"
        else if (lower pt_mode =? "cableCar")%string then "cable_car"
        else mode
  end.

(** [_parse_timed_leg] (parsers.py 150-267). *)
Definition _parse_timed_leg (leg_elem : element) : option Leg.t :=
  try_except
    (let board_elem := xpath leg_elem [desc "ojp" "LegBoard"] in
     let alight_elem := xpath leg_elem [desc "ojp" "LegAlight"] in
     match board_elem, alight_elem with
     | board0 :: _, alight0 :: _ =>
         let origin := _parse_leg_board_alight board0 in
         let destination := _parse_leg_board_alight alight0 in
         let dep_time_elem :=
           xpath board0 [desc "ojp" "ServiceDeparture"; child "ojp" "EstimatedTime"] in
         let dep_time_elem :=
           if negb (nonempty dep_time_elem)
           then xpath board0 [desc "ojp" "ServiceDeparture"; child "ojp" "TimetabledTime"]
           else dep_time_elem in
         let departure_time := parse_time dep_time_elem in
         let arr_time_elem :=
           xpath alight0 [desc "ojp" "ServiceArrival"; child "ojp" "EstimatedTime"] in
         let arr_time_elem :=
           if negb (nonempty arr_time_elem)
           then xpath alight0 [desc "ojp" "ServiceArrival"; child "ojp" "TimetabledTime"]
           else arr_time_elem in
         let arrival_time := parse_time arr_time_elem in
         let service := xpath leg_elem [desc "ojp" "Service"] in
         let mode := "public_transport" in
         let '(line_name, direction, mode) :=
           match service with
           | [] => (None, None, mode)
           | service0 :: _ =>
               let line_elem :=
                 xpath service0 [desc "ojp" "PublishedServiceName"; child "ojp" "Text"] in
               let line_name := first_text line_elem None in
               let line_name :=
                 if negb (truthy_opt line_name)
                 then first_text (xpath service0 [desc "ojp" "PublicCode"]) line_name
                 else line_name in
               let direction_elem :=
                 xpath service0 [desc "ojp" "DestinationText"; child "ojp" "Text"] in
               let direction := first_text direction_elem None in
               let mode := transport_mode service0 mode in
               (line_name, direction, mode)
           end in
         ret (Some {| Leg.mode := mode;
                      Leg.origin := origin;
                      Leg.destination := destination;
                      Leg.departure_time := departure_time;
                      Leg.arrival_time := arrival_time;
                      Leg.duration_minutes := None;
                      Leg.distance_meters := None;
                      Leg.line_name := line_name;
                      Leg.direction := direction |})
     | _, _ => ret None
     end)
    (fun _ => None).

(** The part shared by [_parse_continuous_leg] and
    [_parse_transfer_leg] once their element lists are found
    (parsers.py 281-309 and 322-350). *)
Definition transfer_like_leg (origin_elem destination_elem transfer_type_elem
                              duration_elem : list element) : py (option Leg.t) :=
  let origin := match origin_elem with
                | e :: _ => Some (_parse_transfer_location e)
                | [] => None
                end in
  let destination := match destination_elem with
                     | e :: _ => Some (_parse_transfer_location e)
                     | [] => None
                     end in
  let mode := "walking" in
  let mode := match first_text transfer_type_elem None with
              | Some mode_text => if truthy mode_text then lower mode_text else mode
              | None => mode
              end in
  duration_minutes <-
    match first_text duration_elem None with
    | Some duration_text =>
        if truthy duration_text then _parse_iso_duration duration_text
        else ret None
    | None => ret None
    end ;;
  ret (Some {| Leg.mode := mode;
               Leg.origin := match origin with Some l => l | None => Location.unknown end;
               Leg.destination :=
                 match destination with Some l => l | None => Location.unknown end;
               Leg.departure_time := None;
               Leg.arrival_time := None;
               Leg.duration_minutes := duration_minutes;
               Leg.distance_meters := None;
               Leg.line_name := None;
               Leg.direction := None |}).

(** [_parse_continuous_leg] (parsers.py 269-312). *)
Definition _parse_continuous_leg (leg_elem : element) : option Leg.t :=
  try_except
    (let transfer_leg := xpath leg_elem [desc "ojp" "TransferLeg"] in
     match transfer_leg with
     | [] => ret None
     | transfer_leg0 :: _ =>
         let origin_elem := xpath transfer_leg0 [desc "ojp" "LegStart"] in
         let destination_elem := xpath transfer_leg0 [desc "ojp" "LegEnd"] in
         let transfer_type_elem := xpath transfer_leg0 [desc "ojp" "TransferType"] in
         let duration_elem := xpath leg_elem [desc "ojp" "Duration"] in
         let duration_elem :=
           if negb (nonempty duration_elem)
           then xpath transfer_leg0 [desc "ojp" "Duration"]
           else duration_elem in
         transfer_like_leg origin_elem destination_elem transfer_type_elem duration_elem
     end)
    (fun _ => None).

(** [_parse_transfer_leg] (parsers.py 314-353). *)
Definition _parse_transfer_leg (leg_elem transfer_leg_elem : element) : option Leg.t :=
  try_except
    (let origin_elem := xpath transfer_leg_elem [child "ojp" "LegStart"] in
     let destination_elem := xpath transfer_leg_elem [child "ojp" "LegEnd"] in
     let transfer_type_elem := xpath transfer_leg_elem [child "ojp" "TransferType"] in
     let duration_elem := xpath leg_elem [child "ojp" "Duration"] in
     let duration_elem :=
       if negb (nonempty duration_elem)
       then xpath transfer_leg_elem [child "ojp" "Duration"]
       else duration_elem in
     transfer_like_leg origin_elem destination_elem transfer_type_elem duration_elem)
    (fun _ => None).

(** [_parse_leg] (parsers.py 129-148). *)
Definition _parse_leg (leg_elem : element) : option Leg.t :=
  try_except
    (let timed_leg := xpath leg_elem [desc "ojp" "TimedLeg"] in
     let continuous_leg := xpath leg_elem [desc "ojp" "ContinuousLeg"] in
     let transfer_leg := xpath leg_elem [child "ojp" "TransferLeg"] in
     match timed_leg, continuous_leg, transfer_leg with
     | timed_leg0 :: _, _, _ => ret (_parse_timed_leg timed_leg0)
     | [], continuous_leg0 :: _, _ => ret (_parse_continuous_leg continuous_leg0)
     | [], [], transfer_leg0 :: _ => ret (_parse_transfer_leg leg_elem transfer_leg0)
     | [], [], [] => ret None
     end)
    (fun _ => None).

(** [leg.mode not in ['walk', 'walking']] *)
Definition not_walking (leg : Leg.t) : bool :=
  negb (existsb (String.eqb (Leg.mode leg)) ["walk"; "walking"]).

(** The fallback loop of [_parse_trip] (parsers.py 99-104), started
    with the running [total_duration]; a duration of [0] is falsy. *)
Fixpoint sum_leg_durations (total_duration : Z) (legs : list Leg.t) : py Z :=
  match legs with
  | [] => ret total_duration
  | leg :: legs' =>
      total_duration <-
        match Leg.duration_minutes leg with
        | Some d =>
            if negb (d =? 0) then ret (total_duration + d)
            else
              match Leg.departure_time leg, Leg.arrival_time leg with
              | Some dep, Some arr =>
                  td <- datetime_sub arr dep ;;
                  ret (total_duration + whole_minutes td)
              | _, _ => ret total_duration
              end
        | None =>
            match Leg.departure_time leg, Leg.arrival_time leg with
            | Some dep, Some arr =>
                td <- datetime_sub arr dep ;;
                ret (total_duration + whole_minutes td)
            | _, _ => ret total_duration
            end
        end ;;
      sum_leg_durations total_duration legs'
  end.

(** [total_duration] as [_parse_trip] computes it (parsers.py 93-104). *)
Definition total_duration (legs : list Leg.t)
           (departure_time arrival_time : option datetime) : py Z :=
  match departure_time, arrival_time with
  | Some dep, Some arr =>
      td <- datetime_sub arr dep ;; ret (whole_minutes td)
  | _, _ => sum_leg_durations 0 legs
  end.

(** [transfers] as [_parse_trip] computes it (parsers.py 106-108). *)
Definition count_transfers (legs : list Leg.t) : Z :=
  let public_transport_legs := filter not_walking legs in
  Z.max 0 (len public_transport_legs - 1).

(** The body of [_parse_trip] once the legs are decoded
    (parsers.py 75-124). *)
Definition trip_of_legs (legs : list Leg.t) : py (option Trip.t) :=
  if negb (nonempty legs) then ret None
  else
    let departure_time := first_present Leg.departure_time legs in
    let arrival_time := first_present Leg.arrival_time (rev legs) in
    total_duration <- total_duration legs departure_time arrival_time ;;
    let transfers := count_transfers legs in
    departure_time <-
      match departure_time with
      | Some _ => ret departure_time
      | None => leg0 <- getitem legs 0 ;; ret (Leg.departure_time leg0)
      end ;;
    arrival_time <-
      match arrival_time with
      | Some _ => ret arrival_time
      | None => leg_last <- getitem (rev legs) 0 ;; ret (Leg.arrival_time leg_last)
      end ;;
    trip <- Trip.new legs total_duration departure_time arrival_time transfers ;;
    ret (Some trip).

(** [_parse_trip] (parsers.py 62-127). *)
Definition _parse_trip (trip_elem : element) : option Trip.t :=
  try_except
    (let leg_elements := xpath trip_elem [desc "ojp" "Leg"] in
     let legs := collect _parse_leg leg_elements in
     trip_of_legs legs)
    (fun _ => None).

(** [Coordinates(longitude=float(lon.text), latitude=float(lat.text))]
    under [except (ValueError, TypeError): pass] (parsers.py 480-487). *)
Definition parse_coordinates (lon_elem lat_elem : list element) : py (option Coordinates.t) :=
  match lon_elem, lat_elem with
  | lon0 :: _, lat0 :: _ =>
      try_except_only (fun e => is_ValueError e || is_TypeError e)
        (lon <- py_float (text lon0) ;;
         lat <- py_float (text lat0) ;;
         c <- Coordinates.new lon lat ;;
         ret (Some c))
        (ret None)
  | _, _ => ret None
  end.

(** [_parse_leg_location] (parsers.py 421-448); no other method
    calls it. *)
Definition _parse_leg_location (location_elem : element) : Location.t :=
  try_except
    (let name_elem := xpath location_elem [desc "ojp" "LocationName"; child "ojp" "Text"] in
     let name := first_text name_elem (Some "Unknown") in
     let coord_elem := xpath location_elem [desc "ojp" "GeoPosition"] in
     coordinates <-
       match coord_elem with
       | [] => ret None
       | coord0 :: _ =>
           let lon_elem := xpath coord0 [desc "ojp" "Longitude"] in
           let lat_elem := xpath coord0 [desc "ojp" "Latitude"] in
           parse_coordinates lon_elem lat_elem
       end ;;
     Location.new None name coordinates Location.stop None)
    (fun _ => Location.unknown).

(** [_parse_place_result] (parsers.py 450-513). *)
Definition _parse_place_result (place_elem : element) : option Location.t :=
  try_except
    (let place := xpath place_elem [child "ojp" "Place"] in
     match place with
     | [] => ret None
     | place :: _ =>
         let name_elem := xpath place [child "ojp" "Name"; child "ojp" "Text"] in
         let name := first_text name_elem None in
         let name :=
           if negb (truthy_opt name) then
             let stop_name_elem :=
               xpath place [child "ojp" "StopPlace"; child "ojp" "StopPlaceName";
                            child "ojp" "Text"] in
             first_text stop_name_elem None
           else name in
         if negb (truthy_opt name) then ret None
         else
           let coord_elem := xpath place [child "ojp" "GeoPosition"] in
           coordinates <-
             match coord_elem with
             | [] => ret None
             | coord0 :: _ =>
                 let lon_elem := xpath coord0 [child "siri" "Longitude"] in
                 let lat_elem := xpath coord0 [child "siri" "Latitude"] in
                 parse_coordinates lon_elem lat_elem
             end ;;
           let id_elem := xpath place [child "ojp" "StopPlace"; child "ojp" "StopPlaceRef"] in
           let location_id := first_text id_elem None in
           let prob_elem := xpath place_elem [child "ojp" "Probability"] in
           probability <-
             match prob_elem with
             | [] => ret None
             | prob0 :: _ =>
                 try_except_only (fun e => is_ValueError e || is_TypeError e)
                   (p <- py_float (text prob0) ;; ret (Some p))
                   (ret None)
             end ;;
           location <- Location.new location_id name coordinates Location.stop probability ;;
           ret (Some location)
     end)
    (fun _ => None).

(** [etree.fromstring(xml_content.encode('utf-8'))] *)
Definition fromstring (xml_content : string) : py element :=
  match etree_fromstring xml_content with
  | inl msg => raise (LibraryError msg)
  | inr root => ret root
  end.

(** [parse_trip_response] (parsers.py 22-40). *)
Definition parse_trip_response (xml_content : string) : TripResponse.t :=
  try_except
    (root <- fromstring xml_content ;;
     let trip_results := xpath_document root [desc "ojp" "TripResult"] in
     let trips := collect _parse_trip trip_results in
     ret (TripResponse.new true None trips))
    (fun e =>
       TripResponse.new false
         (Some (String.append "Failed to parse trip response: " (str_of_exn e))) []).

(** [parse_location_response] (parsers.py 42-60). *)
Definition parse_location_response (xml_content : string) : LocationResponse.t :=
  try_except
    (root <- fromstring xml_content ;;
     let place_results := xpath_document root [desc "ojp" "PlaceResult"] in
     let locations := collect _parse_place_result place_results in
     ret (LocationResponse.new true None locations))
    (fun e =>
       LocationResponse.new false
         (Some (String.append "Failed to parse location response: " (str_of_exn e))) []).

End WithRuntime.

End OJPParser.

Import OJPParser.

(* ================================================================== *)
(** * What the request side takes from its host *)
(* ================================================================== *)

(** The outcome of [client.post(..)] followed by
    [response.raise_for_status()]: the body of an accepted response,
    or the exception raised, with the texts the handlers read. *)
Inductive http_outcome : Type :=
| Delivered (text : string)
| HTTPStatusError (status_code : Z) (text : string)
| RequestError (message : string)
| OtherError (message : string).

Class Host : Type := {
  (** the successive readings of [datetime.now(UTC)] during one call *)
  utc_clock : nat -> datetime;
  (** [datetime.now()] *)
  local_clock : datetime;
  (** [d.strftime("%Y-%m-%dT%H:%M:%SZ")] *)
  strftime_seconds_z : datetime -> string;
  (** [d.isoformat()] *)
  isoformat : datetime -> string;
  (** [datetime.fromisoformat(s)]; [None] stands for [ValueError] *)
  fromisoformat : string -> option datetime;
  (** [str(e)] of the pydantic error for a model, a field of it and
      the value refused *)
  validation_text : string -> string -> Z -> string;
  (** the request over the network *)
  http_post : Z -> string -> string -> list (string * string) -> http_outcome;
  (** the module constants of [client.py], read from the environment *)
  OJP_V2_ENDPOINT : string;
  OJP_API_KEY : string;
  DEFAULT_REQUESTOR_REF : string;
  DEFAULT_TIMEOUT : Z
}.

(** [str(n)] of an [int], as an f-string prints it. *)
Definition str_of_int (n : Z) : string := NilZero.string_of_int (Z.to_int n).

Definition quote : string := String (ascii_of_nat 34) EmptyString.

Definition newline : string := String (ascii_of_nat 10) EmptyString.

(** A text given line by line, each line in pieces. *)
Definition lines (ls : list (list string)) : string :=
  String.concat newline (map (String.concat EmptyString) ls).

(** [a == b] on lists of [str] *)
Fixpoint list_eqb (a b : list string) : bool :=
  match a, b with
  | [], [] => true
  | x :: a', y :: b' => String.eqb x y && list_eqb a' b'
  | _, _ => false
  end.

(* ================================================================== *)
(** * models.py: the request parameters *)
(* ================================================================== *)

Module TripRequestParams.
Section WithHost.
Context {host : Host}.

Record t : Type := {
  origin : string;
  destination : string;
  origin_stop_point_ref : string;
  destination_stop_point_ref : string;
  departure_time : option datetime;
  arrival_time : option datetime;
  transport_modes : list string;
  max_results : Z;
  include_accessibility : bool
}.

(** [TripRequestParams(origin=.., .., max_results=..)] as [main.py]
    calls it: [max_results] must lie in [[1, 20]];
    [include_accessibility] takes its default.  [inl] carries the
    text of the validation error. *)
Definition new (origin destination origin_stop_point_ref destination_stop_point_ref : string)
           (arrival_time departure_time : option datetime)
           (transport_modes : list string) (max_results : Z) : string + t :=
  if (1 <=? max_results) && (max_results <=? 20) then
    inr {| origin := origin; destination := destination;
           origin_stop_point_ref := origin_stop_point_ref;
           destination_stop_point_ref := destination_stop_point_ref;
           departure_time := departure_time; arrival_time := arrival_time;
           transport_modes := transport_modes; max_results := max_results;
           include_accessibility := false |}
  else inl (validation_text "TripRequestParams" "max_results" max_results).

End WithHost.
End TripRequestParams.

Module LocationSearchParams.
Section WithHost.
Context {F : Float} {host : Host}.

Record t : Type := {
  query : option string;
  coordinates : option Coordinates.t;
  radius : Z;
  location_types : list string;
  max_results : Z
}.

(** [LocationSearchParams(query=.., coordinates=None, max_results=..)]
    as [main.py] calls it: [max_results] must lie in [[1, 50]];
    [radius] and [location_types] take their defaults. *)
Definition new (query : option string) (coordinates : option Coordinates.t)
           (max_results : Z) : string + t :=
  if (1 <=? max_results) && (max_results <=? 50) then
    inr {| query := query; coordinates := coordinates; radius := 1000;
           location_types := ["stop"]; max_results := max_results |}
  else inl (validation_text "LocationSearchParams" "max_results" max_results).

End WithHost.
End LocationSearchParams.

(* ================================================================== *)
(** * xml_templates.py *)
(* ================================================================== *)

Module XmlTemplates.
Section WithHost.
Context {host : Host}.

(** [get_trip_request_xml] (xml_templates.py 7-71). *)
Definition get_trip_request_xml
           (origin destination origin_stop_point_ref destination_stop_point_ref : string)
           (max_results : Z) (departure_time : option datetime)
           (transport_modes : option (list string)) (requestor_ref : string) : string :=
  let '(departure_time, readings) :=
    match departure_time with
    | None => (utc_clock 0, 1%nat)
    | Some t => (t, 0%nat)
    end in
  let timestamp := strftime_seconds_z departure_time in
  let request_timestamp := strftime_seconds_z (utc_clock readings) in
  let mode_filters := EmptyString in
  let mode_filters :=
    match transport_modes with
    | Some (mode :: modes) =>
        if list_eqb (mode :: modes) ["public_transport"]
           || existsb (String.eqb "public_transport") (mode :: modes)
        then EmptyString
        else EmptyString
    | _ => mode_filters
    end in
  lines
    [
     ["<?xml version="; quote; "1.0"; quote; " encoding="; quote; "UTF-8"; quote; "?>"];
     ["<OJP xmlns="; quote; "http://www.vdv.de/ojp"; quote; " xmlns:siri="; quote;
      "http://www.siri.org.uk/siri"; quote; " version="; quote; "2.0"; quote; " xmlns:xsi=";
      quote; "http://www.w3.org/2001/XMLSchema-instance"; quote; " xsi:schemaLocation="; quote;
      "http://www.vdv.de/ojp OJP_changes_for_v1.1/OJP.xsd"; quote; ">"];
     ["	<OJPRequest>"];
     ["		<siri:ServiceRequest>"];
     ["			<siri:RequestTimestamp>"; request_timestamp; "</siri:RequestTimestamp>"];
     ["			<siri:RequestorRef>"; requestor_ref; "</siri:RequestorRef>"];
     ["			<OJPTripRequest>"];
     ["				<siri:RequestTimestamp>"; request_timestamp; "</siri:RequestTimestamp>"];
     ["				<siri:MessageIdentifier>TR-1h2</siri:MessageIdentifier>"];
     ["				<Origin>"];
     ["					<PlaceRef>"];
     ["						<siri:StopPointRef>"; origin_stop_point_ref; "</siri:StopPointRef>"];
     ["						<n>"];
     ["							<Text>"; origin; "</Text>"];
     ["						</n>"];
     ["					</PlaceRef>"];
     ["                    <DepArrTime>"; timestamp; "</DepArrTime>"];
     ["				</Origin>"];
     ["				<Destination>"];
     ["					<PlaceRef>"];
     ["						<siri:StopPointRef>"; destination_stop_point_ref; "</siri:StopPointRef>"];
     ["						<n>"];
     ["							<Text>"; destination; "</Text>"];
     ["						</n>"];
     ["					</PlaceRef>"];
     ["				</Destination>"];
     ["				<Params>"];
     ["					"; mode_filters];
     ["					<NumberOfResults>"; str_of_int max_results; "</NumberOfResults>"];
     ["				</Params>"];
     ["			</OJPTripRequest>"];
     ["		</siri:ServiceRequest>"];
     ["	</OJPRequest>"];
     ["</OJP>"]
    ].

(** [get_location_request_xml] (xml_templates.py 73-99). *)
Definition get_location_request_xml (query requestor_ref : string) : string :=
  let request_timestamp := strftime_seconds_z local_clock in
  lines
    [
     ["<?xml version="; quote; "1.0"; quote; " encoding="; quote; "UTF-8"; quote; "?>"];
     ["<OJP xmlns="; quote; "http://www.vdv.de/ojp"; quote; " xmlns:siri="; quote;
      "http://www.siri.org.uk/siri"; quote; " version="; quote; "2.0"; quote; " xmlns:xsi=";
      quote; "http://www.w3.org/2001/XMLSchema-instance"; quote; " xsi:schemaLocation="; quote;
      "http://www.vdv.de/ojp ../../../../Downloads/OJP-changes_for_v1.1%20(1)/OJP-changes_for_v1.1/OJP.xsd";
      quote; ">"];
     ["    <OJPRequest>"];
     ["        <siri:ServiceRequest>"];
     ["            <siri:RequestTimestamp>"; request_timestamp; "</siri:RequestTimestamp>"];
     ["            <siri:RequestorRef>"; requestor_ref; "</siri:RequestorRef>"];
     ["            <OJPLocationInformationRequest>"];
     ["                <siri:RequestTimestamp>"; request_timestamp; "</siri:RequestTimestamp>"];
     ["                <siri:MessageIdentifier>LIR-1a</siri:MessageIdentifier>"];
     ["                <InitialInput>"];
     ["                    <Name>"; query; "</Name>"];
     ["                </InitialInput>"];
     ["                <Restrictions>"];
     ["                    <Type>stop</Type>"];
     ["                    <NumberOfResults>10</NumberOfResults>"];
     ["                </Restrictions>"];
     ["            </OJPLocationInformationRequest>"];
     ["        </siri:ServiceRequest>"];
     ["    </OJPRequest>"];
     ["</OJP>"]
    ].

End WithHost.
End XmlTemplates.

Import XmlTemplates.

(* ================================================================== *)
(** * client.py *)
(* ================================================================== *)

Module OJPClient.
Section WithHost.
Context {F : Float} {rt : Runtime} {host : Host}.

Record t : Type := {
  api_key : string;
  endpoint : string;
  requestor_ref : string;
  timeout : Z;
  headers : list (string * string)
}.

(** [OJPClient.__init__] (client.py 30-46). *)
Definition new (api_key endpoint requestor_ref : string) (timeout : Z) : t :=
  {| api_key := api_key; endpoint := endpoint; requestor_ref := requestor_ref;
     timeout := timeout;
     headers := [("Content-Type", "application/xml");
                 ("Authorization", String.append "Bearer " api_key)] |}.

(** [OJPClient.trip_request] (client.py 48-89). *)
Definition trip_request (self : t) (params : TripRequestParams.t) : TripResponse.t :=
  let xml_request :=
    get_trip_request_xml
      (TripRequestParams.origin params)
      (TripRequestParams.destination params)
      (TripRequestParams.origin_stop_point_ref params)
      (TripRequestParams.destination_stop_point_ref params)
      (TripRequestParams.max_results params)
      (TripRequestParams.departure_time params)
      (Some (TripRequestParams.transport_modes params))
      (requestor_ref self) in
  match http_post (timeout self) (endpoint self) xml_request (headers self) with
  | Delivered text => parse_trip_response text
  | HTTPStatusError status_code text =>
      TripResponse.new false
        (Some (String.concat EmptyString
                 ["HTTP error "; str_of_int status_code; ": "; text])) []
  | RequestError message =>
      TripResponse.new false (Some (String.append "Request error: " message)) []
  | OtherError message =>
      TripResponse.new false (Some (String.append "Unexpected error: " message)) []
  end.

(** [OJPClient.location_search] (client.py 91-132). *)
Definition location_search (self : t) (params : LocationSearchParams.t)
  : LocationResponse.t :=
  match LocationSearchParams.query params with
  | Some (String a q) =>
      let xml_request := get_location_request_xml (String a q) (requestor_ref self) in
      match http_post (timeout self) (endpoint self) xml_request (headers self) with
      | Delivered text => parse_location_response text
      | HTTPStatusError status_code text =>
          LocationResponse.new false
            (Some (String.concat EmptyString
                     ["HTTP error "; str_of_int status_code; ": "; text])) []
      | RequestError message =>
          LocationResponse.new false (Some (String.append "Request error: " message)) []
      | OtherError message =>
          LocationResponse.new false (Some (String.append "Unexpected error: " message)) []
      end
  | _ =>
      LocationResponse.new false
        (Some "Query parameter is required for location search") []
  end.

(** [get_ojp_client] (client.py 138-143): the instance built with the
    defaults of the module. *)
Definition get_ojp_client : t :=
  new OJP_API_KEY OJP_V2_ENDPOINT DEFAULT_REQUESTOR_REF DEFAULT_TIMEOUT.

End WithHost.
End OJPClient.

(* ================================================================== *)
(** * main.py *)
(* ================================================================== *)

Module Main.
Section WithHost.
Context {F : Float} {rt : Runtime} {host : Host}.

(** The values the tools answer with: [None], [bool], [int], [float],
    [str], lists, and dicts with their keys in insertion order. *)
#[warnings="-register-all"]
Inductive value : Type :=
| VNone
| VBool (b : bool)
| VInt (n : Z)
| VFloat (x : float)
| VStr (s : string)
| VList (items : list value)
| VDict (entries : list (string * value)).

(** [d.get(key)] on a dict value *)
Definition get (key : string) (d : value) : option value :=
  match d with
  | VDict entries =>
      option_map snd (find (fun kv => String.eqb (fst kv) key) entries)
  | _ => None
  end.

Definition items_of (v : value) : list value :=
  match v with
  | VList items => items
  | _ => []
  end.

Definition str_or_none (s : option string) : value :=
  match s with Some s => VStr s | None => VNone end.

Definition int_or_none (n : option Z) : value :=
  match n with Some n => VInt n | None => VNone end.

(** [t.isoformat() if t else None] *)
Definition isoformat_or_none (t : option datetime) : value :=
  match t with Some t => VStr (isoformat t) | None => VNone end.

(** [{"longitude": .., "latitude": ..} if c else None] *)
Definition coordinates_or_none (c : option Coordinates.t) : value :=
  match c with
  | Some c => VDict [("longitude", VFloat (Coordinates.longitude c));
                     ("latitude", VFloat (Coordinates.latitude c))]
  | None => VNone
  end.

(** [s.replace(c, by)] for a one-character [c] *)
Fixpoint replace (c : ascii) (by_ : string) (s : string) : string :=
  match s with
  | EmptyString => EmptyString
  | String a s' =>
      if Ascii.eqb a c then String.append by_ (replace c by_ s')
      else String a (replace c by_ s')
  end.

(** The literal a [Location.type] holds. *)
Definition kind_name (k : Location.kind) : string :=
  match k with
  | Location.stop => "stop"
  | Location.poi => "poi"
  | Location.address => "address"
  end.

(** [leg_dict] (main.py 84-105). *)
Definition leg_dict (leg : Leg.t) : value :=
  VDict
    [("mode", VStr (Leg.mode leg));
     ("origin",
      VDict [("name", VStr (Location.name (Leg.origin leg)));
             ("coordinates", coordinates_or_none (Location.coordinates (Leg.origin leg)))]);
     ("destination",
      VDict [("name", VStr (Location.name (Leg.destination leg)));
             ("coordinates",
              coordinates_or_none (Location.coordinates (Leg.destination leg)))]);
     ("departure_time_utc", isoformat_or_none (Leg.departure_time leg));
     ("arrival_time_utc", isoformat_or_none (Leg.arrival_time leg));
     ("duration_minutes", int_or_none (Leg.duration_minutes leg));
     ("line_name", str_or_none (Leg.line_name leg));
     ("direction", str_or_none (Leg.direction leg))].

(** [trip_dict] with its legs appended (main.py 75-108). *)
Definition trip_dict (trip : Trip.t) : value :=
  VDict
    [("departure_time", VStr (isoformat (Trip.departure_time trip)));
     ("arrival_time", VStr (isoformat (Trip.arrival_time trip)));
     ("total_duration_minutes", VInt (Trip.total_duration_minutes trip));
     ("transfers", VInt (Trip.transfers trip));
     ("legs", VList (map leg_dict (Trip.legs trip)))].

(** [if response.error_message: result["error"] = response.error_message] *)
Definition error_entry (error_message : option string) : list (string * value) :=
  match error_message with
  | Some (String a m) => [("error", VStr (String a m))]
  | _ => []
  end.

(** [_trip_request_internal] (main.py 21-116). *)
Definition _trip_request_internal
           (origin destination origin_stop_point_ref destination_stop_point_ref : string)
           (departure_time : option string) (transport_modes : list string)
           (max_results : Z) : value :=
  let departure_dt :=
    match departure_time with
    | Some (String a s) =>
        match fromisoformat (replace "Z" "+00:00" (String a s)) with
        | Some t => inr (Some t)
        | None => inl tt
        end
    | _ => inr None
    end in
  match departure_dt with
  | inl _ =>
      VDict [("success", VBool false);
             ("error",
              VStr "Invalid departure time format. Use YYYY-MM-DDTHH:MM:SS format.")]
  | inr departure_dt =>
      match TripRequestParams.new origin destination origin_stop_point_ref
                                  destination_stop_point_ref None departure_dt
                                  transport_modes max_results with
      | inl message =>
          VDict [("success", VBool false);
                 ("error", VStr (String.append "Unexpected error: " message))]
      | inr params =>
          let client := OJPClient.get_ojp_client in
          let response := OJPClient.trip_request client params in
          VDict
            ([("success", VBool (TripResponse.success response));
              ("timestamp", VStr (isoformat (TripResponse.timestamp response)));
              ("trips", VList (map trip_dict (TripResponse.trips response)))]
             ++ error_entry (TripResponse.error_message response))
      end
  end.

(** The tool [trip_request] (main.py 118-139). *)
Definition trip_request
           (origin destination origin_stop_point_ref destination_stop_point_ref : string)
           (departure_time : option string) (transport_modes : list string)
           (max_results : Z) : value :=
  _trip_request_internal origin destination origin_stop_point_ref
                         destination_stop_point_ref departure_time transport_modes
                         max_results.

(** [location_dict] (main.py 179-187). *)
Definition location_dict (location : Location.t) : value :=
  VDict
    [("stop_point_reference", str_or_none (Location.id location));
     ("name", VStr (Location.name location));
     ("type", VStr (kind_name (Location.type location)));
     ("coordinates", coordinates_or_none (Location.coordinates location))].

(** The tool [location_search] (main.py 141-196). *)
Definition location_search (query : string) (max_results : Z) : value :=
  match LocationSearchParams.new (Some query) None max_results with
  | inl message =>
      VDict [("success", VBool false);
             ("error", VStr (String.append "Unexpected error: " message))]
  | inr params =>
      let client := OJPClient.get_ojp_client in
      let response := OJPClient.location_search client params in
      VDict
        ([("success", VBool (LocationResponse.success response));
          ("timestamp", VStr (isoformat (LocationResponse.timestamp response)));
          ("locations", VList (map location_dict (LocationResponse.locations response)))]
         ++ error_entry (LocationResponse.error_message response))
  end.

End WithHost.
End Main.

(* ================================================================== *)
(** * A concrete runtime and sample documents *)
(* ================================================================== *)

Module Samples.

(** ** Decimal literals [[-]digits[.digits]] read as rationals *)

Fixpoint digits_value (acc : Z) (s : string) : option Z :=
  match s with
  | EmptyString => Some acc
  | String a s' =>
      match digit_of a with
      | Some d => digits_value (10 * acc + d) s'
      | None => None
      end
  end.

Definition natural (s : string) : option Z :=
  if truthy s then digits_value 0 s else None.

Definition decimal (s : string) : option Q :=
  let '(negative, body) :=
    match s with
    | String "-" rest => (true, rest)
    | _ => (false, s)
    end in
  let sign := if negative then (-1) else 1 in
  match split "." body with
  | [whole] => option_map (fun n => inject_Z (sign * n)) (natural whole)
  | [whole; frac] =>
      match natural whole, natural frac with
      | Some n, Some f =>
          let scale := Pos.pow 10 (Pos.of_nat (String.length frac)) in
          Some (Qmake (sign * (n * Zpos scale + f)) scale)
      | _, _ => None
      end
  | _ => None
  end.

Definition rational_between (lo hi : Z) (q : Q) : bool :=
  Qle_bool (inject_Z lo) q && Qle_bool q (inject_Z hi).

(** ** Timestamps [YYYY-MM-DDThh:mm:ss] followed by nothing (naive),
    [Z] or [+hh:mm] / [-hh:mm] *)

Definition field (s : string) (start size : nat) : option Z :=
  let f := String.substring start size s in
  if Nat.eqb (String.length f) size then natural f else None.

Definition char_at (s : string) (i : nat) (c : ascii) : bool :=
  match String.get i s with
  | Some a => Ascii.eqb a c
  | None => false
  end.

(** Days from 1970-01-01 to the given civil date (proleptic Gregorian). *)
Definition days_from_civil (y m d : Z) : Z :=
  let y := if m <=? 2 then y - 1 else y in
  let era := y / 400 in
  let yoe := y - era * 400 in
  let doy := (153 * (if 2 <? m then m - 3 else m + 9) + 2) / 5 + d - 1 in
  let doe := yoe * 365 + yoe / 4 - yoe / 100 + doy in
  era * 146097 + doe - 719468.

Definition offset_of (s : string) : option (option Z) :=
  match s with
  | EmptyString => Some None
  | String "Z" EmptyString => Some (Some 0)
  | String sign rest =>
      if (Ascii.eqb sign "+" || Ascii.eqb sign "-") && char_at rest 2 ":"
         && Nat.eqb (String.length rest) 5
      then
        match field rest 0 2, field rest 3 2 with
        | Some h, Some m =>
            let us := (h * 60 + m) * 60000000 in
            Some (Some (if Ascii.eqb sign "-" then - us else us))
        | _, _ => None
        end
      else None
  end.

Definition iso_datetime (s : string) : option datetime :=
  match field s 0 4, field s 5 2, field s 8 2,
        field s 11 2, field s 14 2, field s 17 2, offset_of (slice_from 19 s) with
  | Some y, Some mo, Some d, Some h, Some mi, Some se, Some off =>
      if char_at s 4 "-" && char_at s 7 "-" && char_at s 10 "T"
         && char_at s 13 ":" && char_at s 16 ":"
         && (1 <=? mo) && (mo <=? 12) && (1 <=? d) && (d <=? 31)
         && (h <? 24) && (mi <? 60) && (se <? 60)
      then
        Some {| wall_us :=
                  (((days_from_civil y mo d * 24 + h) * 60 + mi) * 60 + se) * 1000000;
                utcoffset := off |}
      else None
  | _, _, _, _, _, _, _ => None
  end.

(** ** Documents *)

Definition node (prefix name : string) (children : list element) : element :=
  Element {| uri := namespace prefix; local := name |} None children.

Definition leaf (prefix name value : string) : element :=
  Element {| uri := namespace prefix; local := name |} (Some value) [].

Definition optional_leaf (prefix name : string) (value : option string) : list element :=
  match value with
  | Some v => [leaf prefix name v]
  | None => []
  end.

(** Serialisation with the two prefixes declared on the root element. *)
Definition prefix_of (u : string) : string :=
  match find (fun kv => String.eqb (snd kv) u) NAMESPACES with
  | Some kv => fst kv
  | None => "x"
  end.

Definition qualified (q : qname) : string :=
  String.append (prefix_of (uri q)) (String.append ":" (local q)).

Fixpoint serialize_inner (e : element) : string :=
  match e with
  | Element q t cs =>
      String.concat EmptyString
        (["<"; qualified q; ">"; match t with Some v => v | None => EmptyString end]
         ++ map serialize_inner cs
         ++ ["</"; qualified q; ">"])
  end.

Definition serialize (root : element) : string :=
  match root with
  | Element q t cs =>
      String.concat EmptyString
        (["<"; qualified q;
          " xmlns:siri='http://www.siri.org.uk/siri' xmlns:ojp='http://www.vdv.de/ojp'>";
          match t with Some v => v | None => EmptyString end]
         ++ map serialize_inner cs
         ++ ["</"; qualified q; ">"])
  end.

(** A stop with its reference and name, as [LegBoard] / [LegAlight]
    carry it, followed by the call time when there is one. *)
Definition call (tag ref stop_name service : string) (time : option string) : element :=
  node "ojp" tag
    ([leaf "siri" "StopPointRef" ref;
      node "ojp" "StopPointName" [leaf "ojp" "Text" stop_name]]
     ++ match time with
        | Some t => [node "ojp" service [leaf "ojp" "TimetabledTime" t]]
        | None => []
        end).

Definition service (pt_mode rail_submode bus_submode : option string) (line : string) : element :=
  node "ojp" "Service"
    [node "ojp" "Mode"
       (optional_leaf "ojp" "PtMode" pt_mode
        ++ optional_leaf "siri" "RailSubmode" rail_submode
        ++ optional_leaf "siri" "BusSubmode" bus_submode);
     node "ojp" "PublishedServiceName" [leaf "ojp" "Text" line];
     node "ojp" "DestinationText" [leaf "ojp" "Text" "Zurich HB"]].

Definition timed (dep arr pt_mode rail_submode bus_submode : option string) : element :=
  node "ojp" "TimedLeg"
    [call "LegBoard" "8503091" "Zurich Giesshuebel" "ServiceDeparture" dep;
     call "LegAlight" "8503000" "Zurich HB" "ServiceArrival" arr;
     service pt_mode rail_submode bus_submode "S4"].

Definition timed_leg (dep arr pt_mode rail_submode bus_submode : option string) : element :=
  node "ojp" "Leg" [timed dep arr pt_mode rail_submode bus_submode].

(** Timed legs told apart by their mode fields only. *)
Definition ride (pt_mode rail_submode bus_submode : option string) : element :=
  timed (Some "2024-03-01T09:00:00Z") (Some "2024-03-01T09:20:00Z")
        pt_mode rail_submode bus_submode.

Definition walk_leg (duration : string) : element :=
  node "ojp" "Leg"
    [node "ojp" "TransferLeg"
       [leaf "ojp" "TransferType" "walk";
        node "ojp" "LegStart" [node "ojp" "Name" [leaf "ojp" "Text" "Zurich HB"]];
        node "ojp" "LegEnd" [node "ojp" "Name" [leaf "ojp" "Text" "Bahnhofquai"]];
        leaf "ojp" "Duration" duration]].

Definition trip_result (legs : list element) : element :=
  node "ojp" "TripResult" [node "ojp" "Trip" legs].

Definition document (results : list element) : element :=
  node "ojp" "OJP" [node "ojp" "OJPResponse" results].

(** Untimed leg, 09:00-09:20, five minutes on foot, 09:30-10:00. *)
Definition four_legs : element :=
  trip_result
    [timed_leg None None (Some "bus") None None;
     timed_leg (Some "2024-03-01T09:00:00Z") (Some "2024-03-01T09:20:00Z")
               (Some "rail") (Some "suburbanRailway") None;
     walk_leg "PT5M";
     timed_leg (Some "2024-03-01T09:30:00Z") (Some "2024-03-01T10:00:00Z")
               (Some "tram") None None].

Definition walk_only : element := trip_result [walk_leg "PT5M"].

Definition one_ride : element :=
  trip_result
    [timed_leg (Some "2024-03-01T09:00:00Z") (Some "2024-03-01T09:20:00Z")
               (Some "rail") None None].

(** A ride whose alighting time precedes its boarding time. *)
Definition backwards_ride : element :=
  trip_result
    [timed_leg (Some "2024-03-01T10:00:00Z") (Some "2024-03-01T09:00:00Z")
               (Some "bus") None None].

(** A ride whose service mode is written [walk]. *)
Definition ride_called_walk : element :=
  trip_result
    [timed_leg (Some "2024-03-01T09:00:00Z") (Some "2024-03-01T09:20:00Z")
               (Some "walk") None None].

(** A result without any leg element. *)
Definition no_legs : element := trip_result [].

Definition trip_document : element := document [one_ride; no_legs; four_legs].

Definition place_result (place : list element) (probability : option string) : element :=
  node "ojp" "PlaceResult"
    (node "ojp" "Place" place :: optional_leaf "ojp" "Probability" probability).

Definition stop_place (ref stop_name : string) : element :=
  node "ojp" "StopPlace"
    [leaf "ojp" "StopPlaceRef" ref;
     node "ojp" "StopPlaceName" [leaf "ojp" "Text" stop_name]].

Definition geo_position (lon lat : string) : element :=
  node "ojp" "GeoPosition" [leaf "siri" "Longitude" lon; leaf "siri" "Latitude" lat].

Definition zurich_hb : element :=
  place_result
    [stop_place "8503000" "Zurich HB";
     node "ojp" "Name" [leaf "ojp" "Text" "Zurich HB"];
     geo_position "8.54021" "47.37818"]
    (Some "0.95").

(** Every optional field is broken: no identifier, a longitude that
    is not a number, a confidence that is not a number. *)
Definition degraded_place : element :=
  place_result
    [node "ojp" "Name" [leaf "ojp" "Text" "Bellevue"];
     geo_position "east" "47.36"]
    (Some "high").

(** A place element that carries neither name field. *)
Definition nameless_place : element :=
  place_result [geo_position "8.54021" "47.37818"] (Some "0.5").

Definition overconfident_place : element :=
  place_result [node "ojp" "Name" [leaf "ojp" "Text" "Bellevue"]] (Some "1.5").

Definition location_document : element :=
  document [zurich_hb; node "ojp" "PlaceResult" []; degraded_place].

Definition known_documents : list element := [trip_document; location_document].

(** Reads back the serialisation of the documents above; any other
    buffer is reported as lxml reports text without a start tag. *)
Definition read_document (s : string) : string + element :=
  match find (fun root => String.eqb (serialize root) s) known_documents with
  | Some root => inr root
  | None => inl "Start tag expected, '<' not found, line 1, column 1"
  end.

Definition rational : Float := Q.

(** ** The character database of Unicode 14.0, as far as [int()]
    reads it: the whitespace characters outside ASCII, and the zero
    of each run of ten decimal digits. *)

Definition whitespace_code_points : list Z :=
  [133; 160; 5760; 8192; 8193; 8194; 8195; 8196; 8197; 8198; 8199; 8200;
   8201; 8202; 8232; 8233; 8239; 8287; 12288].

Definition decimal_zero_code_points : list Z :=
  [1632; 1776; 1984; 2406; 2534; 2662; 2790; 2918; 3046; 3174; 3302; 3430;
   3558; 3664; 3792; 3872; 4160; 4240; 6112; 6160; 6470; 6608; 6784; 6800;
   6992; 7088; 7232; 7248; 42528; 43216; 43264; 43472; 43504; 43600; 44016;
   65296; 66720; 68912; 69734; 69872; 69942; 70096; 70384; 70736; 70864;
   71248; 71360; 71472; 71904; 72016; 72784; 73040; 73120; 92768; 92864;
   93008; 120782; 120792; 120802; 120812; 120822; 123200; 123632; 125264;
   130032].

Definition isspace_of (cp : Z) : bool :=
  existsb (Z.eqb cp) whitespace_code_points.

Definition decimal_of (cp : Z) : option Z :=
  option_map (fun zero => cp - zero)
    (find (fun zero => (zero <=? cp) && (cp <? zero + 10)) decimal_zero_code_points).

(** Lower-casing for the sample texts: ASCII capitals, and the
    capitals of the Latin-1 supplement (two UTF-8 bytes, the first
    one 195). *)
Fixpoint latin1_lower (after_195 : bool) (s : string) : string :=
  match s with
  | EmptyString => EmptyString
  | String a s' =>
      let n := nat_of_ascii a in
      if after_195 then
        String (if (128 <=? n)%nat && (n <=? 158)%nat && negb (n =? 151)%nat
                then ascii_of_nat (n + 32) else a)
               (latin1_lower false s')
      else String (lower_ascii a) (latin1_lower (n =? 195)%nat s')
  end.

Definition runtime : @Runtime rational := {|
  float_of_str := decimal;
  float_between := rational_between;
  dateutil_parse := iso_datetime;
  etree_fromstring := read_document;
  datetime_now := {| wall_us := 0; utcoffset := None |};
  unicode_isspace := isspace_of;
  unicode_decimal := decimal_of;
  int_max_str_digits := 4300;
  unicode_lower := latin1_lower false
|}.

End Samples.

Import Samples.

(* ================================================================== *)
(** * Notions the statements use *)
(* ================================================================== *)

(** A non-empty string of ASCII decimal digits, and the number it writes. *)
Fixpoint all_digits (s : string) : bool :=
  match s with
  | EmptyString => true
  | String a s' =>
      match digit_of a with
      | Some _ => all_digits s'
      | None => false
      end
  end.

Definition is_decimal (s : string) : bool := truthy s && all_digits s.

Fixpoint decimal_value_from (acc : Z) (s : string) : Z :=
  match s with
  | EmptyString => acc
  | String a s' =>
      decimal_value_from (10 * acc + (Z.of_nat (nat_of_ascii a) - 48)) s'
  end.

Definition decimal_value (s : string) : Z := decimal_value_from 0 s.

Section StatementNotions.
Context {F : Float} {rt : Runtime}.

(** A numeral with as many digits as [s] has characters passes the
    interpreter's limit on digits. *)
Definition within_limit (s : string) : Prop :=
  within_digit_limit int_max_str_digits (Z.of_nat (String.length s)) = true.

(** A walking leg: its mode is the literal [walk] or [walking]. *)
Definition is_walking (leg : Leg.t) : Prop :=
  Leg.mode leg = "walk" \/ Leg.mode leg = "walking".

(** The number of legs that are not walking legs. *)
Fixpoint non_walking_count (legs : list Leg.t) : nat :=
  match legs with
  | [] => 0%nat
  | leg :: legs' =>
      if (Leg.mode leg =? "walk")%string || (Leg.mode leg =? "walking")%string
      then non_walking_count legs'
      else S (non_walking_count legs')
  end.

(** The instant a datetime denotes, in microseconds; a naive value
    is read at offset zero. *)
Definition utc_us (d : datetime) : Z :=
  wall_us d - match utcoffset d with Some o => o | None => 0 end.

(** [hh:mm] on the day that starts at wall-clock reading [midnight],
    in the zone [tz]. *)
Definition clock (midnight : Z) (tz : option Z) (hh mm : Z) : datetime :=
  {| wall_us := midnight + (hh * 60 + mm) * 60000000; utcoffset := tz |}.

(** A leg with no negative explicit duration that does not arrive
    before it departs. *)
Definition runs_forward (leg : Leg.t) : Prop :=
  (forall d, Leg.duration_minutes leg = Some d -> 0 <= d)
  /\ (forall dep arr,
         Leg.departure_time leg = Some dep -> Leg.arrival_time leg = Some arr ->
         utc_us dep <= utc_us arr).

(** The text of the first element that [p] selects in the first
    [Service] element below a timed leg. *)
Definition service_field (timed_leg_elem : element) (p : path) : option string :=
  match xpath timed_leg_elem [desc "ojp" "Service"] with
  | service0 :: _ => first_text (xpath service0 p) None
  | [] => None
  end.

(** Primary mode category, rail submode and bus submode of a timed leg. *)
Definition pt_mode_of (timed_leg_elem : element) : option string :=
  service_field timed_leg_elem [desc "ojp" "Mode"; child "ojp" "PtMode"].

Definition rail_submode_of (timed_leg_elem : element) : option string :=
  service_field timed_leg_elem [desc "ojp" "Mode"; child "siri" "RailSubmode"].

Definition bus_submode_of (timed_leg_elem : element) : option string :=
  service_field timed_leg_elem [desc "ojp" "Mode"; child "siri" "BusSubmode"].

(** The number a field holds, when the field is there and [float()]
    accepts its text. *)
Definition number (field : option element) : option float :=
  match field with
  | Some e =>
      match py_float (text e) with
      | inr x => Some x
      | inl _ => None
      end
  | None => None
  end.

(** The fields of a place-search result: the [Place] element, its
    two name fields, its stop reference, the two coordinate fields of
    its first [GeoPosition], and the result's [Probability]. *)
Definition place_of (place_elem : element) : option element :=
  hd_error (xpath place_elem [child "ojp" "Place"]).

Definition primary_name (place : element) : option string :=
  first_text (xpath place [child "ojp" "Name"; child "ojp" "Text"]) None.

Definition fallback_name (place : element) : option string :=
  first_text
    (xpath place [child "ojp" "StopPlace"; child "ojp" "StopPlaceName"; child "ojp" "Text"])
    None.

Definition place_ref (place : element) : option string :=
  first_text (xpath place [child "ojp" "StopPlace"; child "ojp" "StopPlaceRef"]) None.

Definition coordinate_field (place : element) (name : string) : option element :=
  match xpath place [child "ojp" "GeoPosition"] with
  | geo :: _ => hd_error (xpath geo [child "siri" name])
  | [] => None
  end.

Definition probability_field (place_elem : element) : option element :=
  hd_error (xpath place_elem [child "ojp" "Probability"]).

(** The legs [_parse_trip] decodes from a trip-result element. *)
Definition decoded_legs (trip_elem : element) : list Leg.t :=
  collect _parse_leg (xpath trip_elem [desc "ojp" "Leg"]).

End StatementNotions.

(* ================================================================== *)
(** * Further sample fragments and notions *)
(* ================================================================== *)

Module Fragments.

Definition empty (prefix name : string) : element :=
  Element {| uri := namespace prefix; local := name |} None [].

(** A boarding point with an unreadable estimate next to a readable
    timetabled time. *)
Definition board_with_bad_estimate : element :=
  node "ojp" "LegBoard"
    [leaf "siri" "StopPointRef" "8503091";
     node "ojp" "StopPointName" [leaf "ojp" "Text" "Zurich Giesshuebel"];
     node "ojp" "ServiceDeparture"
       [leaf "ojp" "TimetabledTime" "2024-03-01T09:00:00Z";
        leaf "ojp" "EstimatedTime" "soon"]].

Definition ride_with_bad_estimate : element :=
  node "ojp" "TimedLeg"
    [board_with_bad_estimate;
     call "LegAlight" "8503000" "Zurich HB" "ServiceArrival" (Some "2024-03-01T09:20:00Z");
     service (Some "bus") None None "32"].

(** A timed leg that lacks its alighting point. *)
Definition ride_to_nowhere : element :=
  node "ojp" "TimedLeg"
    [call "LegBoard" "8503091" "Zurich Giesshuebel" "ServiceDeparture"
          (Some "2024-03-01T09:00:00Z")].

(** A stop whose name element is there but empty. *)
Definition stop_with_empty_name : element :=
  node "ojp" "LegAlight"
    [leaf "siri" "StopPointRef" "8503000";
     node "ojp" "StopPointName" [empty "ojp" "Text"]].

(** Transfer endpoints: named through the short tag, and named
    through an empty long tag next to a filled short tag. *)
Definition start_with_short_name : element :=
  node "ojp" "LegStart"
    [leaf "siri" "StopPointRef" "8503000";
     node "ojp" "n" [leaf "ojp" "Text" "Zurich HB"]].

Definition start_with_empty_long_name : element :=
  node "ojp" "LegStart"
    [leaf "siri" "StopPointRef" "8503000";
     node "ojp" "Name" [empty "ojp" "Text"];
     node "ojp" "n" [leaf "ojp" "Text" "Zurich HB"]].


(** Texts outside ASCII, by their UTF-8 bytes: [VELO] and [velo] with
    an acute accent on the E, the Arabic-Indic digit three, and a
    five behind the control character 31. *)
Definition bytes (codes : list Z) : string :=
  fold_right (fun n s => String (ascii_of_nat (Z.to_nat n)) s) EmptyString codes.

Definition velo_in_capitals : string := bytes [86; 195; 137; 76; 79].

Definition velo_in_small_letters : string := bytes [118; 195; 169; 108; 111].

Definition arabic_indic_three : string := bytes [217; 163].

Definition five_after_control_31 : string := bytes [31; 53].

Definition transfer_by_bike : element :=
  node "ojp" "TransferLeg" [leaf "ojp" "TransferType" velo_in_capitals].


(** A leg whose own duration is empty while its transfer says five
    minutes. *)
Definition transfer_with_duration : element :=
  node "ojp" "TransferLeg" [leaf "ojp" "TransferType" "Walk"; leaf "ojp" "Duration" "PT5M"].

Definition leg_with_empty_duration : element :=
  node "ojp" "Leg" [transfer_with_duration; empty "ojp" "Duration"].

(** A location described the way [_parse_leg_location] reads it, and
    one whose position uses the tags of a place result. *)
Definition leg_location : element :=
  node "ojp" "Location"
    [node "ojp" "LocationName" [leaf "ojp" "Text" "Bellevue"];
     node "ojp" "GeoPosition" [leaf "ojp" "Longitude" "8.545"; leaf "ojp" "Latitude" "47.367"]].

Definition leg_location_siri_position : element :=
  node "ojp" "Location"
    [node "ojp" "LocationName" [leaf "ojp" "Text" "Bellevue"];
     geo_position "8.545" "47.367"].

(** A ride that boards with an offset and alights without one. *)
Definition ride_mixing_zones : element :=
  trip_result
    [timed_leg (Some "2024-03-01T09:00:00Z") (Some "2024-03-01T09:20:00")
               (Some "bus") None None].

End Fragments.

Import Fragments.

(** A host for the examples: a clock standing at 2024-03-01 09:00 UTC
    that advances a second per reading, timestamps in the ISO profile
    of [Samples], and a service that answers a trip request with
    [trip_document], any other request to its endpoint with
    [location_document], and refuses other endpoints. *)
Module Service.

Definition pad (width : nat) (n : Z) : string :=
  let digits := str_of_int n in
  String.append
    (String.concat EmptyString (repeat "0" (width - String.length digits)))
    digits.

(** The civil date of a day counted from 1970-01-01. *)
Definition civil_from_days (z : Z) : Z * Z * Z :=
  let z := z + 719468 in
  let era := z / 146097 in
  let doe := z - era * 146097 in
  let yoe := (doe - doe / 1460 + doe / 36524 - doe / 146096) / 365 in
  let doy := doe - (365 * yoe + yoe / 4 - yoe / 100) in
  let mp := (5 * doy + 2) / 153 in
  let d := doy - (153 * mp + 2) / 5 + 1 in
  let m := if mp <? 10 then mp + 3 else mp - 9 in
  let y := yoe + era * 400 + (if m <=? 2 then 1 else 0) in
  (y, m, d).

Definition seconds_text (t : datetime) : string :=
  let s := wall_us t / 1000000 in
  let '(y, m, d) := civil_from_days (s / 86400) in
  let r := s mod 86400 in
  String.concat EmptyString
    [pad 4 y; "-"; pad 2 m; "-"; pad 2 d; "T";
     pad 2 (r / 3600); ":"; pad 2 (r mod 3600 / 60); ":"; pad 2 (r mod 60)].

Definition offset_text (t : datetime) : string :=
  match utcoffset t with
  | None => EmptyString
  | Some o =>
      let minutes := Z.abs o / 60000000 in
      String.concat EmptyString
        [if o <? 0 then "-" else "+"; pad 2 (minutes / 60); ":"; pad 2 (minutes mod 60)]
  end.

(** Whether [needle] occurs in [s]. *)
Fixpoint occurs (needle s : string) : bool :=
  startswith s needle
  || match s with
     | EmptyString => false
     | String _ s' => occurs needle s'
     end.

Definition endpoint : string := "https://api.opentransportdata.swiss/ojp20".

Definition answer (timeout : Z) (url content : string) (headers : list (string * string))
  : http_outcome :=
  if String.eqb url endpoint then
    if occurs "<OJPTripRequest>" content
    then Delivered (serialize trip_document)
    else Delivered (serialize location_document)
  else RequestError "All connection attempts failed".

Definition host : Host := {|
  utc_clock := fun k => {| wall_us := 1709283600000000 + Z.of_nat k * 1000000;
                           utcoffset := Some 0 |};
  local_clock := {| wall_us := 1709287200000000; utcoffset := None |};
  strftime_seconds_z := fun t => String.append (seconds_text t) "Z";
  isoformat := fun t => String.append (seconds_text t) (offset_text t);
  fromisoformat := iso_datetime;
  validation_text := fun model field value =>
    String.concat EmptyString
      ["1 validation error for "; model; newline; field; newline;
       "  input_value="; str_of_int value];
  http_post := answer;
  OJP_V2_ENDPOINT := endpoint;
  OJP_API_KEY := "key";
  DEFAULT_REQUESTOR_REF := "MCP_OJP_Client_prod";
  DEFAULT_TIMEOUT := 30
|}.

End Service.

Section FurtherNotions.
Context {F : Float} {rt : Runtime}.

(** The instant an element's text denotes, if the date parser reads it. *)
Definition read_instant (e : element) : option datetime :=
  match date_parser_parse (text e) with
  | inr t => Some t
  | inl _ => None
  end.

(** The minutes an element's text denotes, if it has text and the
    duration decoder reads it. *)
Definition read_duration (e : element) : option Z :=
  match text e with
  | Some t =>
      if truthy t
      then match _parse_iso_duration t with
           | inr r => r
           | inl _ => None
           end
      else None
  | None => None
  end.

(** The estimated and the timetabled time elements of a call. *)
Definition estimated (point : element) (service : string) : list element :=
  xpath point [desc "ojp" service; child "ojp" "EstimatedTime"].

Definition timetabled (point : element) (service : string) : list element :=
  xpath point [desc "ojp" service; child "ojp" "TimetabledTime"].

(** A Location that is nothing but a reference and a name. *)
Definition plain_stop (id : option string) (name : string) : Location.t :=
  {| Location.id := id; Location.name := name; Location.coordinates := None;
     Location.type := Location.stop; Location.probability := None |}.

Definition is_plain (l : Location.t) : Prop :=
  Location.coordinates l = None
  /\ Location.probability l = None
  /\ Location.type l = Location.stop.

(** The mode of a transfer: the lower-cased type when it has text,
    [walking] otherwise. *)
Definition transfer_mode (transfer_type_elem : list element) : string :=
  match first_text transfer_type_elem None with
  | Some t => if truthy t then lower t else "walking"
  | None => "walking"
  end.

(** The name a place result resolves to, and the coordinates it
    keeps. *)
Definition resolved_name (place : element) : option string :=
  if truthy_opt (primary_name place) then primary_name place else fallback_name place.

Definition kept_coordinates (lon lat : option element) : option Coordinates.t :=
  match number lon, number lat with
  | Some x, Some y =>
      if float_between (-180) 180 x && float_between (-90) 90 y
      then Some {| Coordinates.longitude := x; Coordinates.latitude := y |}
      else None
  | _, _ => None
  end.

(** What the validation of [models.py] guarantees of a Location. *)
Definition well_formed (l : Location.t) : Prop :=
  (forall p, Location.probability l = Some p -> float_between 0 1 p = true)
  /\ (forall c, Location.coordinates l = Some c ->
                float_between (-180) 180 (Coordinates.longitude c) = true
                /\ float_between (-90) 90 (Coordinates.latitude c) = true).

End FurtherNotions.

Section AnswerNotions.
Context {F : Float} {rt : Runtime} {host : Host}.

(** [d[k1][k2]..] on nested dict values *)
Fixpoint lookup (keys : list string) (v : Main.value) : option Main.value :=
  match keys with
  | [] => Some v
  | k :: keys' =>
      match Main.get k v with
      | Some v' => lookup keys' v'
      | None => None
      end
  end.

(** The items of the list a dict holds under a key. *)
Definition listed (key : string) (d : Main.value) : list Main.value :=
  match Main.get key d with
  | Some v => Main.items_of v
  | None => []
  end.

(** A departure text the tool can use: none, the empty text, or one
    that [fromisoformat] reads once each [Z] is written [+00:00]. *)
Definition departure_readable (departure_time : option string) : Prop :=
  match departure_time with
  | Some (String a s) =>
      fromisoformat (Main.replace "Z" "+00:00" (String a s)) <> None
  | _ => True
  end.

(** The request [OJPClient.trip_request] sends for [params]. *)
Definition trip_request_of (self : OJPClient.t) (params : TripRequestParams.t)
  : http_outcome :=
  http_post (OJPClient.timeout self) (OJPClient.endpoint self)
    (get_trip_request_xml
       (TripRequestParams.origin params)
       (TripRequestParams.destination params)
       (TripRequestParams.origin_stop_point_ref params)
       (TripRequestParams.destination_stop_point_ref params)
       (TripRequestParams.max_results params)
       (TripRequestParams.departure_time params)
       (Some (TripRequestParams.transport_modes params))
       (OJPClient.requestor_ref self))
    (OJPClient.headers self).

(** The request [OJPClient.location_search] sends for a query. *)
Definition location_request_of (self : OJPClient.t) (query : string) : http_outcome :=
  http_post (OJPClient.timeout self) (OJPClient.endpoint self)
    (get_location_request_xml query (OJPClient.requestor_ref self))
    (OJPClient.headers self).

End AnswerNotions.

(* ================================================================== *)
(** * XPath *)
(* ================================================================== *)

(** [.//ojp:Leg/ojp:Duration] below a leg nested in a leg: each
    selected node once, in document order. *)
Example xpath_document_order :
  let duration t := Element {| uri := namespace "ojp"; local := "Duration" |} (Some t) [] in
  let leg cs := Element {| uri := namespace "ojp"; local := "Leg" |} None cs in
  let trip cs := Element {| uri := namespace "ojp"; local := "Trip" |} None cs in
  map text
      (xpath (trip [leg [duration "PT1M"; leg [duration "PT2M"]; duration "PT3M"]])
             [desc "ojp" "Leg"; child "ojp" "Duration"])
  = [Some "PT1M"; Some "PT2M"; Some "PT3M"].
Proof. reflexivity. Qed.

(* ================================================================== *)
(** * Strings *)
(* ================================================================== *)

Section StringFacts.
Context {F : Float} {rt : Runtime}.

Local Open Scope string_scope.

Lemma contains_app (c : ascii) (a b : string) :
  contains c (a ++ b) = contains c a || contains c b.
Proof.
  induction a as [|x a IH]; simpl; [reflexivity|].
  rewrite IH. now rewrite orb_assoc.
Qed.

Lemma contains_self (c : ascii) (s : string) :
  contains c (String c s) = true.
Proof. simpl. now rewrite Ascii.eqb_refl. Qed.

Lemma split_at_first (c : ascii) (h rest : string) :
  contains c h = false ->
  split c (h ++ String c rest) = h :: split c rest.
Proof.
  induction h as [|x h IH]; simpl; intros Hh.
  - now rewrite Ascii.eqb_refl.
  - apply orb_false_iff in Hh as [Hx Hh].
    rewrite Hx, (IH Hh). reflexivity.
Qed.

Lemma split_empty (c : ascii) : split c "" = [""].
Proof. reflexivity. Qed.

Lemma remove_absent (c : ascii) (s : string) :
  contains c s = false -> remove c s = s.
Proof.
  induction s as [|x s IH]; simpl; intros Hs; [reflexivity|].
  apply orb_false_iff in Hs as [Hx Hs].
  now rewrite Hx, (IH Hs).
Qed.

Lemma remove_trailing (c : ascii) (s : string) :
  contains c s = false -> remove c (s ++ String c "") = s.
Proof.
  induction s as [|x s IH]; simpl; intros Hs.
  - now rewrite Ascii.eqb_refl.
  - apply orb_false_iff in Hs as [Hx Hs].
    now rewrite Hx, (IH Hs).
Qed.

Lemma truthy_true_iff (s : string) : truthy s = true <-> s <> "".
Proof. destruct s; simpl; split; intros; congruence. Qed.

Lemma digit_not_space (a : ascii) (d : Z) :
  digit_of a = Some d -> is_space a = false.
Proof.
  unfold digit_of, is_space. intros H.
  destruct ((48 <=? nat_of_ascii a)%nat) eqn:L; [|discriminate].
  destruct ((nat_of_ascii a <=? 57)%nat) eqn:U; [|discriminate].
  apply Nat.leb_le in L. apply Nat.leb_le in U.
  apply orb_false_iff; split.
  - apply andb_false_iff. right. apply Nat.leb_gt. lia.
  - apply Nat.eqb_neq. lia.
Qed.

Lemma digit_not_sign (a : ascii) (d : Z) :
  digit_of a = Some d -> Ascii.eqb a "-" = false /\ Ascii.eqb a "+" = false.
Proof.
  intros H. split; apply Ascii.eqb_neq; intros ->; discriminate.
Qed.

Lemma digit_of_value (a : ascii) (d : Z) :
  digit_of a = Some d -> d = Z.of_nat (nat_of_ascii a) - 48.
Proof.
  unfold digit_of. destruct (_ && _); congruence.
Qed.

Lemma all_digits_rstrip (s : string) :
  all_digits s = true -> rstrip s = s.
Proof.
  induction s as [|a s IH]; simpl; [reflexivity|].
  destruct (digit_of a) as [d|] eqn:D; [|discriminate].
  intros Hs. rewrite (IH Hs).
  destruct s; [|reflexivity].
  now rewrite (digit_not_space _ _ D).
Qed.

Lemma is_decimal_strip (s : string) :
  is_decimal s = true -> strip s = s.
Proof.
  unfold is_decimal, strip. intros H.
  apply andb_true_iff in H as [Hne Hd].
  destruct s as [|a s]; [discriminate|].
  simpl in Hd. destruct (digit_of a) as [d|] eqn:D; [|discriminate].
  simpl lstrip. rewrite (digit_not_space _ _ D).
  apply all_digits_rstrip. simpl. now rewrite D.
Qed.

Lemma int_digits_all_digits (s : string) (acc : Z) :
  all_digits s = true ->
  s <> "" ->
  forall b, int_digits acc b s = Some (decimal_value_from acc s).
Proof.
  revert acc. induction s as [|a s IH]; intros acc Hd Hne b; [congruence|].
  simpl in *. destruct (digit_of a) as [d|] eqn:D; [|discriminate].
  rewrite <- (digit_of_value _ _ D).
  destruct s as [|a' s'].
  - reflexivity.
  - apply IH; [assumption|discriminate].
Qed.

Lemma is_decimal_all_digits (s : string) :
  is_decimal s = true -> all_digits s = true /\ s <> "".
Proof.
  unfold is_decimal. intros H. apply andb_true_iff in H as [Hne Hd].
  split; [assumption|]. now apply truthy_true_iff.
Qed.

Lemma all_digits_isascii (s : string) :
  all_digits s = true -> isascii s = true.
Proof.
  induction s as [|a s IH]; simpl; [reflexivity|].
  unfold digit_of.
  destruct ((48 <=? nat_of_ascii a)%nat) eqn:L; [|discriminate].
  destruct ((nat_of_ascii a <=? 57)%nat) eqn:U; [|discriminate].
  simpl. intros Hs. rewrite (IH Hs), andb_true_r.
  apply Nat.leb_le in U. apply Nat.ltb_lt. lia.
Qed.

Lemma all_digits_count (s : string) :
  all_digits s = true -> count_digits s = Z.of_nat (String.length s).
Proof.
  induction s as [|a s IH]; [reflexivity|].
  cbn [all_digits count_digits String.length].
  destruct (digit_of a); [|discriminate].
  intros Hs. rewrite (IH Hs). lia.
Qed.

(** A string of decimal digits within the limit is read as the number
    it writes. *)
Lemma ascii_int_decimal (limit : Z) (s : string) :
  is_decimal s = true ->
  within_digit_limit limit (Z.of_nat (String.length s)) = true ->
  ascii_int limit s = Some (decimal_value s).
Proof.
  intros H L. unfold ascii_int. rewrite (is_decimal_strip _ H).
  apply andb_true_iff in H as [Hne Hd].
  rewrite <- (all_digits_count _ Hd) in L.
  destruct s as [|a s]; [discriminate|].
  assert (D : exists d, digit_of a = Some d).
  { simpl in Hd. destruct (digit_of a); [eauto|discriminate]. }
  destruct D as [d D].
  destruct (digit_not_sign _ _ D) as [-> ->].
  rewrite L.
  rewrite (int_digits_all_digits (String a s) 0 Hd); [reflexivity|discriminate].
Qed.

(** [int()] reads a string of decimal digits within the limit as the
    number it writes. *)
Lemma int_decimal (s : string) :
  is_decimal s = true -> within_limit s -> int s = ret (decimal_value s).
Proof.
  intros H L. unfold int.
  destruct (is_decimal_all_digits s H) as [Hd _].
  rewrite (all_digits_isascii _ Hd).
  now rewrite (ascii_int_decimal _ _ H L).
Qed.

(** A numeral of at most 640 digits passes whatever the limit is. *)
Lemma short_within_limit (limit : Z) (n : Z) :
  n <= 640 -> within_digit_limit limit n = true.
Proof.
  intros H. unfold within_digit_limit.
  destruct (640 <? n)%Z eqn:E; [apply Z.ltb_lt in E; lia|reflexivity].
Qed.

Lemma all_digits_contains (c : ascii) (s : string) :
  digit_of c = None -> all_digits s = true -> contains c s = false.
Proof.
  intros Hc. induction s as [|a s IH]; simpl; [reflexivity|].
  destruct (digit_of a) eqn:D; [|discriminate].
  intros Hs. rewrite (IH Hs), orb_false_r.
  apply Ascii.eqb_neq. intros ->. congruence.
Qed.


End StringFacts.

(* ================================================================== *)
(** * The duration decoder *)
(* ================================================================== *)

Section DurationDecoder.
Context {F : Float} {rt : Runtime}.

Local Open Scope string_scope.

Lemma split_absent (c : ascii) (s : string) :
  contains c s = false -> split c s = [s].
Proof.
  induction s as [|x s IH]; simpl; intros Hs; [reflexivity|].
  apply orb_false_iff in Hs as [Hx Hs].
  now rewrite Hx, (IH Hs).
Qed.

Lemma int_raises_ValueError (s : string) (e : exn) :
  int s = raise e -> e = ValueError.
Proof.
  unfold int. destruct (ascii_int _ _); unfold ret, raise; congruence.
Qed.

(** [PT<h>H<m>M]: the hour text and the minute text both go through [int()]. *)
Lemma duration_hours_minutes (h m : string) :
  contains "H" h = false ->
  contains "H" m = false ->
  contains "M" m = false ->
  m <> "" ->
  _parse_iso_duration ("PT" ++ h ++ "H" ++ m ++ "M") =
  match int h, int m with
  | inr a, inr b => ret (Some (a * 60 + b))
  | _, _ => ret None
  end.
Proof.
  intros Hh Hm HM Hne.
  unfold _parse_iso_duration.
  change (startswith ("PT" ++ h ++ "H" ++ m ++ "M") "PT") with true.
  change (slice_from 2 ("PT" ++ h ++ "H" ++ m ++ "M")) with (h ++ String "H" (m ++ "M")).
  cbv beta zeta. simpl negb. cbv iota.
  rewrite contains_app, contains_self, orb_true_r.
  rewrite (split_at_first "H" h (m ++ "M") Hh).
  rewrite split_absent by (rewrite contains_app, Hm; reflexivity).
  change ((1 <? len [h; m ++ "M"])%Z) with true.
  cbn [getitem nth_error bind ret].
  destruct (int h) as [e|a] eqn:Ih.
  - apply int_raises_ValueError in Ih as ->. reflexivity.
  - cbn [bind ret].
    rewrite contains_app, contains_self, orb_true_r.
    rewrite (remove_trailing "M" m HM).
    apply truthy_true_iff in Hne. rewrite Hne.
    destruct (int m) as [e|b] eqn:Im.
    + apply int_raises_ValueError in Im as ->. reflexivity.
    + reflexivity.
Qed.

(** [PT<h>H]: nothing follows the hour designator. *)
Lemma duration_hours_only (h : string) :
  contains "H" h = false ->
  _parse_iso_duration ("PT" ++ h ++ "H") =
  match int h with
  | inr a => ret (Some (a * 60))
  | inl _ => ret None
  end.
Proof.
  intros Hh.
  unfold _parse_iso_duration.
  change (startswith ("PT" ++ h ++ "H") "PT") with true.
  change (slice_from 2 ("PT" ++ h ++ "H")) with (h ++ String "H" "").
  cbv beta zeta. simpl negb. cbv iota.
  rewrite contains_app, contains_self, orb_true_r.
  rewrite (split_at_first "H" h "" Hh), split_empty.
  change ((1 <? len [h; ""])%Z) with true.
  cbn [getitem nth_error bind ret].
  destruct (int h) as [e|a] eqn:Ih.
  - apply int_raises_ValueError in Ih as ->. reflexivity.
  - reflexivity.
Qed.

(** [PT<m>M]: no hour designator. *)
Lemma duration_minutes_only (m : string) :
  contains "H" m = false ->
  contains "M" m = false ->
  m <> "" ->
  _parse_iso_duration ("PT" ++ m ++ "M") =
  match int m with
  | inr b => ret (Some b)
  | inl _ => ret None
  end.
Proof.
  intros Hm HM Hne.
  unfold _parse_iso_duration.
  change (startswith ("PT" ++ m ++ "M") "PT") with true.
  change (slice_from 2 ("PT" ++ m ++ "M")) with (m ++ String "M" "").
  cbv beta zeta. simpl negb. cbv iota.
  rewrite contains_app, Hm.
  change (contains "H" "M") with false.
  cbn [orb bind ret].
  rewrite contains_app, contains_self, orb_true_r.
  rewrite (remove_trailing "M" m HM).
  apply truthy_true_iff in Hne. rewrite Hne.
  destruct (int m) as [e|b] eqn:Im.
  - apply int_raises_ValueError in Im as ->. reflexivity.
  - reflexivity.
Qed.

Lemma is_decimal_free (c : ascii) (s : string) :
  digit_of c = None -> is_decimal s = true -> contains c s = false.
Proof.
  intros Hc Hs. apply is_decimal_all_digits in Hs as [Hd _].
  now apply all_digits_contains.
Qed.

Lemma duration_bad_hours (h rest : string) :
  contains "H" h = false ->
  int h = raise ValueError ->
  _parse_iso_duration ("PT" ++ h ++ "H" ++ rest) = ret None.
Proof.
  intros Hh Ih.
  unfold _parse_iso_duration.
  change (startswith ("PT" ++ h ++ "H" ++ rest) "PT") with true.
  change (slice_from 2 ("PT" ++ h ++ "H" ++ rest)) with (h ++ String "H" rest).
  cbv beta zeta. simpl negb. cbv iota.
  rewrite contains_app, contains_self, orb_true_r.
  rewrite (split_at_first "H" h rest Hh).
  cbn [getitem nth_error bind ret].
  rewrite Ih. reflexivity.
Qed.

(** [PT<h>HM]: an empty minute text is skipped, not handed to [int()]. *)
Lemma duration_hours_empty_minutes (h : string) :
  contains "H" h = false ->
  _parse_iso_duration ("PT" ++ h ++ "HM") =
  match int h with
  | inr a => ret (Some (a * 60))
  | inl _ => ret None
  end.
Proof.
  intros Hh.
  unfold _parse_iso_duration.
  change (startswith ("PT" ++ h ++ "HM") "PT") with true.
  change (slice_from 2 ("PT" ++ h ++ "HM")) with (h ++ String "H" "M").
  cbv beta zeta. simpl negb. cbv iota.
  rewrite contains_app, contains_self, orb_true_r.
  rewrite (split_at_first "H" h "M" Hh).
  change (split "H" "M") with ["M"].
  change ((1 <? len [h; "M"])%Z) with true.
  cbn [getitem nth_error bind ret].
  destruct (int h) as [e|a] eqn:Ih.
  - apply int_raises_ValueError in Ih as ->. reflexivity.
  - reflexivity.
Qed.

(** C2, as the code has it.  A duration text [PT<h>H<m>M], [PT<h>H]
    or [PT<m>M] whose components are strings of decimal digits within
    the interpreter's limit on digits (more generally, texts that
    [int()] accepts) decodes to exactly hours * 60 + minutes.  A text
    that does not start with [PT], or whose hour text, or whose
    non-empty minute text, is rejected by [int()], decodes to "no
    duration": the decoder returns [None], it does not raise.  An
    empty minute text before [M] is not rejected: it counts as 0. *)
Theorem duration_decoder_contract :
  (forall h m : string,
      is_decimal h = true -> is_decimal m = true ->
      within_limit h -> within_limit m ->
      _parse_iso_duration ("PT" ++ h ++ "H" ++ m ++ "M")
      = ret (Some (decimal_value h * 60 + decimal_value m))
      /\ _parse_iso_duration ("PT" ++ h ++ "H") = ret (Some (decimal_value h * 60))
      /\ _parse_iso_duration ("PT" ++ m ++ "M") = ret (Some (decimal_value m)))
  /\ (forall (h m : string) (a b : Z),
         contains "H" h = false -> contains "H" m = false ->
         contains "M" m = false -> m <> "" ->
         int h = ret a -> int m = ret b ->
         _parse_iso_duration ("PT" ++ h ++ "H" ++ m ++ "M") = ret (Some (a * 60 + b))
         /\ _parse_iso_duration ("PT" ++ h ++ "H") = ret (Some (a * 60))
         /\ _parse_iso_duration ("PT" ++ m ++ "M") = ret (Some b))
  /\ (forall s : string,
         startswith s "PT" = false -> _parse_iso_duration s = ret None)
  /\ (forall h rest : string,
         contains "H" h = false -> int h = raise ValueError ->
         _parse_iso_duration ("PT" ++ h ++ "H" ++ rest) = ret None)
  /\ (forall h m : string,
         contains "H" h = false -> contains "H" m = false ->
         contains "M" m = false -> m <> "" ->
         int m = raise ValueError ->
         _parse_iso_duration ("PT" ++ h ++ "H" ++ m ++ "M") = ret None
         /\ _parse_iso_duration ("PT" ++ m ++ "M") = ret None)
  /\ (forall (h : string) (a : Z),
         contains "H" h = false -> int h = ret a ->
         _parse_iso_duration ("PT" ++ h ++ "HM") = ret (Some (a * 60)))
  /\ _parse_iso_duration "PTM" = ret (Some 0).
Proof.
  assert (General : forall (h m : string) (a b : Z),
             contains "H" h = false -> contains "H" m = false ->
             contains "M" m = false -> m <> "" ->
             int h = ret a -> int m = ret b ->
             _parse_iso_duration ("PT" ++ h ++ "H" ++ m ++ "M") = ret (Some (a * 60 + b))
             /\ _parse_iso_duration ("PT" ++ h ++ "H") = ret (Some (a * 60))
             /\ _parse_iso_duration ("PT" ++ m ++ "M") = ret (Some b)).
  { intros h m a b Hh Hm HM Hne Ih Im. repeat split.
    - rewrite duration_hours_minutes by assumption. now rewrite Ih, Im.
    - rewrite duration_hours_only by assumption. now rewrite Ih.
    - rewrite duration_minutes_only by assumption. now rewrite Im. }
  split; [|split; [exact General|split; [|split; [|split; [|split]]]]].
  - intros h m Dh Dm Lh Lm.
    apply General.
    + now apply is_decimal_free.
    + now apply is_decimal_free.
    + now apply is_decimal_free.
    + now apply is_decimal_all_digits.
    + now apply int_decimal.
    + now apply int_decimal.
  - intros s Hs. unfold _parse_iso_duration. now rewrite Hs.
  - exact duration_bad_hours.
  - intros h m Hh Hm HM Hne Im. split.
    + rewrite duration_hours_minutes by assumption.
      rewrite Im. now destruct (int h).
    + rewrite duration_minutes_only by assumption. now rewrite Im.
  - intros h a Hh Ih. rewrite duration_hours_empty_minutes by assumption.
    now rewrite Ih.
  - reflexivity.
Qed.


(** C10.  A text that starts with [PT] and whose remainder holds
    neither an [H] nor an [M] decodes to a present duration of 0
    minutes, not to "no duration". *)
Theorem duration_without_designators (s : string) :
  startswith s "PT" = true ->
  contains "H" (slice_from 2 s) = false ->
  contains "M" (slice_from 2 s) = false ->
  _parse_iso_duration s = ret (Some 0).
Proof.
  intros Hs HH HM. unfold _parse_iso_duration.
  rewrite Hs. cbv beta zeta. simpl negb. cbv iota.
  rewrite HH. cbn [bind ret]. rewrite HM. reflexivity.
Qed.

End DurationDecoder.

(* ================================================================== *)
(** * Mode normalization of timed legs *)
(* ================================================================== *)

Section ModeNormalization.
Context {F : Float} {rt : Runtime}.

Local Open Scope string_scope.

Lemma lower_truthy (s : string) (a : ascii) (w : string) :
  lower s = String a w -> truthy s = true.
Proof. destruct s; [intros H; cbv in H; discriminate|reflexivity]. Qed.

(** The mode of a decoded timed leg is what [transport_mode] reads
    from its first [Service] element. *)
Lemma timed_leg_mode (leg_elem : element) (leg : Leg.t) :
  _parse_timed_leg leg_elem = Some leg ->
  Leg.mode leg =
  match xpath leg_elem [desc "ojp" "Service"] with
  | service0 :: _ => transport_mode service0 "public_transport"
  | [] => "public_transport"
  end.
Proof.
  unfold _parse_timed_leg.
  destruct (xpath leg_elem [desc "ojp" "LegBoard"]) as [|board0 ?];
    [discriminate|].
  destruct (xpath leg_elem [desc "ojp" "LegAlight"]) as [|alight0 ?];
    [discriminate|].
  destruct (xpath leg_elem [desc "ojp" "Service"]) as [|service0 ?];
    cbn [try_except ret]; intros H; inversion H; reflexivity.
Qed.

(** A timed leg decodes as soon as it has a boarding and an
    alighting point. *)
Lemma timed_leg_decodes (leg_elem board0 alight0 : element) (boards alights : list element) :
  xpath leg_elem [desc "ojp" "LegBoard"] = board0 :: boards ->
  xpath leg_elem [desc "ojp" "LegAlight"] = alight0 :: alights ->
  exists leg, _parse_timed_leg leg_elem = Some leg.
Proof.
  intros Hb Ha. unfold _parse_timed_leg. rewrite Hb, Ha.
  destruct (xpath leg_elem [desc "ojp" "Service"]); cbn [try_except ret]; eauto.
Qed.

Ltac read_mode Hleg Hpt Hlow :=
  rewrite (timed_leg_mode _ _ Hleg);
  unfold pt_mode_of, rail_submode_of, bus_submode_of, service_field in *;
  destruct (xpath _ [desc "ojp" "Service"]) as [|service0 ?]; [discriminate|];
  unfold transport_mode; cbv zeta;
  rewrite Hpt, (lower_truthy _ _ _ Hlow), Hlow; simpl.

(** C3, as the code has it.  Rail: the four listed submodes map to
    [regional_train], [s_bahn], [intercity], [high_speed_rail], any
    other non-empty submode to [train], and an absent submode leaves
    [rail].  Bus: [expressBus] and [nightBus] map to [express_bus]
    and [night_bus], everything else, absent included, to [bus].
    [tram], [metro], [funicular] map to themselves.  A leg with no
    primary mode category gets [public_transport]. *)
Theorem timed_leg_mode_table (leg_elem : element) (leg : Leg.t) :
  _parse_timed_leg leg_elem = Some leg ->
  (truthy_opt (pt_mode_of leg_elem) = false -> Leg.mode leg = "public_transport")
  /\ (forall pt : string,
         pt_mode_of leg_elem = Some pt -> lower pt = "rail" ->
         (rail_submode_of leg_elem = Some "regionalRail" -> Leg.mode leg = "regional_train")
         /\ (rail_submode_of leg_elem = Some "suburbanRailway" -> Leg.mode leg = "s_bahn")
         /\ (rail_submode_of leg_elem = Some "interregionalRail" -> Leg.mode leg = "intercity")
         /\ (rail_submode_of leg_elem = Some "highSpeedRail"
             -> Leg.mode leg = "high_speed_rail")
         /\ (forall sub : string,
                rail_submode_of leg_elem = Some sub -> sub <> "" ->
                sub <> "regionalRail" -> sub <> "suburbanRailway" ->
                sub <> "interregionalRail" -> sub <> "highSpeedRail" ->
                Leg.mode leg = "train")
         /\ (truthy_opt (rail_submode_of leg_elem) = false -> Leg.mode leg = "rail"))
  /\ (forall pt : string,
         pt_mode_of leg_elem = Some pt -> lower pt = "bus" ->
         (bus_submode_of leg_elem = Some "localBus" -> Leg.mode leg = "bus")
         /\ (bus_submode_of leg_elem = Some "expressBus" -> Leg.mode leg = "express_bus")
         /\ (bus_submode_of leg_elem = Some "nightBus" -> Leg.mode leg = "night_bus")
         /\ (forall sub : string,
                bus_submode_of leg_elem = Some sub ->
                sub <> "expressBus" -> sub <> "nightBus" -> Leg.mode leg = "bus")
         /\ (truthy_opt (bus_submode_of leg_elem) = false -> Leg.mode leg = "bus"))
  /\ (forall pt : string,
         pt_mode_of leg_elem = Some pt ->
         (lower pt = "tram" -> Leg.mode leg = "tram")
         /\ (lower pt = "metro" -> Leg.mode leg = "metro")
         /\ (lower pt = "funicular" -> Leg.mode leg = "funicular")).
Proof.
  intros Hleg. split; [|split; [|split]].
  - rewrite (timed_leg_mode _ _ Hleg).
    unfold pt_mode_of, service_field.
    destruct (xpath leg_elem [desc "ojp" "Service"]) as [|service0 ?];
      [reflexivity|].
    unfold transport_mode. cbv zeta.
    destruct (first_text _ None) as [pt|]; [|reflexivity].
    simpl. intros ->. reflexivity.
  - intros pt Hpt Hlow. repeat split.
    + intros Hsub. read_mode Hleg Hpt Hlow. now rewrite Hsub.
    + intros Hsub. read_mode Hleg Hpt Hlow. now rewrite Hsub.
    + intros Hsub. read_mode Hleg Hpt Hlow. now rewrite Hsub.
    + intros Hsub. read_mode Hleg Hpt Hlow. now rewrite Hsub.
    + intros sub Hsub Hne H1 H2 H3 H4. read_mode Hleg Hpt Hlow.
      rewrite Hsub.
      apply truthy_true_iff in Hne. rewrite Hne. simpl.
      apply String.eqb_neq in H1, H2, H3, H4.
      now rewrite H1, H2, H3, H4.
    + intros Hsub. read_mode Hleg Hpt Hlow.
      match goal with
      | |- context [match ?x with Some _ => _ | None => _ end] =>
          destruct x as [sub|]; [|reflexivity]
      end.
      simpl in Hsub. now rewrite Hsub.
  - intros pt Hpt Hlow. repeat split.
    + intros Hsub. read_mode Hleg Hpt Hlow. now rewrite Hsub.
    + intros Hsub. read_mode Hleg Hpt Hlow. now rewrite Hsub.
    + intros Hsub. read_mode Hleg Hpt Hlow. now rewrite Hsub.
    + intros sub Hsub H1 H2. read_mode Hleg Hpt Hlow.
      rewrite Hsub.
      apply String.eqb_neq in H1, H2. rewrite H1, H2.
      destruct (truthy sub); simpl; [|reflexivity].
      now destruct (sub =? "localBus").
    + intros Hsub. read_mode Hleg Hpt Hlow.
      match goal with
      | |- context [match ?x with Some _ => _ | None => _ end] =>
          destruct x as [sub|]; [|reflexivity]
      end.
      simpl in Hsub. now rewrite Hsub.
  - intros pt Hpt. repeat split; intros Hlow; read_mode Hleg Hpt Hlow; reflexivity.
Qed.

(** The branch that would produce [cable_car] compares a lower-cased
    text with a text that has capitals, so it is never taken: on an
    ASCII text because only [A]-[Z] change, on any other text as long
    as lower-casing leaves no capital [C] behind. *)
Lemma lower_has_no_capital (s : string) :
  (isascii s = false -> contains "C" (unicode_lower s) = false) ->
  lower s <> "cableCar".
Proof.
  intros U H. unfold lower in H.
  destruct (isascii s).
  2: { specialize (U eq_refl). rewrite H in U. discriminate. }
  clear U.
  assert (C : forall w, contains "C" (ascii_lower w) = false).
  { clear. intros w. induction w as [|a w IH]; [reflexivity|].
    simpl. rewrite IH, orb_false_r.
    apply Ascii.eqb_neq. unfold lower_ascii.
    destruct ((65 <=? nat_of_ascii a)%nat && (nat_of_ascii a <=? 90)%nat) eqn:U.
    - apply andb_true_iff in U as [L U].
      apply Nat.leb_le in L. apply Nat.leb_le in U.
      intros E. apply (f_equal nat_of_ascii) in E.
      rewrite nat_ascii_embedding in E by lia.
      change (nat_of_ascii "C") with 67%nat in E. lia.
    - intros ->. discriminate. }
  specialize (C s). rewrite H in C. discriminate.
Qed.

End ModeNormalization.

(* ================================================================== *)
(** * Spans in minutes *)
(* ================================================================== *)

Section DoubleArithmetic.

Lemma nearest_even_nonneg (n d : Z) : 0 <= n -> 0 < d -> 0 <= nearest_even n d.
Proof.
  intros Hn Hd. unfold nearest_even.
  assert (0 <= n / d) by (apply Z.div_pos; lia).
  destruct (2 * (n mod d) ?= d); [destruct (Z.even (n / d))|..]; lia.
Qed.

Lemma scaled_positive (n d s : Z) :
  0 <= n -> 0 < d -> 0 <= fst (scaled n d s) /\ 0 < snd (scaled n d s).
Proof.
  intros Hn Hd. unfold scaled.
  destruct (0 <=? s) eqn:E; simpl.
  - apply Z.leb_le in E. split; [lia|]. apply Z.mul_pos_pos; [lia|].
    apply Z.pow_pos_nonneg; lia.
  - apply Z.leb_gt in E. split; [|lia]. apply Z.mul_nonneg_nonneg; [lia|].
    apply Z.pow_nonneg. lia.
Qed.

Lemma dyadic_nonneg (m s : Z) : 0 <= m -> 0 <= Qnum (dyadic m s).
Proof.
  intros Hm. unfold dyadic. destruct (0 <=? s) eqn:E; simpl; [|exact Hm].
  apply Z.mul_nonneg_nonneg; [lia|]. apply Z.pow_nonneg. lia.
Qed.

Lemma round_to_double_nonneg (x : Q) : 0 <= Qnum x -> 0 <= Qnum (round_to_double x).
Proof.
  intros Hx. unfold round_to_double.
  destruct (Z.abs (Qnum x) =? 0) eqn:Z0; [simpl; lia|].
  apply Z.eqb_neq in Z0.
  destruct (scaled (Z.abs (Qnum x)) (Zpos (Qden x)) _) as [n1 d1].
  match goal with
  | |- context [scaled ?n ?d ?s] =>
      pose proof (scaled_positive n d s) as P; destruct (scaled n d s) as [n2 d2]
  end.
  simpl in P. destruct P as [P1 P2]; [lia|lia|].
  apply dyadic_nonneg.
  apply Z.mul_nonneg_nonneg; [|now apply nearest_even_nonneg].
  apply Z.sgn_nonneg. exact Hx.
Qed.

(** The two roundings keep the sign of a span. *)
Lemma whole_minutes_nonneg (td : Z) : 0 <= td -> 0 <= whole_minutes td.
Proof.
  intros H. unfold whole_minutes, int_of_float, float_div, total_seconds, int_truediv.
  apply Z.quot_pos; [|lia].
  apply round_to_double_nonneg.
  assert (P : 0 <= Qnum (round_to_double (Qmake td 1000000)))
    by (apply round_to_double_nonneg; exact H).
  simpl. lia.
Qed.

(** A value that is an integer below [2^53] in size is a double: rounding
    leaves it as it is. *)
Lemma round_to_double_integer (x : Q) (z : Z) :
  Qnum x = z * Zpos (Qden x) ->
  Z.abs z < 2 ^ 53 ->
  Qnum (round_to_double x) = z * Zpos (Qden (round_to_double x)).
Proof.
  intros Hx Hz. unfold round_to_double.
  set (d := Zpos (Qden x)) in *.
  assert (Hd : 0 < d) by (unfold d; lia).
  clearbody d.
  destruct (Z.abs (Qnum x) =? 0) eqn:Z0.
  { apply Z.eqb_eq in Z0. simpl. rewrite Hx in Z0. nia. }
  apply Z.eqb_neq in Z0.
  assert (Hz0 : z <> 0) by (intros ->; rewrite Hx in Z0; simpl in Z0; lia).
  assert (Hn : Z.abs (Qnum x) = Z.abs z * d) by (rewrite Hx, Z.abs_mul; lia).
  rewrite Hn.
  set (k := Z.log2 (Z.abs z * d) - Z.log2 d).
  assert (Hk : k <= 53).
  { unfold k.
    assert (Z.log2 (Z.abs z * d) <= Z.log2 (Z.abs z) + Z.log2 d + 1)
      by (apply Z.log2_mul_above; lia).
    assert (Z.log2 (Z.abs z) < 53) by (apply Z.log2_lt_pow2; lia).
    lia. }
  assert (He : (if snd (scaled (Z.abs z * d) d k) <=? fst (scaled (Z.abs z * d) d k)
                then k else k - 1) <= 52).
  { destruct (Z.eq_dec k 53) as [E|E]; [|destruct (_ <=? _); lia].
    rewrite E. unfold scaled. change (0 <=? 53) with true. cbv iota.
    cbn [fst snd].
    destruct (d * 2 ^ 53 <=? Z.abs z * d) eqn:C; [|lia].
    apply Z.leb_le in C. nia. }
  destruct (scaled (Z.abs z * d) d k) as [n1 d1]. simpl fst in He. simpl snd in He.
  set (e := if d1 <=? n1 then k else k - 1) in *.
  assert (Sg : Z.sgn (Qnum x) = Z.sgn z) by (rewrite Hx, Z.sgn_mul; lia).
  rewrite Sg.
  assert (SA : Z.sgn z * Z.abs z = z) by (destruct z; simpl; lia).
  unfold scaled, dyadic.
  destruct (0 <=? e - 52) eqn:S0.
  - apply Z.leb_le in S0. assert (e - 52 = 0) as -> by lia.
    simpl (2 ^ 0). replace (d * 1) with d by lia.
    unfold nearest_even. rewrite Z.mod_mul by lia. rewrite Z.div_mul by lia.
    replace (2 * 0 ?= d) with Lt by (symmetry; apply Z.compare_lt_iff; lia).
    simpl. rewrite !Z.mul_1_r. exact SA.
  - apply Z.leb_gt in S0.
    assert (P : 0 < 2 ^ (- (e - 52))) by (apply Z.pow_pos_nonneg; lia).
    unfold nearest_even.
    replace (Z.abs z * d * 2 ^ (- (e - 52))) with (Z.abs z * 2 ^ (- (e - 52)) * d) by ring.
    rewrite Z.mod_mul by lia. rewrite Z.div_mul by lia.
    replace (2 * 0 ?= d) with Lt by (symmetry; apply Z.compare_lt_iff; lia).
    simpl Qnum. simpl Qden. rewrite Z2Pos.id by exact P.
    rewrite Z.mul_assoc. now rewrite SA.
Qed.

(** A span of a whole number of minutes is measured exactly. *)
Lemma whole_minutes_exact (k : Z) :
  Z.abs (60 * k) < 2 ^ 53 -> whole_minutes (k * 60000000) = k.
Proof.
  intros Hk. unfold whole_minutes, int_of_float, float_div, total_seconds, int_truediv.
  set (y1 := round_to_double (Qmake (k * 60000000) 1000000)).
  assert (H1 : Qnum y1 = 60 * k * Zpos (Qden y1)).
  { apply round_to_double_integer; [cbn [Qnum Qden]; lia|exact Hk]. }
  set (y2 := round_to_double (Qdiv y1 (inject_Z 60))).
  assert (H2 : Qnum y2 = k * Zpos (Qden y2)).
  { apply round_to_double_integer; [|lia].
    unfold Qdiv, Qinv, inject_Z, Qmult. cbn [Qnum Qden].
    rewrite H1. rewrite Pos2Z.inj_mul. ring. }
  rewrite H2. apply Z.quot_mul. lia.
Qed.

(** Over ten centuries the two roundings can reach the next minute:
    from 2000-01-01 to 2999-05-02T23:59:59.999999 the span is one
    microsecond short of 525600000 minutes. *)
Example whole_minutes_rounds_up :
  whole_minutes (525600000 * 60000000 - 1) = 525600000
  /\ Z.quot (525600000 * 60000000 - 1) 60000000 = 525599999.
Proof. split; vm_compute; reflexivity. Qed.

End DoubleArithmetic.

(* ================================================================== *)
(** * The trip assembler *)
(* ================================================================== *)

Section TripAssembler.
Context {F : Float} {rt : Runtime}.

Lemma datetime_sub_utc (a d : datetime) (td : Z) :
  datetime_sub a d = ret td -> td = utc_us a - utc_us d.
Proof.
  unfold datetime_sub, utc_us, ret, raise.
  destruct (utcoffset a), (utcoffset d); intros H; inversion H; lia.
Qed.

Lemma filter_not_walking_length (legs : list Leg.t) :
  List.length (filter not_walking legs) = non_walking_count legs.
Proof.
  induction legs as [|leg legs IH]; simpl; [reflexivity|].
  unfold not_walking at 1. simpl existsb. rewrite orb_false_r.
  destruct (_ || _); simpl; congruence.
Qed.

Lemma count_transfers_formula (legs : list Leg.t) :
  count_transfers legs = Z.max 0 (Z.of_nat (non_walking_count legs) - 1).
Proof.
  unfold count_transfers, len. now rewrite filter_not_walking_length.
Qed.

Lemma is_walking_not_walking (leg : Leg.t) :
  is_walking leg -> not_walking leg = false.
Proof.
  unfold is_walking, not_walking. intros [H|H]; rewrite H; reflexivity.
Qed.

Lemma first_present_none_head {A B} (f : A -> option B) (xs : list A) (x : A) :
  first_present f xs = None -> getitem xs 0 = ret x -> f x = None.
Proof.
  destruct xs as [|y xs]; [discriminate|].
  simpl. unfold ret. intros H E. inversion E; subst.
  destruct (f x); [discriminate|reflexivity].
Qed.

(** What an emitted trip looks like: the legs are not empty, some leg
    carries a departure and some leg an arrival, the two instants can
    be subtracted, and every field is determined by the legs. *)
Lemma trip_of_legs_emitted (legs : list Leg.t) (t : Trip.t) :
  trip_of_legs legs = ret (Some t) ->
  exists d a td,
    legs <> []
    /\ first_present Leg.departure_time legs = Some d
    /\ first_present Leg.arrival_time (rev legs) = Some a
    /\ datetime_sub a d = ret td
    /\ t = {| Trip.legs := legs;
              Trip.total_duration_minutes := whole_minutes td;
              Trip.total_distance_meters := None;
              Trip.departure_time := d;
              Trip.arrival_time := a;
              Trip.transfers := count_transfers legs |}.
Proof.
  unfold trip_of_legs.
  destruct legs as [|leg0 legs']; [discriminate|].
  set (legs := leg0 :: legs').
  simpl nonempty. cbv iota. simpl negb. cbv iota.
  destruct (first_present Leg.departure_time legs) as [d|] eqn:Hd;
    destruct (first_present Leg.arrival_time (rev legs)) as [a|] eqn:Ha.
  - unfold total_duration.
    destruct (datetime_sub a d) as [e|td] eqn:Hsub; [discriminate|].
    cbn [bind ret Trip.new]. intros H. inversion H.
    exists d, a, td. repeat split; try reflexivity; [discriminate|exact Hsub].
  - unfold total_duration.
    destruct (sum_leg_durations 0 legs); [discriminate|].
    cbn [bind ret]. destruct (getitem (rev legs) 0) as [e|x] eqn:Hx; [discriminate|].
    cbn [bind ret]. rewrite (first_present_none_head _ _ _ Ha Hx). discriminate.
  - unfold total_duration.
    destruct (sum_leg_durations 0 legs); [discriminate|].
    cbn [bind ret]. destruct (getitem legs 0) as [e|x] eqn:Hx; [discriminate|].
    cbn [bind ret]. rewrite (first_present_none_head _ _ _ Hd Hx). discriminate.
  - unfold total_duration.
    destruct (sum_leg_durations 0 legs); [discriminate|].
    cbn [bind ret]. destruct (getitem legs 0) as [e|x] eqn:Hx; [discriminate|].
    cbn [bind ret]. rewrite (first_present_none_head _ _ _ Hd Hx).
    destruct (getitem (rev legs) 0); discriminate.
Qed.

Lemma parse_trip_emitted (trip_elem : element) (t : Trip.t) :
  _parse_trip trip_elem = Some t ->
  trip_of_legs (decoded_legs trip_elem) = ret (Some t).
Proof.
  unfold _parse_trip, decoded_legs, try_except. cbv zeta.
  destruct (trip_of_legs _) as [e|r]; [discriminate|].
  intros ->. reflexivity.
Qed.

(** A trip none of whose legs carries a departure, or none of whose
    legs carries an arrival, is not emitted. *)
Lemma trip_without_instants_not_emitted (trip_elem : element) :
  first_present Leg.departure_time (decoded_legs trip_elem) = None
  \/ first_present Leg.arrival_time (rev (decoded_legs trip_elem)) = None ->
  _parse_trip trip_elem = None.
Proof.
  intros H. destruct (_parse_trip trip_elem) as [t|] eqn:E; [|reflexivity].
  apply parse_trip_emitted in E.
  apply trip_of_legs_emitted in E as (d & a & td & _ & Hd & Ha & _).
  destruct H; congruence.
Qed.

(** C5.  The transfer count of every emitted trip is
    max(0, (number of legs whose mode is neither [walk] nor
    [walking]) - 1); for a single walking leg the count is 0. *)
Theorem transfer_count_of_emitted_trip :
  (forall (trip_elem : element) (t : Trip.t),
      _parse_trip trip_elem = Some t ->
      Trip.transfers t = Z.max 0 (Z.of_nat (non_walking_count (Trip.legs t)) - 1))
  /\ (forall (legs : list Leg.t) (t : Trip.t),
         trip_of_legs legs = ret (Some t) ->
         Trip.legs t = legs
         /\ Trip.transfers t = Z.max 0 (Z.of_nat (non_walking_count legs) - 1))
  /\ (forall leg : Leg.t,
         is_walking leg ->
         count_transfers [leg] = 0
         /\ forall t, trip_of_legs [leg] = ret (Some t) -> Trip.transfers t = 0).
Proof.
  assert (Legs : forall legs t,
             trip_of_legs legs = ret (Some t) ->
             Trip.legs t = legs
             /\ Trip.transfers t = Z.max 0 (Z.of_nat (non_walking_count legs) - 1)).
  { intros legs t H.
    apply trip_of_legs_emitted in H as (d & a & td & _ & _ & _ & _ & ->).
    simpl. split; [reflexivity|apply count_transfers_formula]. }
  assert (Walk : forall leg, is_walking leg -> count_transfers [leg] = 0).
  { intros leg W. unfold count_transfers. simpl filter.
    now rewrite (is_walking_not_walking _ W). }
  split; [|split].
  - intros trip_elem t H. apply parse_trip_emitted in H.
    destruct (Legs _ _ H) as [-> Ht]. exact Ht.
  - exact Legs.
  - intros leg W. split; [now apply Walk|].
    intros t H.
    apply trip_of_legs_emitted in H as (d & a & td & _ & _ & _ & _ & ->).
    simpl. now apply Walk.
Qed.

(** C8, as the code has it.  The total duration of an emitted trip
    is at least 0 whenever the trip's arrival is not earlier than
    its departure; the fallback sum over the legs is at least 0
    whenever no leg has a negative explicit duration and no leg
    arrives before it departs. *)
Theorem total_duration_nonnegative :
  (forall (trip_elem : element) (t : Trip.t),
      _parse_trip trip_elem = Some t ->
      utc_us (Trip.departure_time t) <= utc_us (Trip.arrival_time t) ->
      0 <= Trip.total_duration_minutes t)
  /\ (forall (legs : list Leg.t) (departure_time arrival_time : option datetime) (v : Z),
         departure_time = None \/ arrival_time = None ->
         Forall runs_forward legs ->
         total_duration legs departure_time arrival_time = ret v ->
         0 <= v).
Proof.
  split.
  - intros trip_elem t H. apply parse_trip_emitted in H.
    apply trip_of_legs_emitted in H as (d & a & td & _ & _ & _ & Hsub & ->).
    simpl. apply datetime_sub_utc in Hsub as ->.
    intros Hle. apply whole_minutes_nonneg. lia.
  - intros legs dep arr v Hnone Hlegs Hv.
    assert (Hsum : sum_leg_durations 0 legs = ret v).
    { unfold total_duration in Hv.
      destruct Hnone as [-> | ->]; [exact Hv|]. now destruct dep. }
    clear Hv Hnone.
    assert (Acc : forall legs acc v,
               0 <= acc -> Forall runs_forward legs ->
               sum_leg_durations acc legs = ret v -> 0 <= v).
    { clear. induction legs as [|leg legs IH]; intros acc v Hacc Hf Hs.
      - simpl in Hs. unfold ret in Hs. inversion Hs. lia.
      - inversion Hf as [|? ? [Hdur Hrun] Hrest]; subst.
        simpl in Hs.
        assert (Timed : forall r,
                   match Leg.departure_time leg, Leg.arrival_time leg with
                   | Some dep, Some arr =>
                       td <- datetime_sub arr dep ;; ret (acc + whole_minutes td)
                   | _, _ => ret acc
                   end = ret r -> 0 <= r).
        { intros r Hr.
          destruct (Leg.departure_time leg) as [dep|] eqn:Ed;
            destruct (Leg.arrival_time leg) as [arr|] eqn:Ea;
            try (unfold ret in Hr; inversion Hr; lia).
          destruct (datetime_sub arr dep) as [e|td] eqn:Hsub; [discriminate|].
          cbn [bind ret] in Hr. inversion Hr.
          apply datetime_sub_utc in Hsub as ->.
          specialize (Hrun dep arr eq_refl eq_refl).
          assert (0 <= whole_minutes (utc_us arr - utc_us dep))
            by (apply whole_minutes_nonneg; lia).
          lia. }
        destruct (Leg.duration_minutes leg) as [d|] eqn:Edur.
        + destruct (d =? 0) eqn:Ez; simpl negb in Hs; cbv iota in Hs.
          * match type of Hs with
            | bind ?m _ = _ => destruct m as [e|r] eqn:Em; [discriminate|]
            end.
            cbn [bind] in Hs. apply (IH r v); [now apply Timed|assumption|exact Hs].
          * cbn [bind ret] in Hs.
            apply (IH (acc + d) v); [specialize (Hdur d eq_refl); lia|assumption|exact Hs].
        + match type of Hs with
          | bind ?m _ = _ => destruct m as [e|r] eqn:Em; [discriminate|]
          end.
          cbn [bind] in Hs. apply (IH r v); [now apply Timed|assumption|exact Hs]. }
    apply (Acc legs 0 v); [lia|assumption|assumption].
Qed.

(** C4, as the code has it.  For the legs [timed, no instants, no
    duration] [timed 09:00-09:20] [walking, 5 minutes] [timed
    09:30-10:00], the three timed legs carrying non-walking modes,
    the assembler produces a trip departing 09:00, arriving 10:00,
    lasting 60 minutes, with transfer count 2 (three non-walking
    legs minus one). *)
Theorem four_leg_trip (midnight : Z) (tz : option Z) (l1 l2 l3 l4 : Leg.t) :
  Leg.departure_time l1 = None -> Leg.arrival_time l1 = None ->
  Leg.duration_minutes l1 = None ->
  Leg.departure_time l2 = Some (clock midnight tz 9 0) ->
  Leg.arrival_time l2 = Some (clock midnight tz 9 20) ->
  is_walking l3 -> Leg.duration_minutes l3 = Some 5 ->
  Leg.departure_time l3 = None -> Leg.arrival_time l3 = None ->
  Leg.departure_time l4 = Some (clock midnight tz 9 30) ->
  Leg.arrival_time l4 = Some (clock midnight tz 10 0) ->
  not_walking l1 = true -> not_walking l2 = true -> not_walking l4 = true ->
  exists t : Trip.t,
    trip_of_legs [l1; l2; l3; l4] = ret (Some t)
    /\ Trip.legs t = [l1; l2; l3; l4]
    /\ Trip.departure_time t = clock midnight tz 9 0
    /\ Trip.arrival_time t = clock midnight tz 10 0
    /\ Trip.total_duration_minutes t = 60
    /\ Trip.transfers t = 2.
Proof.
  intros D1 A1 _ D2 A2 W3 _ D3 A3 D4 A4 N1 N2 N4.
  unfold trip_of_legs. simpl nonempty. simpl negb. cbv iota.
  simpl rev. simpl first_present.
  rewrite D1, D2, A4.
  unfold total_duration.
  assert (Hsub : datetime_sub (clock midnight tz 10 0) (clock midnight tz 9 0)
                 = ret 3600000000).
  { unfold datetime_sub, clock. simpl. destruct tz; unfold ret; f_equal; lia. }
  rewrite Hsub. cbn [bind ret Trip.new].
  eexists. split; [reflexivity|]. cbn [Trip.legs Trip.departure_time Trip.arrival_time
                                        Trip.total_duration_minutes Trip.transfers].
  split; [reflexivity|]. split; [reflexivity|]. split; [reflexivity|].
  split; [exact (whole_minutes_exact 60 eq_refl)|].
  unfold count_transfers. simpl filter.
  rewrite N1, N2, N4, (is_walking_not_walking _ W3). reflexivity.
Qed.

End TripAssembler.

(* ================================================================== *)
(** * Search-result places *)
(* ================================================================== *)

Section PlaceResults.
Context {F : Float} {rt : Runtime}.

Local Open Scope string_scope.

Lemma py_float_raises (t : option string) (e : exn) :
  py_float t = raise e -> is_ValueError e || is_TypeError e = true.
Proof.
  unfold py_float, raise, ret. destruct t as [s|].
  - destruct (float_of_str s); intros H; inversion H; reflexivity.
  - intros H; inversion H; reflexivity.
Qed.

(** Coordinates are kept when both fields are there, both are
    numbers and both are within bounds; otherwise they are absent. *)
Lemma parse_coordinates_degrades (lon_elem lat_elem : list element) :
  parse_coordinates lon_elem lat_elem =
  ret (match number (hd_error lon_elem), number (hd_error lat_elem) with
       | Some x, Some y =>
           if float_between (-180) 180 x && float_between (-90) 90 y
           then Some {| Coordinates.longitude := x; Coordinates.latitude := y |}
           else None
       | _, _ => None
       end).
Proof.
  unfold parse_coordinates, number.
  destruct lon_elem as [|lon0 ?]; [reflexivity|].
  destruct lat_elem as [|lat0 ?]; simpl hd_error; cbv beta iota.
  - destruct (py_float (text lon0)); reflexivity.
  - destruct (py_float (text lon0)) as [e|x] eqn:Ex.
    + cbn [bind try_except_only]. now rewrite (py_float_raises _ _ Ex).
    + destruct (py_float (text lat0)) as [e|y] eqn:Ey.
      * cbn [bind try_except_only]. now rewrite (py_float_raises _ _ Ey).
      * cbn [bind]. unfold Coordinates.new.
        now destruct (float_between (-180) 180 x && float_between (-90) 90 y).
Qed.

(** C9, as the code has it.  A place result with a place
    sub-element and a non-empty name in the primary or, failing
    that, the fallback name field yields a Location with that name,
    provided its confidence field, when numeric, lies in [0, 1].
    The identifier, the coordinates and the confidence are each
    present when their field is there and well-formed, and absent
    otherwise. *)
Theorem place_result_degrades (place_elem place : element) (name : string) :
  place_of place_elem = Some place ->
  name <> "" ->
  primary_name place = Some name
  \/ (truthy_opt (primary_name place) = false /\ fallback_name place = Some name) ->
  (forall p, number (probability_field place_elem) = Some p -> float_between 0 1 p = true) ->
  exists loc : Location.t,
    _parse_place_result place_elem = Some loc
    /\ Location.name loc = name
    /\ Location.type loc = Location.stop
    /\ Location.id loc = place_ref place
    /\ Location.coordinates loc
       = match number (coordinate_field place "Longitude"),
               number (coordinate_field place "Latitude") with
         | Some x, Some y =>
             if float_between (-180) 180 x && float_between (-90) 90 y
             then Some {| Coordinates.longitude := x; Coordinates.latitude := y |}
             else None
         | _, _ => None
         end
    /\ Location.probability loc = number (probability_field place_elem).
Proof.
  intros Hplace Hne Hname Hprob.
  apply truthy_true_iff in Hne.
  unfold _parse_place_result.
  unfold place_of in Hplace.
  destruct (xpath place_elem [child "ojp" "Place"]) as [|place' ?];
    [discriminate|].
  simpl in Hplace. inversion Hplace; subst place'. clear Hplace.
  fold (primary_name place). fold (fallback_name place). fold (place_ref place).
  cbv zeta.
  assert (Hresolved :
            (if negb (truthy_opt (primary_name place))
             then fallback_name place else primary_name place) = Some name).
  { destruct Hname as [H|[H1 H2]].
    - rewrite H. simpl. now rewrite Hne.
    - now rewrite H1. }
  rewrite Hresolved. simpl truthy_opt. rewrite Hne. simpl negb. cbv iota.
  assert (Hcoord :
            match xpath place [child "ojp" "GeoPosition"] with
            | [] => ret None
            | coord0 :: _ =>
                parse_coordinates (xpath coord0 [child "siri" "Longitude"])
                                  (xpath coord0 [child "siri" "Latitude"])
            end
            = ret (match number (coordinate_field place "Longitude"),
                         number (coordinate_field place "Latitude") with
                   | Some x, Some y =>
                       if float_between (-180) 180 x && float_between (-90) 90 y
                       then Some {| Coordinates.longitude := x;
                                    Coordinates.latitude := y |}
                       else None
                   | _, _ => None
                   end)).
  { unfold coordinate_field.
    destruct (xpath place [child "ojp" "GeoPosition"]) as [|geo ?]; [reflexivity|].
    apply parse_coordinates_degrades. }
  rewrite Hcoord. cbn [bind ret].
  unfold probability_field in *.
  assert (Hp :
            match xpath place_elem [child "ojp" "Probability"] with
            | [] => ret None
            | prob0 :: _ =>
                try_except_only (fun e => is_ValueError e || is_TypeError e)
                  (p <- py_float (text prob0) ;; ret (Some p)) (ret None)
            end
            = ret (number (hd_error (xpath place_elem [child "ojp" "Probability"])))).
  { destruct (xpath place_elem [child "ojp" "Probability"]) as [|prob0 ?];
      [reflexivity|].
    simpl hd_error. unfold number.
    destruct (py_float (text prob0)) as [e|p] eqn:Ep; [|reflexivity].
    cbn [bind try_except_only]. now rewrite (py_float_raises _ _ Ep). }
  rewrite Hp. cbn [bind ret]. unfold Location.new.
  destruct (number (hd_error (xpath place_elem [child "ojp" "Probability"])))
    as [p|] eqn:Enum.
  - rewrite (Hprob p eq_refl). cbn [ret bind try_except].
    eexists. split; [reflexivity|]. simpl. repeat split.
  - cbn [ret bind try_except].
    eexists. split; [reflexivity|]. simpl. repeat split.
Qed.

(** A result without a resolvable name, and a result whose numeric
    confidence is out of bounds, produce no Location. *)
Lemma place_without_name_is_dropped (place_elem place : element) :
  place_of place_elem = Some place ->
  truthy_opt (primary_name place) = false ->
  truthy_opt (fallback_name place) = false ->
  _parse_place_result place_elem = None.
Proof.
  intros Hplace H1 H2.
  unfold _parse_place_result, place_of in *.
  destruct (xpath place_elem [child "ojp" "Place"]) as [|place' ?];
    [discriminate|].
  simpl in Hplace. inversion Hplace; subst place'.
  fold (primary_name place). fold (fallback_name place).
  cbv zeta. rewrite H1. simpl negb. cbv iota. rewrite H2. reflexivity.
Qed.

End PlaceResults.

(* ================================================================== *)
(** * The entry points *)
(* ================================================================== *)

Section EntryPoints.
Context {F : Float} {rt : Runtime}.





(** A document that parses always gets a successful envelope holding
    exactly the results that decode. *)
Lemma parsed_document_envelopes (xml_content : string) (root : element) :
  etree_fromstring xml_content = inr root ->
  parse_trip_response xml_content
  = TripResponse.new true None
      (collect _parse_trip (xpath_document root [desc "ojp" "TripResult"]))
  /\ parse_location_response xml_content
     = LocationResponse.new true None
         (collect _parse_place_result (xpath_document root [desc "ojp" "PlaceResult"])).
Proof.
  intros H. unfold parse_trip_response, parse_location_response, fromstring.
  rewrite H. split; reflexivity.
Qed.

(** C6.  When the buffer is not a well-formed document, both entry
    points return (they do not raise) an envelope with
    success = false, a non-empty error message and no results. *)
Theorem malformed_document_envelopes (xml_content msg : string) :
  etree_fromstring xml_content = inl msg ->
  (TripResponse.success (parse_trip_response xml_content) = false
   /\ (exists m, TripResponse.error_message (parse_trip_response xml_content) = Some m
                 /\ m <> EmptyString)
   /\ TripResponse.trips (parse_trip_response xml_content) = [])
  /\ (LocationResponse.success (parse_location_response xml_content) = false
      /\ (exists m,
             LocationResponse.error_message (parse_location_response xml_content) = Some m
             /\ m <> EmptyString)
      /\ LocationResponse.locations (parse_location_response xml_content) = []).
Proof.
  intros H. unfold parse_trip_response, parse_location_response, fromstring.
  rewrite H. cbn [bind raise try_except]. simpl.
  repeat split; eexists; (split; [reflexivity|discriminate]).
Qed.


End EntryPoints.

(* ================================================================== *)
(** * The duration decoder on texts outside its format *)
(* ================================================================== *)

Section DurationDecoderEdges.
Context {F : Float} {rt : Runtime}.

Local Open Scope string_scope.

Lemma contains_slice_from (c : ascii) (n : nat) (s : string) :
  contains c s = false -> contains c (slice_from n s) = false.
Proof.
  revert s. induction n as [|n IH]; intros s H; [exact H|].
  destruct s as [|a s]; [reflexivity|].
  simpl in *. apply orb_false_iff in H as [_ H]. now apply IH.
Qed.

Lemma contains_remove (c d : ascii) (s : string) :
  contains c s = false -> contains c (remove d s) = false.
Proof.
  induction s as [|a s IH]; simpl; intros H; [reflexivity|].
  apply orb_false_iff in H as [Ha Hs].
  destruct (Ascii.eqb a d); simpl; [now apply IH|].
  now rewrite Ha, (IH Hs).
Qed.

Lemma contains_split (c d : ascii) (s : string) :
  contains c s = false -> Forall (fun p => contains c p = false) (split d s).
Proof.
  induction s as [|a s IH]; simpl; intros H.
  - repeat constructor.
  - apply orb_false_iff in H as [Ha Hs]. specialize (IH Hs).
    destruct (Ascii.eqb a d).
    + constructor; [reflexivity|exact IH].
    + destruct (split d s) as [|hd tl]; inversion IH; subst;
        constructor; simpl; try rewrite Ha; auto.
Qed.

Lemma contains_lstrip (c : ascii) (s : string) :
  contains c s = false -> contains c (lstrip s) = false.
Proof.
  induction s as [|a s IH]; simpl; intros H; [reflexivity|].
  destruct (is_space a); [|exact H].
  apply orb_false_iff in H as [_ H]. now apply IH.
Qed.

Lemma contains_rstrip (c : ascii) (s : string) :
  contains c s = false -> contains c (rstrip s) = false.
Proof.
  induction s as [|a s IH]; simpl; intros H; [reflexivity|].
  apply orb_false_iff in H as [Ha Hs]. specialize (IH Hs).
  destruct (rstrip s) as [|b r].
  - destruct (is_space a); simpl; [reflexivity|now rewrite Ha].
  - simpl in *. now rewrite Ha, IH.
Qed.

Lemma digit_of_nonneg (a : ascii) (d : Z) : digit_of a = Some d -> 0 <= d.
Proof.
  unfold digit_of.
  destruct ((48 <=? nat_of_ascii a)%nat) eqn:L; [|discriminate].
  destruct ((nat_of_ascii a <=? 57)%nat); [|discriminate].
  apply Nat.leb_le in L. simpl. intros H. inversion H. lia.
Qed.

Lemma int_digits_nonneg (s : string) (acc : Z) (b : bool) (z : Z) :
  0 <= acc -> int_digits acc b s = Some z -> 0 <= z.
Proof.
  revert acc b. induction s as [|a s IH]; intros acc b Hacc; cbn [int_digits].
  - destruct b; [|discriminate]. intros H. inversion H. lia.
  - destruct (digit_of a) as [d|] eqn:D.
    + apply IH. pose proof (digit_of_nonneg _ _ D). lia.
    + destruct (Ascii.eqb a "_" && b); [|discriminate]. now apply IH.
Qed.

Lemma ascii_int_nonneg (limit : Z) (s : string) (z : Z) :
  contains "-" s = false -> ascii_int limit s = Some z -> 0 <= z.
Proof.
  intros Hs. unfold ascii_int, strip.
  pose proof (contains_rstrip "-" _ (contains_lstrip "-" _ Hs)) as Hb.
  destruct (rstrip (lstrip s)) as [|a rest]; [discriminate|].
  simpl in Hb. apply orb_false_iff in Hb as [Ha _]. rewrite Ha.
  destruct (Ascii.eqb a "+").
  - destruct (within_digit_limit _ _); [|discriminate].
    intros E. apply (int_digits_nonneg _ _ _ _ (Z.le_refl 0) E).
  - destruct (within_digit_limit _ _); [|discriminate].
    intros E. apply (int_digits_nonneg _ _ _ _ (Z.le_refl 0) E).
Qed.

(** What stands for a character outside ASCII is a blank or a digit. *)
Lemma ascii_of_code_point_not_minus (isspace : Z -> bool) (decimal : Z -> option Z)
      (cp : Z) (a : ascii) :
  ascii_of_code_point isspace decimal cp = Some a -> Ascii.eqb a "-" = false.
Proof.
  unfold ascii_of_code_point.
  destruct (isspace cp); [intros H; inversion H; reflexivity|].
  destruct (decimal cp) as [d|]; [|discriminate].
  destruct ((0 <=? d)%Z && (d <=? 9)%Z) eqn:R; [|discriminate].
  apply andb_true_iff in R as [L U].
  apply Z.leb_le in L. apply Z.leb_le in U.
  intros H.
  assert (Ha : a = ascii_of_nat (Z.to_nat (48 + d))) by congruence.
  clear H. subst a. apply Ascii.eqb_neq. intros E.
  assert (N : nat_of_ascii (ascii_of_nat (Z.to_nat (48 + d))) = 45%nat)
    by (rewrite E; reflexivity).
  rewrite nat_ascii_embedding in N by lia. lia.
Qed.

Lemma contains_to_ascii (isspace : Z -> bool) (decimal : Z -> option Z)
      (s : string) (pending : nat) (cp : Z) :
  contains "-" s = false ->
  contains "-" (to_ascii isspace decimal pending cp s) = false.
Proof.
  revert pending cp. induction s as [|b s IH]; intros pending cp H.
  - destruct pending; reflexivity.
  - simpl in H. apply orb_false_iff in H as [Hb Hs].
    cbn [to_ascii]. cbv zeta.
    destruct pending as [|more].
    + destruct (_ <? 127)%Z; [simpl; now rewrite Hb, IH|].
      destruct (_ <? 192)%Z; [reflexivity|].
      destruct (_ <? 224)%Z; [now apply IH|].
      destruct (_ <? 240)%Z; [now apply IH|].
      destruct (_ <? 248)%Z; [now apply IH|reflexivity].
    + destruct (_ && _); [|reflexivity].
      destruct more; [|now apply IH].
      destruct (ascii_of_code_point _ _ _) as [a|] eqn:A; [|reflexivity].
      simpl. now rewrite (ascii_of_code_point_not_minus _ _ _ _ A), IH.
Qed.

(** Without a minus sign, [int()] does not return a negative number. *)
Lemma int_nonneg (s : string) (z : Z) :
  contains "-" s = false -> int s = ret z -> 0 <= z.
Proof.
  intros Hs. unfold int.
  destruct (ascii_int _ _) as [v|] eqn:E; [|discriminate].
  unfold ret. intros H. inversion H; subst.
  revert E. apply ascii_int_nonneg.
  destruct (isascii s); [exact Hs|now apply contains_to_ascii].
Qed.

Lemma getitem_raises {A} (xs : list A) (i : nat) (e : exn) :
  getitem xs i = raise e -> e = IndexError.
Proof.
  unfold getitem, raise, ret. destruct (nth_error xs i); congruence.
Qed.

Lemma getitem_Forall {A} (P : A -> Prop) (xs : list A) (i : nat) (x : A) :
  Forall P xs -> getitem xs i = ret x -> P x.
Proof.
  unfold getitem, ret. intros HP.
  destruct (nth_error xs i) as [y|] eqn:E; [|discriminate].
  intros H. inversion H; subst.
  apply nth_error_In in E. rewrite Forall_forall in HP. now apply HP.
Qed.

(** The decoder returns; whatever its body raises is caught. *)
Lemma iso_duration_returns (s : string) :
  exists r : option Z, _parse_iso_duration s = ret r.
Proof.
  unfold _parse_iso_duration.
  destruct (negb (startswith s "PT")); [eexists; reflexivity|].
  cbv zeta.
  match goal with
  | |- exists r, try_except_only _ ?body _ = _ =>
      destruct body as [e|r] eqn:B; [|eexists; reflexivity]
  end.
  assert (Caught : is_ValueError e || is_IndexError e = true).
  { destruct (contains "H" (slice_from 2 s)).
    - destruct (getitem (split "H" (slice_from 2 s)) 0) as [e0|part0] eqn:G0.
      { cbn [bind] in B. inversion B; subst.
        apply getitem_raises in G0 as ->. reflexivity. }
      cbn [bind] in B.
      destruct (int part0) as [e1|hours] eqn:I0.
      { cbn [bind] in B. inversion B; subst.
        apply int_raises_ValueError in I0 as ->. reflexivity. }
      cbn [bind] in B.
      destruct (1 <? len (split "H" (slice_from 2 s)))%Z.
      + destruct (getitem (split "H" (slice_from 2 s)) 1) as [e2|part1] eqn:G1.
        { cbn [bind] in B. inversion B; subst.
          apply getitem_raises in G1 as ->. reflexivity. }
        cbn [bind ret] in B.
        destruct (contains "M" part1); [|discriminate].
        destruct (truthy (remove "M" part1)); [|discriminate].
        destruct (int (remove "M" part1)) as [e3|m] eqn:I1; [|discriminate].
        cbn [bind] in B. inversion B; subst.
        apply int_raises_ValueError in I1 as ->. reflexivity.
      + cbn [bind ret] in B. simpl in B. discriminate.
    - cbn [bind ret] in B.
      destruct (contains "M" (slice_from 2 s)); [|discriminate].
      destruct (truthy (remove "M" (slice_from 2 s))); [|discriminate].
      destruct (int (remove "M" (slice_from 2 s))) as [e3|m] eqn:I1; [|discriminate].
      cbn [bind] in B. inversion B; subst.
      apply int_raises_ValueError in I1 as ->. reflexivity. }
  unfold try_except_only. rewrite Caught. eexists; reflexivity.
Qed.

(** X1.  The duration decoder never raises, and it answers with a
    number of minutes only for a text that starts with [PT]. *)
Theorem iso_duration_total (s : string) :
  (exists r : option Z, _parse_iso_duration s = ret r)
  /\ (forall v : Z, _parse_iso_duration s = ret (Some v) -> startswith s "PT" = true).
Proof.
  split; [apply iso_duration_returns|].
  intros v. unfold _parse_iso_duration.
  destruct (startswith s "PT"); [reflexivity|].
  simpl. discriminate.
Qed.

(** X2.  A decoded duration is negative only if the text holds a
    minus sign. *)
Theorem iso_duration_nonnegative (s : string) (v : Z) :
  contains "-" s = false ->
  _parse_iso_duration s = ret (Some v) ->
  0 <= v.
Proof.
  intros Hs. unfold _parse_iso_duration.
  destruct (negb (startswith s "PT")); [discriminate|].
  cbv zeta.
  pose proof (contains_slice_from "-" 2 s Hs) as Ht.
  set (t := slice_from 2 s) in *.
  assert (Minutes : forall (acc : Z) (dt : string) (r : Z),
             0 <= acc -> contains "-" dt = false ->
             (if contains "M" dt
              then if truthy (remove "M" dt)
                   then m <- int (remove "M" dt) ;; ret (acc + m)
                   else ret acc
              else ret acc) = ret r ->
             0 <= r).
  { intros acc dt r Hacc Hdt.
    destruct (contains "M" dt); [|unfold ret; intros H; inversion H; lia].
    destruct (truthy (remove "M" dt)); [|unfold ret; intros H; inversion H; lia].
    destruct (int (remove "M" dt)) as [e|m] eqn:I; [discriminate|].
    cbn [bind ret]. intros H. inversion H.
    pose proof (int_nonneg _ _ (contains_remove "-" "M" _ Hdt) I). lia. }
  assert (Step : forall (x : Z * string) (w : option Z),
             0 <= fst x -> contains "-" (snd x) = false ->
             (let (minutes, duration_text) := x in
              minutes0 <-
                (if contains "M" duration_text
                 then if truthy (remove "M" duration_text)
                      then m <- int (remove "M" duration_text) ;; ret (minutes + m)
                      else ret minutes
                 else ret minutes) ;;
              ret (Some minutes0)) = ret w ->
             forall z, w = Some z -> 0 <= z).
  { intros [acc dt] w Hacc Hdt. simpl in Hacc, Hdt.
    match goal with
    | |- bind ?m _ = _ -> _ => destruct m as [e|r] eqn:M; [discriminate|]
    end.
    cbn [bind ret]. intros H z Hz. inversion H as [Hw].
    rewrite <- Hw in Hz. inversion Hz as [Hr]. rewrite <- Hr.
    exact (Minutes acc dt r Hacc Hdt M). }
  match goal with
  | |- try_except_only _ (bind ?first ?k) _ = _ -> _ =>
      destruct first as [e|x] eqn:First
  end.
  - cbn [bind try_except_only]. destruct (_ || _); [discriminate|discriminate].
  - cbn [bind]. unfold try_except_only.
    match goal with
    | |- match ?body with inl _ => _ | inr _ => _ end = _ -> _ =>
        destruct body as [e|w] eqn:Body
    end.
    + destruct (_ || _); discriminate.
    + intros H. inversion H; subst.
      apply (Step x (Some v)); [| |exact Body|reflexivity].
      * destruct (contains "H" t).
        -- destruct (getitem (split "H" t) 0) as [e0|part0] eqn:G0; [discriminate|].
           cbn [bind] in First.
           destruct (int part0) as [e1|hours] eqn:I0; [discriminate|].
           cbn [bind] in First.
           pose proof (getitem_Forall _ _ _ _ (contains_split "-" "H" t Ht) G0) as P0.
           pose proof (int_nonneg _ _ P0 I0).
           destruct (1 <? len (split "H" t))%Z.
           ++ destruct (getitem (split "H" t) 1); [discriminate|].
              cbn [bind ret] in First. inversion First. simpl. lia.
           ++ cbn [ret] in First. inversion First. simpl. lia.
        -- cbn [ret] in First. inversion First. simpl. lia.
      * destruct (contains "H" t).
        -- destruct (getitem (split "H" t) 0) as [e0|part0] eqn:G0; [discriminate|].
           cbn [bind] in First.
           destruct (int part0) as [e1|hours] eqn:I0; [discriminate|].
           cbn [bind] in First.
           destruct (1 <? len (split "H" t))%Z.
           ++ destruct (getitem (split "H" t) 1) as [e2|part1] eqn:G1; [discriminate|].
              cbn [bind ret] in First. inversion First. simpl.
              exact (getitem_Forall _ _ _ _ (contains_split "-" "H" t Ht) G1).
           ++ cbn [ret] in First. inversion First. reflexivity.
        -- cbn [ret] in First. inversion First. simpl. exact Ht.
Qed.

(** X3.  Minutes count only before an [M]: after a well-formed hour
    part, a tail that holds no [M] (and no further [H]) is ignored,
    whatever it is. *)
Theorem iso_duration_ignores_undesignated_tail (h tail : string) (a : Z) :
  contains "H" h = false ->
  contains "H" tail = false ->
  contains "M" tail = false ->
  int h = ret a ->
  _parse_iso_duration ("PT" ++ h ++ "H" ++ tail) = ret (Some (a * 60)).
Proof.
  intros Hh Ht HM Ih.
  unfold _parse_iso_duration.
  change (startswith ("PT" ++ h ++ "H" ++ tail) "PT") with true.
  change (slice_from 2 ("PT" ++ h ++ "H" ++ tail)) with (h ++ String "H" tail).
  cbv beta zeta. simpl negb. cbv iota.
  rewrite contains_app, contains_self, orb_true_r.
  rewrite (split_at_first "H" h tail Hh), (split_absent "H" tail Ht).
  change ((1 <? len [h; tail])%Z) with true.
  cbn [getitem nth_error bind ret]. rewrite Ih.
  cbn [bind ret]. rewrite HM. reflexivity.
Qed.

Lemma remove_app (c : ascii) (a b : string) :
  remove c (a ++ b) = remove c a ++ remove c b.
Proof.
  induction a as [|x a IH]; simpl; [reflexivity|].
  destruct (Ascii.eqb x c); simpl; now rewrite IH.
Qed.

Lemma all_digits_app (a b : string) :
  all_digits a = true -> all_digits b = true -> all_digits (a ++ b) = true.
Proof.
  induction a as [|x a IH]; simpl; intros Ha Hb; [exact Hb|].
  destruct (digit_of x); [now apply IH|discriminate].
Qed.

(** X4.  Every [M] is deleted before the minutes are read: digits
    that follow the [M] are glued to the digits before it, and the
    glued numeral is read as long as it passes the interpreter's limit
    on digits. *)
Theorem iso_duration_glues_digits_around_M (m1 m2 : string) :
  is_decimal m1 = true ->
  all_digits m2 = true ->
  within_limit (m1 ++ m2) ->
  _parse_iso_duration ("PT" ++ m1 ++ "M" ++ m2) = ret (Some (decimal_value (m1 ++ m2))).
Proof.
  intros H1 H2 Limit.
  destruct (is_decimal_all_digits _ H1) as [D1 N1].
  assert (Free : forall c, digit_of c = None -> contains c (m1 ++ String "M" m2)
                                                = Ascii.eqb "M" c || false).
  { intros c Hc. rewrite contains_app. simpl.
    rewrite (all_digits_contains c m1 Hc D1), (all_digits_contains c m2 Hc H2).
    now rewrite orb_false_r. }
  unfold _parse_iso_duration.
  change (startswith ("PT" ++ m1 ++ "M" ++ m2) "PT") with true.
  change (slice_from 2 ("PT" ++ m1 ++ "M" ++ m2)) with (m1 ++ String "M" m2).
  cbv beta zeta. simpl negb. cbv iota.
  rewrite (Free "H"%char eq_refl). simpl orb. cbv iota. cbn [bind ret].
  rewrite (Free "M"%char eq_refl). simpl orb. cbv iota.
  rewrite remove_app. simpl remove.
  rewrite (remove_absent "M" m1 (all_digits_contains "M" _ eq_refl D1)).
  rewrite (remove_absent "M" m2 (all_digits_contains "M" _ eq_refl H2)).
  assert (D : is_decimal (m1 ++ m2) = true).
  { unfold is_decimal. rewrite (all_digits_app _ _ D1 H2), andb_true_r.
    destruct m1; [congruence|reflexivity]. }
  replace (truthy (m1 ++ m2)) with true
    by (symmetry; unfold is_decimal in D; now apply andb_true_iff in D).
  rewrite (int_decimal _ D Limit). reflexivity.
Qed.

End DurationDecoderEdges.

(* ================================================================== *)
(** * The leg decoders *)
(* ================================================================== *)

Section LegDecoders.
Context {F : Float} {rt : Runtime}.

Local Open Scope string_scope.

Lemma parse_time_first (e : element) (rest : list element) :
  parse_time (e :: rest) = read_instant e.
Proof.
  unfold parse_time, read_instant.
  destruct (date_parser_parse (text e)); reflexivity.
Qed.

(** The instant read at a call: the first estimate if there is one,
    else the first timetabled time, else nothing. *)
Lemma parse_time_choice (est tt : list element) :
  parse_time (if negb (nonempty est) then tt else est)
  = match est, tt with
    | e :: _, _ => read_instant e
    | [], e :: _ => read_instant e
    | [], [] => None
    end.
Proof.
  destruct est as [|e ?]; cbn [negb nonempty].
  - destruct tt; [reflexivity|apply parse_time_first].
  - apply parse_time_first.
Qed.

Lemma timed_leg_inversion (leg_elem : element) (leg : Leg.t) :
  _parse_timed_leg leg_elem = Some leg ->
  exists board0 boards alight0 alights,
    xpath leg_elem [desc "ojp" "LegBoard"] = board0 :: boards
    /\ xpath leg_elem [desc "ojp" "LegAlight"] = alight0 :: alights
    /\ Leg.origin leg = _parse_leg_board_alight board0
    /\ Leg.destination leg = _parse_leg_board_alight alight0
    /\ Leg.departure_time leg
       = parse_time (if negb (nonempty (estimated board0 "ServiceDeparture"))
                     then timetabled board0 "ServiceDeparture"
                     else estimated board0 "ServiceDeparture")
    /\ Leg.arrival_time leg
       = parse_time (if negb (nonempty (estimated alight0 "ServiceArrival"))
                     then timetabled alight0 "ServiceArrival"
                     else estimated alight0 "ServiceArrival")
    /\ Leg.duration_minutes leg = None
    /\ Leg.distance_meters leg = None.
Proof.
  unfold _parse_timed_leg.
  destruct (xpath leg_elem [desc "ojp" "LegBoard"]) as [|board0 boards];
    [discriminate|].
  destruct (xpath leg_elem [desc "ojp" "LegAlight"]) as [|alight0 alights];
    [discriminate|].
  intros H. exists board0, boards, alight0, alights.
  destruct (xpath leg_elem [desc "ojp" "Service"]) as [|service0 ?];
    cbn [try_except ret] in H; inversion H; repeat split; reflexivity.
Qed.

(** X5.  A timed leg is undecodable exactly when it lacks a boarding
    point or an alighting point; nothing else makes it fail. *)
Theorem timed_leg_needs_both_points (leg_elem : element) :
  _parse_timed_leg leg_elem = None
  <-> xpath leg_elem [desc "ojp" "LegBoard"] = []
      \/ xpath leg_elem [desc "ojp" "LegAlight"] = [].
Proof.
  split.
  - intros H.
    destruct (xpath leg_elem [desc "ojp" "LegBoard"]) as [|board0 boards] eqn:Hb;
      [now left|].
    destruct (xpath leg_elem [desc "ojp" "LegAlight"]) as [|alight0 alights] eqn:Ha;
      [now right|].
    destruct (timed_leg_decodes _ _ _ _ _ Hb Ha) as [leg Hleg]. congruence.
  - unfold _parse_timed_leg. intros [H|H]; rewrite H.
    + reflexivity.
    + now destruct (xpath leg_elem [desc "ojp" "LegBoard"]).
Qed.

(** X6.  Departure and arrival are read from the first estimated
    time when the call has one, otherwise from the first timetabled
    time; an estimate the date parser rejects leaves the instant
    absent, the timetabled time is not consulted then. *)
Theorem timed_leg_instants (leg_elem board0 alight0 : element)
        (boards alights : list element) (leg : Leg.t) :
  _parse_timed_leg leg_elem = Some leg ->
  xpath leg_elem [desc "ojp" "LegBoard"] = board0 :: boards ->
  xpath leg_elem [desc "ojp" "LegAlight"] = alight0 :: alights ->
  Leg.departure_time leg
  = match estimated board0 "ServiceDeparture", timetabled board0 "ServiceDeparture" with
    | e :: _, _ => read_instant e
    | [], e :: _ => read_instant e
    | [], [] => None
    end
  /\ Leg.arrival_time leg
     = match estimated alight0 "ServiceArrival", timetabled alight0 "ServiceArrival" with
       | e :: _, _ => read_instant e
       | [], e :: _ => read_instant e
       | [], [] => None
       end.
Proof.
  intros Hleg Hb Ha.
  destruct (timed_leg_inversion _ _ Hleg)
    as (b & bs & a & als & Hb' & Ha' & _ & _ & Hd & Harr & _).
  rewrite Hb in Hb'. rewrite Ha in Ha'.
  inversion Hb'; inversion Ha'; subst.
  rewrite Hd, Harr, !parse_time_choice. split; reflexivity.
Qed.

Lemma new_plain_stop (id name : option string) :
  try_except (Location.new id name None Location.stop None) (fun _ => Location.unknown)
  = match name with
    | Some n => plain_stop id n
    | None => Location.unknown
    end.
Proof. destruct name; reflexivity. Qed.

(** X7.  The endpoint of a timed leg carries the first stop reference
    and the text of the first stop-name element, [Unknown] when there
    is no such element; when that element has no text the endpoint is
    the bare [Unknown] location and the stop reference is lost. *)
Theorem board_alight_location (point : element) :
  _parse_leg_board_alight point
  = match xpath point [desc "ojp" "StopPointName"; child "ojp" "Text"] with
    | [] => plain_stop (first_text (xpath point [desc "siri" "StopPointRef"]) None) "Unknown"
    | n :: _ =>
        match text n with
        | Some t => plain_stop (first_text (xpath point [desc "siri" "StopPointRef"]) None) t
        | None => Location.unknown
        end
    end.
Proof.
  unfold _parse_leg_board_alight. cbv zeta. rewrite new_plain_stop.
  destruct (xpath point [desc "ojp" "StopPointName"; child "ojp" "Text"]) as [|n ?];
    [reflexivity|].
  simpl first_text. now destruct (text n).
Qed.

(** X8.  The endpoint of a transfer is named by the first [Name/Text]
    element; the short [n/Text] form is read only when there is no
    [Name/Text] element at all, so an empty [Name/Text] gives the bare
    [Unknown] location even next to a filled [n/Text]. *)
Theorem transfer_location (point : element) :
  _parse_transfer_location point
  = let ref := first_text (xpath point [desc "siri" "StopPointRef"]) None in
    match xpath point [desc "ojp" "Name"; child "ojp" "Text"],
          xpath point [desc "ojp" "n"; child "ojp" "Text"] with
    | n :: _, _ | [], n :: _ =>
        match text n with
        | Some t => plain_stop ref t
        | None => Location.unknown
        end
    | [], [] => plain_stop ref "Unknown"
    end.
Proof.
  unfold _parse_transfer_location. cbv zeta. rewrite new_plain_stop.
  destruct (xpath point [desc "ojp" "Name"; child "ojp" "Text"]) as [|n ?].
  - simpl negb. cbv iota.
    destruct (xpath point [desc "ojp" "n"; child "ojp" "Text"]) as [|m ?];
      [reflexivity|].
    simpl first_text. now destruct (text m).
  - simpl. now destruct (text n).
Qed.

Lemma plain_stop_is_plain (id : option string) (name : string) :
  is_plain (plain_stop id name).
Proof. repeat split. Qed.

Lemma unknown_is_plain : is_plain Location.unknown.
Proof. repeat split. Qed.

Lemma board_alight_is_plain (point : element) :
  is_plain (_parse_leg_board_alight point).
Proof.
  unfold _parse_leg_board_alight. cbv zeta. rewrite new_plain_stop.
  destruct (first_text _ (Some "Unknown"));
    [apply plain_stop_is_plain|apply unknown_is_plain].
Qed.

Lemma transfer_location_is_plain (point : element) :
  is_plain (_parse_transfer_location point).
Proof.
  unfold _parse_transfer_location. cbv zeta. rewrite new_plain_stop.
  destruct (first_text _ (Some "Unknown"));
    [apply plain_stop_is_plain|apply unknown_is_plain].
Qed.

Lemma read_duration_bind (duration_elem : list element) :
  match first_text duration_elem None with
  | Some duration_text =>
      if truthy duration_text then _parse_iso_duration duration_text else ret None
  | None => ret None
  end
  = ret (match duration_elem with
         | d :: _ => read_duration d
         | [] => None
         end).
Proof.
  destruct duration_elem as [|d ?]; [reflexivity|].
  simpl first_text. unfold read_duration.
  destruct (text d) as [t|]; [|reflexivity].
  destruct (truthy t); [|reflexivity].
  destruct (iso_duration_returns t) as [r ->]. reflexivity.
Qed.

(** What the two transfer decoders build from the element lists they
    have found. *)
Lemma transfer_like_leg_returns (origin_elem destination_elem transfer_type_elem
                                 duration_elem : list element) :
  transfer_like_leg origin_elem destination_elem transfer_type_elem duration_elem
  = ret (Some {| Leg.mode := transfer_mode transfer_type_elem;
                 Leg.origin := match origin_elem with
                               | e :: _ => _parse_transfer_location e
                               | [] => Location.unknown
                               end;
                 Leg.destination := match destination_elem with
                                    | e :: _ => _parse_transfer_location e
                                    | [] => Location.unknown
                                    end;
                 Leg.departure_time := None;
                 Leg.arrival_time := None;
                 Leg.duration_minutes := match duration_elem with
                                         | d :: _ => read_duration d
                                         | [] => None
                                         end;
                 Leg.distance_meters := None;
                 Leg.line_name := None;
                 Leg.direction := None |}).
Proof.
  unfold transfer_like_leg. cbv zeta. rewrite read_duration_bind.
  cbn [bind ret]. unfold transfer_mode.
  destruct origin_elem, destination_elem; reflexivity.
Qed.


(** X10.  The duration of a direct transfer comes from the first
    [Duration] child of the leg when there is one, otherwise from the
    first [Duration] child of the transfer.  A leg-level duration that
    is empty or that the decoder rejects leaves the duration absent:
    the transfer-level duration is not consulted then. *)
Theorem transfer_leg_duration (leg_elem transfer_leg_elem : element) (leg : Leg.t) :
  _parse_transfer_leg leg_elem transfer_leg_elem = Some leg ->
  Leg.duration_minutes leg
  = match xpath leg_elem [child "ojp" "Duration"],
          xpath transfer_leg_elem [child "ojp" "Duration"] with
    | d :: _, _ => read_duration d
    | [], d :: _ => read_duration d
    | [], [] => None
    end.
Proof.
  unfold _parse_transfer_leg. cbv zeta. rewrite transfer_like_leg_returns.
  cbn [try_except ret]. intros H. inversion H. simpl.
  destruct (xpath leg_elem [child "ojp" "Duration"]); reflexivity.
Qed.

(** A decoded leg comes from the timed decoder or from the part the
    two transfer decoders share. *)
Lemma decoded_leg_cases (leg_elem : element) (leg : Leg.t) :
  _parse_leg leg_elem = Some leg ->
  (exists timed0, _parse_timed_leg timed0 = Some leg)
  \/ (exists o d t du, transfer_like_leg o d t du = ret (Some leg)).
Proof.
  unfold _parse_leg. cbv zeta.
  destruct (xpath leg_elem [desc "ojp" "TimedLeg"]) as [|timed0 ?].
  - destruct (xpath leg_elem [desc "ojp" "ContinuousLeg"]) as [|continuous0 ?].
    + destruct (xpath leg_elem [child "ojp" "TransferLeg"]) as [|transfer0 ?];
        cbn [try_except ret]; [discriminate|].
      unfold _parse_transfer_leg. cbv zeta.
      match goal with
      | |- try_except ?body _ = _ -> _ =>
          destruct body as [e|r] eqn:B; cbn [try_except]; [discriminate|]
      end.
      intros ->. right. eauto 6.
    + cbn [try_except ret]. unfold _parse_continuous_leg. cbv zeta.
      destruct (xpath continuous0 [desc "ojp" "TransferLeg"]) as [|inner ?];
        [discriminate|].
      match goal with
      | |- try_except ?body _ = _ -> _ =>
          destruct body as [e|r] eqn:B; cbn [try_except]; [discriminate|]
      end.
      intros ->. right. eauto 6.
  - cbn [try_except ret]. intros H. left. eauto.
Qed.

Lemma decoded_leg_endpoints_plain (leg_elem : element) (leg : Leg.t) :
  _parse_leg leg_elem = Some leg ->
  is_plain (Leg.origin leg) /\ is_plain (Leg.destination leg).
Proof.
  intros H. destruct (decoded_leg_cases _ _ H) as [[timed0 Ht]|(o & d & t & du & Hl)].
  - destruct (timed_leg_inversion _ _ Ht) as (b & bs & a & als & _ & _ & -> & -> & _).
    split; apply board_alight_is_plain.
  - rewrite transfer_like_leg_returns in Hl. unfold ret in Hl. inversion Hl. simpl.
    split.
    + destruct o; [apply unknown_is_plain|apply transfer_location_is_plain].
    + destruct d; [apply unknown_is_plain|apply transfer_location_is_plain].
Qed.

(** X11.  Every decoded leg has endpoints without coordinates and
    without match confidence, has no distance, and carries either no
    duration (timed legs) or no instants, line name and direction
    (transfers): never both a duration and an instant. *)
Theorem decoded_leg_invariants (leg_elem : element) (leg : Leg.t) :
  _parse_leg leg_elem = Some leg ->
  is_plain (Leg.origin leg)
  /\ is_plain (Leg.destination leg)
  /\ Leg.distance_meters leg = None
  /\ (Leg.duration_minutes leg = None
      \/ (Leg.departure_time leg = None /\ Leg.arrival_time leg = None
          /\ Leg.line_name leg = None /\ Leg.direction leg = None)).
Proof.
  intros H. destruct (decoded_leg_endpoints_plain _ _ H) as [Ho Hd].
  split; [exact Ho|]. split; [exact Hd|].
  destruct (decoded_leg_cases _ _ H) as [[timed0 Ht]|(o & d & t & du & Hl)].
  - destruct (timed_leg_inversion _ _ Ht)
      as (b & bs & a & als & _ & _ & _ & _ & _ & _ & Hdur & Hdist).
    split; [exact Hdist|left; exact Hdur].
  - rewrite transfer_like_leg_returns in Hl. unfold ret in Hl. inversion Hl. simpl.
    split; [reflexivity|right; repeat split].
Qed.

(** [_parse_leg_location], which no decoder calls, always answers with a Location that
    has no identifier and no match confidence.  Its name is the text
    of the first location-name element, [Unknown] without such an
    element; its coordinates are kept when the first position holds a
    longitude and a latitude tagged in the [ojp] namespace, both
    numeric and within bounds; an empty name element gives the bare
    [Unknown] location. *)
Lemma leg_location_shape (location_elem : element) :
  _parse_leg_location location_elem
  = let coordinates :=
      match xpath location_elem [desc "ojp" "GeoPosition"] with
      | geo :: _ =>
          kept_coordinates (hd_error (xpath geo [desc "ojp" "Longitude"]))
                           (hd_error (xpath geo [desc "ojp" "Latitude"]))
      | [] => None
      end in
    match first_text (xpath location_elem [desc "ojp" "LocationName"; child "ojp" "Text"])
                     (Some "Unknown") with
    | Some n =>
        {| Location.id := None; Location.name := n; Location.coordinates := coordinates;
           Location.type := Location.stop; Location.probability := None |}
    | None => Location.unknown
    end.
Proof.
  unfold _parse_leg_location. cbv zeta.
  assert (C : match xpath location_elem [desc "ojp" "GeoPosition"] with
              | [] => ret None
              | coord0 :: _ =>
                  parse_coordinates (xpath coord0 [desc "ojp" "Longitude"])
                                    (xpath coord0 [desc "ojp" "Latitude"])
              end
              = ret (match xpath location_elem [desc "ojp" "GeoPosition"] with
                     | geo :: _ =>
                         kept_coordinates (hd_error (xpath geo [desc "ojp" "Longitude"]))
                                          (hd_error (xpath geo [desc "ojp" "Latitude"]))
                     | [] => None
                     end)).
  { destruct (xpath location_elem [desc "ojp" "GeoPosition"]) as [|geo ?];
      [reflexivity|apply parse_coordinates_degrades]. }
  rewrite C. cbn [bind ret].
  destruct (first_text _ (Some "Unknown")); reflexivity.
Qed.

End LegDecoders.

(* ================================================================== *)
(** * What every answer satisfies *)
(* ================================================================== *)

Section Invariants.
Context {F : Float} {rt : Runtime}.

Lemma first_present_split {A B} (f : A -> option B) (xs : list A) (b : B) :
  first_present f xs = Some b ->
  exists pre x post,
    xs = pre ++ x :: post
    /\ Forall (fun y => f y = None) pre
    /\ f x = Some b.
Proof.
  induction xs as [|x xs IH]; simpl; [discriminate|].
  destruct (f x) as [b'|] eqn:E.
  - intros H. inversion H; subst. exists [], x, xs. repeat split; auto.
  - intros H. destruct (IH H) as (pre & y & post & -> & Hpre & Hy).
    exists (x :: pre), y, post. repeat split; auto.
Qed.

Lemma last_present_split {A B} (f : A -> option B) (xs : list A) (b : B) :
  first_present f (rev xs) = Some b ->
  exists pre x post,
    xs = pre ++ x :: post
    /\ Forall (fun y => f y = None) post
    /\ f x = Some b.
Proof.
  intros H. destruct (first_present_split _ _ _ H) as (pre & x & post & E & Hpre & Hx).
  exists (rev post), x, (rev pre). repeat split; auto.
  - rewrite <- (rev_involutive xs), E, rev_app_distr. simpl.
    now rewrite <- app_assoc.
  - now apply Forall_rev.
Qed.

Lemma count_transfers_bounds (legs : list Leg.t) :
  legs <> [] -> 0 <= count_transfers legs < len legs.
Proof.
  intros Hne. unfold count_transfers, len.
  pose proof (filter_length_le not_walking legs).
  destruct legs; [congruence|]. simpl List.length in *. lia.
Qed.

(** X12.  An emitted trip holds the decoded legs, at least one.  Its
    departure is the departure of the first leg that has one, its
    arrival the arrival of the last leg that has one; the two are both
    naive or both aware.  The total duration is what
    [int(td.total_seconds() / 60)] computes in double precision on the
    span between them; when that span is a whole number of minutes
    (of a size that a double holds, as every span between two dates
    of the calendar is) the duration is exactly that number.  The
    transfer count is at least 0 and smaller than the number of legs. *)
Theorem emitted_trip_invariants (trip_elem : element) (t : Trip.t) :
  _parse_trip trip_elem = Some t ->
  Trip.legs t = decoded_legs trip_elem
  /\ Trip.legs t <> []
  /\ (exists before leg after,
         Trip.legs t = before ++ leg :: after
         /\ Forall (fun l => Leg.departure_time l = None) before
         /\ Leg.departure_time leg = Some (Trip.departure_time t))
  /\ (exists before leg after,
         Trip.legs t = before ++ leg :: after
         /\ Forall (fun l => Leg.arrival_time l = None) after
         /\ Leg.arrival_time leg = Some (Trip.arrival_time t))
  /\ (utcoffset (Trip.departure_time t) = None <-> utcoffset (Trip.arrival_time t) = None)
  /\ Trip.total_duration_minutes t
     = whole_minutes (utc_us (Trip.arrival_time t) - utc_us (Trip.departure_time t))
  /\ (forall k : Z,
         utc_us (Trip.arrival_time t) - utc_us (Trip.departure_time t) = k * 60000000 ->
         Z.abs (60 * k) < 2 ^ 53 ->
         Trip.total_duration_minutes t = k)
  /\ 0 <= Trip.transfers t < len (Trip.legs t).
Proof.
  intros H. apply parse_trip_emitted in H.
  apply trip_of_legs_emitted in H as (d & a & td & Hne & Hd & Ha & Hsub & ->).
  simpl.
  split; [reflexivity|]. split; [exact Hne|].
  split; [now apply first_present_split|].
  split; [now apply last_present_split|].
  split.
  - unfold datetime_sub in Hsub.
    destruct (utcoffset a), (utcoffset d); try discriminate; split; congruence.
  - split; [now rewrite (datetime_sub_utc _ _ _ Hsub)|].
    split; [|now apply count_transfers_bounds].
    intros k Hk Hsize. rewrite (datetime_sub_utc _ _ _ Hsub), Hk.
    now apply whole_minutes_exact.
Qed.

(** A place result, without the exceptions. *)
Lemma place_result_normal_form (place_elem : element) :
  _parse_place_result place_elem
  = match place_of place_elem with
    | None => None
    | Some place =>
        match resolved_name place with
        | Some n =>
            if truthy n then
              let l p := {| Location.id := place_ref place;
                            Location.name := n;
                            Location.coordinates :=
                              kept_coordinates (coordinate_field place "Longitude")
                                               (coordinate_field place "Latitude");
                            Location.type := Location.stop;
                            Location.probability := p |} in
              match number (probability_field place_elem) with
              | Some p => if float_between 0 1 p then Some (l (Some p)) else None
              | None => Some (l None)
              end
            else None
        | None => None
        end
    end.
Proof.
  unfold _parse_place_result, place_of.
  destruct (xpath place_elem [child "ojp" "Place"]) as [|place ?]; [reflexivity|].
  simpl hd_error. cbv beta iota.
  fold (primary_name place). fold (fallback_name place). fold (place_ref place).
  cbv zeta.
  replace (if negb (truthy_opt (primary_name place))
           then fallback_name place else primary_name place)
    with (resolved_name place)
    by (unfold resolved_name; now destruct (truthy_opt (primary_name place))).
  destruct (resolved_name place) as [n|]; [|reflexivity].
  simpl truthy_opt. destruct (truthy n); [|reflexivity].
  simpl negb. cbv iota.
  assert (Hcoord :
            match xpath place [child "ojp" "GeoPosition"] with
            | [] => ret None
            | coord0 :: _ =>
                parse_coordinates (xpath coord0 [child "siri" "Longitude"])
                                  (xpath coord0 [child "siri" "Latitude"])
            end
            = ret (kept_coordinates (coordinate_field place "Longitude")
                                    (coordinate_field place "Latitude"))).
  { unfold coordinate_field, kept_coordinates.
    destruct (xpath place [child "ojp" "GeoPosition"]) as [|geo ?]; [reflexivity|].
    apply parse_coordinates_degrades. }
  rewrite Hcoord. cbn [bind ret].
  assert (Hp :
            match xpath place_elem [child "ojp" "Probability"] with
            | [] => ret None
            | prob0 :: _ =>
                try_except_only (fun e => is_ValueError e || is_TypeError e)
                  (p <- py_float (text prob0) ;; ret (Some p)) (ret None)
            end
            = ret (number (probability_field place_elem))).
  { unfold probability_field.
    destruct (xpath place_elem [child "ojp" "Probability"]) as [|prob0 ?];
      [reflexivity|].
    simpl hd_error. unfold number.
    destruct (py_float (text prob0)) as [e|p] eqn:Ep; [|reflexivity].
    cbn [bind try_except_only]. now rewrite (py_float_raises _ _ Ep). }
  rewrite Hp. cbn [bind ret]. unfold Location.new.
  destruct (number (probability_field place_elem)) as [p|]; [|reflexivity].
  destruct (float_between 0 1 p); reflexivity.
Qed.

Lemma kept_coordinates_bounds (lon lat : option element) (c : Coordinates.t) :
  kept_coordinates lon lat = Some c ->
  float_between (-180) 180 (Coordinates.longitude c) = true
  /\ float_between (-90) 90 (Coordinates.latitude c) = true.
Proof.
  unfold kept_coordinates.
  destruct (number lon) as [x|]; [|discriminate].
  destruct (number lat) as [y|]; [|discriminate].
  destruct (float_between (-180) 180 x && float_between (-90) 90 y) eqn:B;
    [|discriminate].
  intros H. inversion H. simpl. now apply andb_true_iff.
Qed.

Lemma decoded_place_facts (place_elem : element) (loc : Location.t) :
  _parse_place_result place_elem = Some loc ->
  Location.name loc <> ""
  /\ Location.type loc = Location.stop
  /\ well_formed loc.
Proof.
  rewrite place_result_normal_form.
  destruct (place_of place_elem) as [place|]; [|discriminate].
  destruct (resolved_name place) as [n|] eqn:N; [|discriminate].
  destruct (truthy n) eqn:T; [|discriminate].
  apply truthy_true_iff in T. cbv zeta.
  destruct (number (probability_field place_elem)) as [p|].
  - destruct (float_between 0 1 p) eqn:B; [|discriminate].
    intros H. inversion H. simpl.
    split; [assumption|]. split; [reflexivity|]. split.
    + intros q Hq. simpl in Hq. inversion Hq; subst. exact B.
    + intros c Hc. simpl in Hc. now apply kept_coordinates_bounds in Hc.
  - intros H. inversion H. simpl.
    split; [assumption|]. split; [reflexivity|]. split.
    + intros q Hq. discriminate.
    + intros c Hc. simpl in Hc. now apply kept_coordinates_bounds in Hc.
Qed.

(** X13.  Every Location decoded from a place result has a non-empty
    name (the primary name when that is non-empty, else the fallback
    name), the stop reference of the place as identifier, kind [stop],
    a match confidence within [0, 1] when it has one and coordinates
    within bounds when it has them. *)
Theorem decoded_place_invariants (place_elem : element) (loc : Location.t) :
  _parse_place_result place_elem = Some loc ->
  Location.name loc <> ""
  /\ Location.type loc = Location.stop
  /\ well_formed loc
  /\ exists place,
      place_of place_elem = Some place
      /\ resolved_name place = Some (Location.name loc)
      /\ Location.id loc = place_ref place
      /\ Location.coordinates loc
         = kept_coordinates (coordinate_field place "Longitude")
                            (coordinate_field place "Latitude")
      /\ Location.probability loc = number (probability_field place_elem).
Proof.
  intros H. destruct (decoded_place_facts _ _ H) as (Hn & Ht & Hw).
  split; [exact Hn|]. split; [exact Ht|]. split; [exact Hw|].
  rewrite place_result_normal_form in H.
  destruct (place_of place_elem) as [place|]; [|discriminate].
  exists place. split; [reflexivity|].
  destruct (resolved_name place) as [n|]; [|discriminate].
  destruct (truthy n); [|discriminate]. cbv zeta in H.
  destruct (number (probability_field place_elem)) as [p|].
  - destruct (float_between 0 1 p); [|discriminate].
    inversion H. simpl. repeat split.
  - inversion H. simpl. repeat split.
Qed.


Lemma collect_Forall {A B} (f : A -> option B) (P : B -> Prop) (xs : list A) :
  (forall x y, f x = Some y -> P y) -> Forall P (collect f xs).
Proof.
  intros H. induction xs as [|x xs IH]; simpl; [constructor|].
  destruct (f x) as [y|] eqn:E; [constructor; eauto|exact IH].
Qed.

Lemma collect_length {A B} (f : A -> option B) (xs : list A) :
  len (collect f xs) <= len xs.
Proof.
  unfold len. induction xs as [|x xs IH]; simpl; [lia|].
  destruct (f x); simpl List.length; lia.
Qed.

(** X15.  Whatever the buffer, the trip envelope has an error message
    exactly when its success flag is false, and then it holds no
    trips.  Every trip it holds has at least one leg and a transfer
    count from 0 to one less than its number of legs; there are no
    more trips than trip-result elements. *)
Theorem trip_envelope_invariants (xml_content : string) :
  let response := parse_trip_response xml_content in
  (TripResponse.success response = true <-> TripResponse.error_message response = None)
  /\ (TripResponse.success response = false -> TripResponse.trips response = [])
  /\ Forall (fun t => Trip.legs t <> [] /\ 0 <= Trip.transfers t < len (Trip.legs t))
            (TripResponse.trips response)
  /\ (forall root, etree_fromstring xml_content = inr root ->
                   len (TripResponse.trips response)
                   <= len (xpath_document root [desc "ojp" "TripResult"])).
Proof.
  intros response. subst response.
  destruct (etree_fromstring xml_content) as [msg|root] eqn:E.
  - unfold parse_trip_response, fromstring. rewrite E.
    cbn [bind raise try_except]. simpl.
    repeat split; try discriminate; try constructor.
  - destruct (parsed_document_envelopes _ _ E) as [-> _]. simpl.
    repeat split; try discriminate.
    + apply collect_Forall. intros x t Ht.
      apply parse_trip_emitted in Ht.
      apply trip_of_legs_emitted in Ht as (d & a & td & Hne & _ & _ & _ & ->).
      simpl. split; [exact Hne|now apply count_transfers_bounds].
    + intros root' Hr. inversion Hr; subst. apply collect_length.
Qed.

(** X16.  Whatever the buffer, the location envelope has an error
    message exactly when its success flag is false, and then it holds
    no locations.  Every location it holds has a non-empty name, kind
    [stop], and confidence and coordinates within their bounds; there
    are no more locations than place-result elements. *)
Theorem location_envelope_invariants (xml_content : string) :
  let response := parse_location_response xml_content in
  (LocationResponse.success response = true
   <-> LocationResponse.error_message response = None)
  /\ (LocationResponse.success response = false
      -> LocationResponse.locations response = [])
  /\ Forall (fun l => Location.name l <> ""
                      /\ Location.type l = Location.stop
                      /\ well_formed l)
            (LocationResponse.locations response)
  /\ (forall root, etree_fromstring xml_content = inr root ->
                   len (LocationResponse.locations response)
                   <= len (xpath_document root [desc "ojp" "PlaceResult"])).
Proof.
  intros response. subst response.
  destruct (etree_fromstring xml_content) as [msg|root] eqn:E.
  - unfold parse_location_response, fromstring. rewrite E.
    cbn [bind raise try_except]. simpl.
    repeat split; try discriminate; try constructor.
  - destruct (parsed_document_envelopes _ _ E) as [_ ->]. simpl.
    repeat split; try discriminate.
    + apply collect_Forall. intros x l Hl.
      destruct (decoded_place_facts _ _ Hl) as (Hn & Ht & Hw).
      split; [exact Hn|split; [exact Ht|exact Hw]].
    + intros root' Hr. inversion Hr; subst. apply collect_length.
Qed.

End Invariants.

(* ================================================================== *)
(** * The request side: templates, client and tools *)
(* ================================================================== *)

Section RequestSide.
Context {F : Float} {rt : Runtime} {host : Host}.

Lemma trip_request_xml_modes
      (o d oref dref : string) (n : Z) (dep : option datetime)
      (m1 m2 : option (list string)) (rr : string) :
  get_trip_request_xml o d oref dref n dep m1 rr
  = get_trip_request_xml o d oref dref n dep m2 rr.
Proof.
  unfold get_trip_request_xml.
  destruct dep; cbv zeta;
    destruct m1 as [[|a1 l1]|]; destruct m2 as [[|a2 l2]|];
    repeat match goal with
           | |- context [if ?b then EmptyString else EmptyString] => destruct b
           end;
    reflexivity.
Qed.

(** X17.  The transport modes passed to a trip request change
    nothing: the request text is the same for any two mode lists, and
    so is the answer of the trip tool. *)
Theorem transport_modes_are_ignored :
  (forall (o d oref dref : string) (n : Z) (dep : option datetime)
          (m1 m2 : option (list string)) (rr : string),
      get_trip_request_xml o d oref dref n dep m1 rr
      = get_trip_request_xml o d oref dref n dep m2 rr)
  /\ (forall (o d oref dref : string) (dep : option string) (m1 m2 : list string) (n : Z),
         Main._trip_request_internal o d oref dref dep m1 n
         = Main._trip_request_internal o d oref dref dep m2 n).
Proof.
  split; [exact trip_request_xml_modes|].
  intros o d oref dref dep m1 m2 n.
  unfold Main._trip_request_internal. cbv zeta.
  match goal with
  | |- match ?parsed with inl _ => _ | inr _ => _ end = _ =>
      destruct parsed as [|departure_dt]; [reflexivity|]
  end.
  unfold TripRequestParams.new.
  destruct ((1 <=? n) && (n <=? 20)); [|reflexivity].
  unfold OJPClient.trip_request. cbn [TripRequestParams.origin
    TripRequestParams.destination TripRequestParams.origin_stop_point_ref
    TripRequestParams.destination_stop_point_ref TripRequestParams.max_results
    TripRequestParams.departure_time TripRequestParams.transport_modes].
  now rewrite (trip_request_xml_modes o d oref dref n departure_dt (Some m1) (Some m2)).
Qed.

(** Either flag of an envelope tells the other, and a failed envelope
    is empty. *)
Lemma trip_envelope_flags (xml_content : string) :
  let response := parse_trip_response xml_content in
  (TripResponse.success response = true /\ TripResponse.error_message response = None)
  \/ (TripResponse.success response = false
      /\ TripResponse.trips response = []
      /\ exists a m, TripResponse.error_message response = Some (String a m)).
Proof.
  unfold parse_trip_response, fromstring.
  destruct (etree_fromstring xml_content); cbn [bind ret raise try_except]; simpl.
  - right. repeat split. eauto.
  - left. split; reflexivity.
Qed.

Lemma location_envelope_flags (xml_content : string) :
  let response := parse_location_response xml_content in
  (LocationResponse.success response = true
   /\ LocationResponse.error_message response = None)
  \/ (LocationResponse.success response = false
      /\ LocationResponse.locations response = []
      /\ exists a m, LocationResponse.error_message response = Some (String a m)).
Proof.
  unfold parse_location_response, fromstring.
  destruct (etree_fromstring xml_content); cbn [bind ret raise try_except]; simpl.
  - right. repeat split. eauto.
  - left. split; reflexivity.
Qed.

Lemma client_trip_flags (self : OJPClient.t) (params : TripRequestParams.t) :
  let response := OJPClient.trip_request self params in
  (TripResponse.success response = true /\ TripResponse.error_message response = None)
  \/ (TripResponse.success response = false
      /\ TripResponse.trips response = []
      /\ exists a m, TripResponse.error_message response = Some (String a m)).
Proof.
  unfold OJPClient.trip_request. cbv zeta.
  destruct (http_post _ _ _ _);
    [apply trip_envelope_flags| | |]; right; simpl; repeat split; eauto.
Qed.

Lemma client_location_flags (self : OJPClient.t) (params : LocationSearchParams.t) :
  let response := OJPClient.location_search self params in
  (LocationResponse.success response = true
   /\ LocationResponse.error_message response = None)
  \/ (LocationResponse.success response = false
      /\ LocationResponse.locations response = []
      /\ exists a m, LocationResponse.error_message response = Some (String a m)).
Proof.
  unfold OJPClient.location_search.
  destruct (LocationSearchParams.query params) as [[|a q]|];
    try (right; simpl; repeat split; eauto; fail).
  cbv zeta.
  destruct (http_post _ _ _ _);
    [apply location_envelope_flags| | |]; right; simpl; repeat split; eauto.
Qed.

(** X18.  [OJPClient.trip_request] always answers with an envelope.
    Its success flag is true exactly when it has no error message; a
    failed envelope holds no trips and a non-empty message; and it
    succeeds only if the request was delivered and the body parsed as
    a document, in which case the envelope is the parser's. *)
Theorem client_trip_request_envelope (self : OJPClient.t) (params : TripRequestParams.t) :
  let response := OJPClient.trip_request self params in
  (TripResponse.success response = true <-> TripResponse.error_message response = None)
  /\ (TripResponse.success response = false ->
      TripResponse.trips response = []
      /\ exists a m, TripResponse.error_message response = Some (String a m))
  /\ (TripResponse.success response = true ->
      exists text root,
        trip_request_of self params = Delivered text
        /\ etree_fromstring text = inr root
        /\ response = parse_trip_response text).
Proof.
  intros response.
  destruct (client_trip_flags self params) as [[Hs He]|(Hs & Ht & a & m & He)];
    fold response in Hs, He; try fold response in Ht.
  - split; [tauto|]. split; [congruence|]. intros _.
    subst response. unfold OJPClient.trip_request, trip_request_of in *. cbv zeta in *.
    destruct (http_post _ _ _ _) as [text| | |]; try discriminate.
    exists text. unfold parse_trip_response, fromstring in *.
    destruct (etree_fromstring text) as [msg|root]; [discriminate|].
    exists root. repeat split.
  - split; [split; congruence|]. split; [eauto|congruence].
Qed.

(** X19.  [OJPClient.location_search] answers a missing or empty
    query with a fixed failure, whatever the network would do.  For
    any query its success flag is true exactly when it has no error
    message, a failed envelope holds no locations, and it succeeds
    only if the request was delivered and the body parsed. *)
Theorem client_location_search_envelope (self : OJPClient.t)
        (params : LocationSearchParams.t) :
  let response := OJPClient.location_search self params in
  (truthy_opt (LocationSearchParams.query params) = false ->
   response = LocationResponse.new false
                (Some "Query parameter is required for location search") [])
  /\ (LocationResponse.success response = true
      <-> LocationResponse.error_message response = None)
  /\ (LocationResponse.success response = false ->
      LocationResponse.locations response = [])
  /\ (LocationResponse.success response = true ->
      exists query text root,
        LocationSearchParams.query params = Some query
        /\ location_request_of self query = Delivered text
        /\ etree_fromstring text = inr root
        /\ response = parse_location_response text).
Proof.
  intros response. split.
  - subst response. unfold OJPClient.location_search.
    destruct (LocationSearchParams.query params) as [[|a q]|]; try reflexivity.
    discriminate.
  - destruct (client_location_flags self params) as [[Hs He]|(Hs & Ht & a & m & He)];
      fold response in Hs, He; try fold response in Ht.
    + split; [tauto|]. split; [congruence|]. intros _.
      subst response. unfold OJPClient.location_search, location_request_of in *.
      destruct (LocationSearchParams.query params) as [[|a q]|]; try discriminate.
      cbv zeta in *.
      destruct (http_post _ _ _ _) as [text| | |] eqn:P; try discriminate.
      exists (String a q), text. unfold parse_location_response, fromstring in *.
      destruct (etree_fromstring text) as [msg|root]; [discriminate|].
      exists root. repeat split. exact P.
    + split; [split; congruence|]. split; [auto|congruence].
Qed.

Lemma parsed_trip_legs_plain (xml_content : string) :
  Forall (fun t => Forall (fun leg => is_plain (Leg.origin leg)
                                      /\ is_plain (Leg.destination leg))
                          (Trip.legs t))
         (TripResponse.trips (parse_trip_response xml_content)).
Proof.
  destruct (etree_fromstring xml_content) as [msg|root] eqn:E.
  - unfold parse_trip_response, fromstring. rewrite E. constructor.
  - destruct (parsed_document_envelopes _ _ E) as [-> _]. simpl.
    apply collect_Forall. intros e t Ht.
    apply parse_trip_emitted in Ht.
    apply trip_of_legs_emitted in Ht as (d & a & td & _ & _ & _ & _ & ->).
    simpl. unfold decoded_legs.
    apply collect_Forall. intros x leg. apply decoded_leg_endpoints_plain.
Qed.

Lemma client_trip_legs_plain (self : OJPClient.t) (params : TripRequestParams.t) :
  Forall (fun t => Forall (fun leg => is_plain (Leg.origin leg)
                                      /\ is_plain (Leg.destination leg))
                          (Trip.legs t))
         (TripResponse.trips (OJPClient.trip_request self params)).
Proof.
  unfold OJPClient.trip_request. cbv zeta.
  destruct (http_post _ _ _ _); [apply parsed_trip_legs_plain| | |]; constructor.
Qed.

Lemma parsed_locations_named (xml_content : string) :
  Forall (fun l => Location.name l <> EmptyString /\ Location.type l = Location.stop)
         (LocationResponse.locations (parse_location_response xml_content)).
Proof.
  destruct (etree_fromstring xml_content) as [msg|root] eqn:E.
  - unfold parse_location_response, fromstring. rewrite E. constructor.
  - destruct (parsed_document_envelopes _ _ E) as [_ ->]. simpl.
    apply collect_Forall. intros e l Hl.
    destruct (decoded_place_facts _ _ Hl) as (Hn & Ht & _). now split.
Qed.

Lemma client_locations_named (self : OJPClient.t) (params : LocationSearchParams.t) :
  Forall (fun l => Location.name l <> EmptyString /\ Location.type l = Location.stop)
         (LocationResponse.locations (OJPClient.location_search self params)).
Proof.
  unfold OJPClient.location_search.
  destruct (LocationSearchParams.query params) as [[|a q]|]; try constructor.
  cbv zeta.
  destruct (http_post _ _ _ _); [apply parsed_locations_named| | |]; constructor.
Qed.

Lemma find_append {A} (f : A -> bool) (xs ys : list A) :
  find f (xs ++ ys) = match find f xs with
                      | Some x => Some x
                      | None => find f ys
                      end.
Proof.
  induction xs as [|x xs IH]; simpl; [reflexivity|].
  now destruct (f x).
Qed.

Lemma error_entry_lookup (error_message : option string) (before : list (string * Main.value)) :
  find (fun kv => String.eqb (fst kv) "error") before = None ->
  Main.get "error" (Main.VDict (before ++ Main.error_entry error_message))
  = match error_message with
    | Some (String a m) => Some (Main.VStr (String a m))
    | _ => None
    end.
Proof.
  intros H. unfold Main.get. rewrite find_append, H.
  destruct error_message as [[|a m]|]; reflexivity.
Qed.

Lemma in_range_true (lo hi n : Z) :
  lo <= n <= hi -> (lo <=? n) && (n <=? hi) = true.
Proof. intros [L U]. apply andb_true_iff. split; now apply Z.leb_le. Qed.

Lemma in_range_false (lo hi n : Z) :
  n < lo \/ hi < n -> (lo <=? n) && (n <=? hi) = false.
Proof.
  intros H. apply andb_false_iff.
  destruct H; [left|right]; now apply Z.leb_gt.
Qed.

(** With a readable departure and [max_results] in bounds, the trip
    tool builds its answer from the client's envelope. *)
Lemma trip_tool_passes (o d oref dref : string) (dep : option string)
      (modes : list string) (n : Z) :
  departure_readable dep -> 1 <= n <= 20 ->
  exists params : TripRequestParams.t,
    TripRequestParams.max_results params = n
    /\ let response := OJPClient.trip_request OJPClient.get_ojp_client params in
       Main._trip_request_internal o d oref dref dep modes n
       = Main.VDict
           ([("success", Main.VBool (TripResponse.success response));
             ("timestamp", Main.VStr (isoformat (TripResponse.timestamp response)));
             ("trips", Main.VList (map Main.trip_dict (TripResponse.trips response)))]
            ++ Main.error_entry (TripResponse.error_message response)).
Proof.
  intros Hdep Hn. unfold Main._trip_request_internal. cbv zeta.
  assert (Parsed : exists t,
             match dep with
             | Some (String a s) =>
                 match fromisoformat (Main.replace "Z" "+00:00" (String a s)) with
                 | Some t => inr (Some t)
                 | None => inl tt
                 end
             | _ => inr None
             end = inr t).
  { destruct dep as [[|a s]|]; simpl in *; eauto.
    destruct (fromisoformat _); [eauto|congruence]. }
  destruct Parsed as [t ->].
  unfold TripRequestParams.new. rewrite (in_range_true 1 20 n Hn).
  eexists. split. 2: reflexivity. reflexivity.
Qed.

(** X20.  The trip tool refuses without sending anything: a
    departure text that stays unreadable once each [Z] is written
    [+00:00] gets the fixed format error, and a [max_results] outside
    [1, 20] gets an [Unexpected error] that carries the validation
    text. *)
Theorem trip_tool_rejections (o d oref dref : string) (dep : option string)
        (modes : list string) (n : Z) :
  (forall a s,
      dep = Some (String a s) ->
      fromisoformat (Main.replace "Z" "+00:00" (String a s)) = None ->
      Main._trip_request_internal o d oref dref dep modes n
      = Main.VDict
          [("success", Main.VBool false);
           ("error",
            Main.VStr "Invalid departure time format. Use YYYY-MM-DDTHH:MM:SS format.")])
  /\ (departure_readable dep ->
      n < 1 \/ 20 < n ->
      Main._trip_request_internal o d oref dref dep modes n
      = Main.VDict
          [("success", Main.VBool false);
           ("error",
            Main.VStr (String.append "Unexpected error: "
                         (validation_text "TripRequestParams" "max_results" n)))]).
Proof.
  split.
  - intros a s -> Hbad. unfold Main._trip_request_internal. cbv zeta.
    now rewrite Hbad.
  - intros Hdep Hn. unfold Main._trip_request_internal. cbv zeta.
    unfold TripRequestParams.new. rewrite (in_range_false 1 20 n Hn).
    destruct dep as [[|a s]|]; simpl in *; try reflexivity.
    destruct (fromisoformat _); [reflexivity|congruence].
Qed.

(** X21.  The answer of the trip tool to a usable request says
    [success], and has an [error] entry exactly when [success] is
    false, in which case it lists no trips.  Every leg it lists has a
    mode, and [None] for the coordinates of both endpoints. *)
Theorem trip_tool_answer (o d oref dref : string) (dep : option string)
        (modes : list string) (n : Z) :
  departure_readable dep -> 1 <= n <= 20 ->
  let answer := Main._trip_request_internal o d oref dref dep modes n in
  (exists success : bool,
      Main.get "success" answer = Some (Main.VBool success)
      /\ (success = true <-> Main.get "error" answer = None)
      /\ (success = false ->
          listed "trips" answer = []
          /\ exists a m, Main.get "error" answer = Some (Main.VStr (String a m))))
  /\ (forall trip leg : Main.value,
         In trip (listed "trips" answer) -> In leg (listed "legs" trip) ->
         lookup ["origin"; "coordinates"] leg = Some Main.VNone
         /\ lookup ["destination"; "coordinates"] leg = Some Main.VNone
         /\ exists mode, Main.get "mode" leg = Some (Main.VStr mode)).
Proof.
  intros Hdep Hn answer.
  destruct (trip_tool_passes o d oref dref dep modes n Hdep Hn) as (params & _ & E).
  cbv zeta in E. subst answer. rewrite E. clear E.
  set (response := OJPClient.trip_request OJPClient.get_ojp_client params).
  split.
  - exists (TripResponse.success response).
    split; [reflexivity|].
    rewrite error_entry_lookup by reflexivity.
    destruct (client_trip_flags OJPClient.get_ojp_client params)
      as [[Hs He]|(Hs & Ht & a & m & He)];
      fold response in Hs, He; try fold response in Ht; rewrite Hs, He.
    + split; [tauto|discriminate].
    + split; [split; discriminate|]. intros _.
      unfold listed. simpl. rewrite Ht. split; [reflexivity|eauto].
  - intros trip leg Htrip Hleg.
    unfold listed in Htrip. simpl in Htrip.
    apply in_map_iff in Htrip as (t & <- & Ht).
    unfold listed in Hleg. simpl in Hleg.
    apply in_map_iff in Hleg as (l & <- & Hl).
    pose proof (client_trip_legs_plain OJPClient.get_ojp_client params) as Plain.
    fold response in Plain.
    rewrite Forall_forall in Plain. specialize (Plain t Ht).
    rewrite Forall_forall in Plain.
    destruct (Plain l Hl) as [(Ho & _) (Hd & _)].
    unfold lookup, Main.leg_dict. simpl. rewrite Ho, Hd.
    repeat split. eauto.
Qed.

(** X22.  The error text of the trip tool names where a usable
    request failed: [HTTP error] with the status and the body when
    the service refused, [Request error] when the request did not get
    through, [Unexpected error] for anything else on the way, and
    [Failed to parse trip response] when the body delivered is not a
    document; when the body parses there is no error entry and
    [success] is true. *)
Theorem trip_tool_error_sources (o d oref dref : string) (dep : option string)
        (modes : list string) (n : Z) :
  departure_readable dep -> 1 <= n <= 20 ->
  let answer := Main._trip_request_internal o d oref dref dep modes n in
  exists params : TripRequestParams.t,
    TripRequestParams.max_results params = n
    /\ match trip_request_of OJPClient.get_ojp_client params with
       | Delivered text =>
           match etree_fromstring text with
           | inr _ =>
               Main.get "error" answer = None
               /\ Main.get "success" answer = Some (Main.VBool true)
           | inl message =>
               Main.get "error" answer
               = Some (Main.VStr (String.append "Failed to parse trip response: " message))
           end
       | HTTPStatusError status_code text =>
           Main.get "error" answer
           = Some (Main.VStr (String.concat EmptyString
                                ["HTTP error "; str_of_int status_code; ": "; text]))
       | RequestError message =>
           Main.get "error" answer
           = Some (Main.VStr (String.append "Request error: " message))
       | OtherError message =>
           Main.get "error" answer
           = Some (Main.VStr (String.append "Unexpected error: " message))
       end.
Proof.
  intros Hdep Hn answer.
  destruct (trip_tool_passes o d oref dref dep modes n Hdep Hn) as (params & Hmax & E).
  cbv zeta in E. subst answer. rewrite E. clear E.
  exists params. split; [exact Hmax|].
  rewrite error_entry_lookup by reflexivity.
  unfold OJPClient.trip_request, trip_request_of. cbv zeta.
  destruct (http_post _ _ _ _) as [text|code text|message|message];
    try reflexivity.
  unfold parse_trip_response, fromstring.
  destruct (etree_fromstring text); cbn [bind ret raise try_except]; simpl.
  - reflexivity.
  - split; reflexivity.
Qed.

(** With [max_results] in bounds, the location tool builds its
    answer from the client's envelope. *)
Lemma location_tool_passes (query : string) (n : Z) :
  1 <= n <= 50 ->
  exists params : LocationSearchParams.t,
    LocationSearchParams.query params = Some query
    /\ let response := OJPClient.location_search OJPClient.get_ojp_client params in
       Main.location_search query n
       = Main.VDict
           ([("success", Main.VBool (LocationResponse.success response));
             ("timestamp", Main.VStr (isoformat (LocationResponse.timestamp response)));
             ("locations",
              Main.VList (map Main.location_dict (LocationResponse.locations response)))]
            ++ Main.error_entry (LocationResponse.error_message response)).
Proof.
  intros Hn. unfold Main.location_search, LocationSearchParams.new.
  rewrite (in_range_true 1 50 n Hn). eexists. split. 2: reflexivity. reflexivity.
Qed.

(** X23.  The location tool refuses a [max_results] outside [1, 50]
    without sending anything, and an empty query with the client's
    fixed message.  Within the bounds [max_results] has no effect on
    the answer.  Every location it lists has a non-empty name and the
    type [stop]; an [error] entry is there exactly when [success] is
    false. *)
Theorem location_tool_answer (query : string) (n : Z) :
  (n < 1 \/ 50 < n ->
   Main.location_search query n
   = Main.VDict
       [("success", Main.VBool false);
        ("error",
         Main.VStr (String.append "Unexpected error: "
                      (validation_text "LocationSearchParams" "max_results" n)))])
  /\ (1 <= n <= 50 ->
      (query = EmptyString ->
       Main.get "success" (Main.location_search query n) = Some (Main.VBool false)
       /\ Main.get "error" (Main.location_search query n)
          = Some (Main.VStr "Query parameter is required for location search")
       /\ listed "locations" (Main.location_search query n) = [])
      /\ (forall m, 1 <= m <= 50 ->
                    Main.location_search query m = Main.location_search query n)
      /\ (exists success : bool,
             Main.get "success" (Main.location_search query n)
             = Some (Main.VBool success)
             /\ (success = true
                 <-> Main.get "error" (Main.location_search query n) = None))
      /\ (forall entry : Main.value,
             In entry (listed "locations" (Main.location_search query n)) ->
             Main.get "type" entry = Some (Main.VStr "stop")
             /\ exists a s, Main.get "name" entry = Some (Main.VStr (String a s)))).
Proof.
  split.
  - intros Hn. unfold Main.location_search, LocationSearchParams.new.
    now rewrite (in_range_false 1 50 n Hn).
  - intros Hn. split; [|split; [|split]].
    + intros ->. unfold Main.location_search, LocationSearchParams.new.
      rewrite (in_range_true 1 50 n Hn). repeat split.
    + intros m Hm. unfold Main.location_search, LocationSearchParams.new.
      rewrite (in_range_true 1 50 n Hn), (in_range_true 1 50 m Hm). reflexivity.
    + destruct (location_tool_passes query n Hn) as (params & _ & E).
      cbv zeta in E. rewrite E.
      set (response := OJPClient.location_search OJPClient.get_ojp_client params).
      exists (LocationResponse.success response). split; [reflexivity|].
      rewrite error_entry_lookup by reflexivity.
      destruct (client_location_flags OJPClient.get_ojp_client params)
        as [[Hs He]|(Hs & Ht & a & m & He)];
        fold response in Hs, He; rewrite Hs, He.
      * tauto.
      * split; discriminate.
    + destruct (location_tool_passes query n Hn) as (params & _ & E).
      cbv zeta in E. rewrite E.
      intros entry Hentry. unfold listed in Hentry. simpl in Hentry.
      apply in_map_iff in Hentry as (l & <- & Hl).
      pose proof (client_locations_named OJPClient.get_ojp_client params) as Named.
      rewrite Forall_forall in Named. destruct (Named l Hl) as [Hname Htype].
      unfold Main.location_dict. simpl. rewrite Htype. split; [reflexivity|].
      destruct (Location.name l) as [|a s]; [congruence|eauto].
Qed.

End RequestSide.

(* ================================================================== *)
(** * The properties on the sample documents *)
(* ================================================================== *)

#[local] Existing Instance Samples.rational.
#[local] Existing Instance Samples.runtime.
#[local] Existing Instance Service.host.

(** [evaluate term E] runs [term] and records the outcome as [E]. *)
Ltac evaluate term E :=
  let v := eval vm_compute in term in
  assert (E : term = v) by (vm_compute; reflexivity).

(** An empty minute text is no integer for [int()], and yet the
    decoder returns a duration: the [M] alone counts as 0 minutes. *)
Lemma empty_minute_text_counts_as_zero :
  int "" = raise ValueError
  /\ _parse_iso_duration "PT1HM" = ret (Some 60)
  /\ _parse_iso_duration "PTM" = ret (Some 0)
  /\ _parse_iso_duration "PTH" = ret None.
Proof. repeat split; vm_compute; reflexivity. Qed.

(** A numeral of 4301 digits is beyond the interpreter's limit of
    4300: the decoder returns no duration for it, and a duration for
    the numeral of 4300 digits. *)
Example numeral_beyond_the_digit_limit :
  _parse_iso_duration
    (String.append "PT" (String.append (String.concat "" (repeat "0" 4301)) "M"))
  = ret None
  /\ _parse_iso_duration
       (String.append "PT" (String.append (String.concat "" (repeat "0" 4300)) "M"))
     = ret (Some 0).
Proof. split; vm_compute; reflexivity. Qed.

Lemma duration_decoder_contract_witness :
  _parse_iso_duration "PT1H30M" = ret (Some 90)
  /\ _parse_iso_duration "PT2H" = ret (Some 120)
  /\ _parse_iso_duration "PT6M" = ret (Some 6)
  /\ _parse_iso_duration "P1D" = ret None
  /\ _parse_iso_duration "PT1.5H" = ret None
  /\ _parse_iso_duration "PT1H30.5M" = ret None
  /\ _parse_iso_duration "PT1HM" = ret (Some 60).
Proof.
  destruct (@duration_decoder_contract Samples.rational Samples.runtime)
    as (Digits & _ & Marker & Hours & Minutes & Empty & _).
  destruct (Digits "1" "30" eq_refl eq_refl eq_refl eq_refl) as (E1 & _ & _).
  destruct (Digits "2" "6" eq_refl eq_refl eq_refl eq_refl) as (_ & E2 & E3).
  split; [exact E1|]. split; [exact E2|]. split; [exact E3|].
  split; [exact (Marker "P1D" eq_refl)|].
  split; [exact (Hours "1.5" "" eq_refl eq_refl)|].
  split.
  - refine (proj1 (Minutes "1" "30.5" eq_refl eq_refl eq_refl _ eq_refl)).
    discriminate.
  - exact (Empty "1" 1 eq_refl eq_refl).
Defined.

Lemma duration_without_designators_witness :
  _parse_iso_duration "PT" = ret (Some 0)
  /\ _parse_iso_duration "PT30S" = ret (Some 0).
Proof.
  split.
  - apply (duration_without_designators "PT"); reflexivity.
  - apply (duration_without_designators "PT30S"); reflexivity.
Defined.

Lemma iso_duration_total_witness :
  (exists r, _parse_iso_duration "PT1H30M" = ret r)
  /\ startswith "PT1H30M" "PT" = true.
Proof.
  destruct (iso_duration_total "PT1H30M") as [R P].
  split; [exact R|]. exact (P 90 eq_refl).
Defined.

Lemma iso_duration_nonnegative_witness :
  _parse_iso_duration "PT1H30M" = ret (Some 90) /\ 0 <= 90.
Proof.
  split; [reflexivity|].
  apply (iso_duration_nonnegative "PT1H30M" 90); reflexivity.
Defined.

Lemma iso_duration_ignores_undesignated_tail_witness :
  _parse_iso_duration "PT1H30" = ret (Some 60)
  /\ _parse_iso_duration "PT2H45S" = ret (Some 120).
Proof.
  split.
  - apply (iso_duration_ignores_undesignated_tail "1" "30" 1); reflexivity.
  - apply (iso_duration_ignores_undesignated_tail "2" "45S" 2); reflexivity.
Defined.

Lemma iso_duration_glues_digits_around_M_witness :
  _parse_iso_duration "PT5M3" = ret (Some 53).
Proof.
  apply (iso_duration_glues_digits_around_M "5" "3"); reflexivity.
Defined.

Lemma transfer_count_of_emitted_trip_witness :
  (exists t, _parse_trip four_legs = Some t /\ Trip.transfers t = 2)
  /\ (exists t leg, _parse_trip ride_called_walk = Some t
                    /\ Trip.legs t = [leg] /\ is_walking leg /\ Trip.transfers t = 0).
Proof.
  destruct (@transfer_count_of_emitted_trip Samples.rational Samples.runtime) as (Elem & Legs & Walk).
  split.
  - eassert (E : _parse_trip four_legs = Some _) by (vm_compute; reflexivity).
    eexists. split; [exact E|].
    etransitivity; [exact (Elem _ _ E)|reflexivity].
  - eassert (E : _parse_trip ride_called_walk = Some _) by (vm_compute; reflexivity).
    eassert (L : decoded_legs ride_called_walk = [_]) by (vm_compute; reflexivity).
    pose proof (parse_trip_emitted _ _ E) as E'. rewrite L in E'.
    eexists _, _. split; [exact E|].
    split; [reflexivity|].
    refine ((fun W => conj W (proj2 (Walk _ W) _ E')) (or_introl eq_refl)).
Defined.

(** C8 fails as stated: a ride whose alighting time precedes its
    boarding time is emitted with a total duration of -60 minutes. *)
Lemma backwards_ride_negative_duration :
  exists t : Trip.t,
    _parse_trip backwards_ride = Some t
    /\ Trip.total_duration_minutes t = -60
    /\ ~ (0 <= Trip.total_duration_minutes t).
Proof.
  eexists. split; [vm_compute; reflexivity|].
  split; [reflexivity|]. simpl. lia.
Qed.

Lemma total_duration_nonnegative_witness :
  (exists t, _parse_trip one_ride = Some t /\ 0 <= Trip.total_duration_minutes t)
  /\ (exists v, total_duration (decoded_legs walk_only) None None = ret v /\ 0 <= v).
Proof.
  destruct (@total_duration_nonnegative Samples.rational Samples.runtime) as (Emitted & Fallback).
  split.
  - eassert (E : _parse_trip one_ride = Some _) by (vm_compute; reflexivity).
    eexists. split; [exact E|].
    apply (Emitted one_ride _ E).
    vm_compute. discriminate.
  - exists 5. split; [reflexivity|].
    apply (Fallback (decoded_legs walk_only) None None 5).
    + left; reflexivity.
    + evaluate (decoded_legs walk_only) L. rewrite L.
      constructor; [split|constructor].
      * simpl. intros d H. inversion H. lia.
      * simpl. intros dep arr H. discriminate.
    + reflexivity.
Defined.

(** C4 fails as stated: on these four legs the transfer count is 2,
    not 1 (the other three figures are as claimed). *)
Lemma four_legs_transfer_count :
  exists t : Trip.t,
    _parse_trip four_legs = Some t
    /\ Some (Trip.departure_time t) = iso_datetime "2024-03-01T09:00:00Z"
    /\ Some (Trip.arrival_time t) = iso_datetime "2024-03-01T10:00:00Z"
    /\ Trip.total_duration_minutes t = 60
    /\ Trip.transfers t = 2
    /\ Trip.transfers t <> 1.
Proof.
  eexists. split; [vm_compute; reflexivity|].
  repeat split. simpl. discriminate.
Qed.

Lemma four_leg_trip_witness :
  exists l1 l2 l3 l4 : Leg.t,
    decoded_legs four_legs = [l1; l2; l3; l4]
    /\ exists t : Trip.t,
      trip_of_legs [l1; l2; l3; l4] = ret (Some t)
      /\ Trip.legs t = [l1; l2; l3; l4]
      /\ Trip.departure_time t = clock 1709251200000000 (Some 0) 9 0
      /\ Trip.arrival_time t = clock 1709251200000000 (Some 0) 10 0
      /\ Trip.total_duration_minutes t = 60
      /\ Trip.transfers t = 2.
Proof.
  eexists _, _, _, _. split; [vm_compute; reflexivity|].
  apply (four_leg_trip 1709251200000000 (Some 0)); try reflexivity.
  left; reflexivity.
Defined.

(** C1 on the code: a trip result whose only leg is a five-minute walk
    decodes to one leg without instants, and no trip is emitted for it. *)
Theorem walk_only_trip_is_dropped :
  exists leg : Leg.t,
    decoded_legs walk_only = [leg]
    /\ Leg.mode leg = "walk"
    /\ Leg.departure_time leg = None
    /\ Leg.arrival_time leg = None
    /\ Leg.duration_minutes leg = Some 5
    /\ _parse_trip walk_only = None.
Proof.
  eexists. split; [vm_compute; reflexivity|].
  repeat split.
Qed.

(** C3 fails as stated: a rail service without a submode keeps the
    label [rail]; it is not relabelled [train]. *)
Lemma rail_without_submode_stays_rail :
  pt_mode_of (ride (Some "rail") None None) = Some "rail"
  /\ rail_submode_of (ride (Some "rail") None None) = None
  /\ option_map Leg.mode (_parse_timed_leg (ride (Some "rail") None None)) = Some "rail"
  /\ option_map Leg.mode (_parse_timed_leg (ride (Some "rail") None None)) <> Some "train".
Proof.
  split; [vm_compute; reflexivity|].
  split; [vm_compute; reflexivity|].
  evaluate (_parse_timed_leg (ride (Some "rail") None None)) E. rewrite E.
  split; [reflexivity|discriminate].
Qed.

(** A service whose primary mode is written [cableCar] is labelled
    [cablecar]. *)
Example cable_car_label :
  option_map Leg.mode (_parse_timed_leg (ride (Some "cableCar") None None))
  = Some "cablecar".
Proof. vm_compute. reflexivity. Qed.

Lemma timed_leg_mode_table_witness :
  option_map Leg.mode (_parse_timed_leg (ride (Some "rail") (Some "highSpeedRail") None))
  = Some "high_speed_rail"
  /\ option_map Leg.mode (_parse_timed_leg (ride (Some "bus") None None)) = Some "bus"
  /\ option_map Leg.mode (_parse_timed_leg (ride None None None)) = Some "public_transport".
Proof.
  split; [|split].
  - evaluate (_parse_timed_leg (ride (Some "rail") (Some "highSpeedRail") None)) E.
    destruct (timed_leg_mode_table _ _ E) as (_ & Rail & _ & _).
    destruct (Rail "rail") as (_ & _ & _ & Fast & _);
      [vm_compute; reflexivity|reflexivity|].
    rewrite E. refine (f_equal Some (Fast _)). vm_compute. reflexivity.
  - evaluate (_parse_timed_leg (ride (Some "bus") None None)) E.
    destruct (timed_leg_mode_table _ _ E) as (_ & _ & Bus & _).
    destruct (Bus "bus") as (_ & _ & _ & _ & Plain);
      [vm_compute; reflexivity|reflexivity|].
    rewrite E. refine (f_equal Some (Plain _)). vm_compute. reflexivity.
  - evaluate (_parse_timed_leg (ride None None None)) E.
    destruct (timed_leg_mode_table _ _ E) as (Default & _).
    rewrite E. refine (f_equal Some (Default _)). vm_compute. reflexivity.
Defined.

(** C9 fails as stated: a place element that carries neither name
    field yields no Location; the name does not fall back to
    [Unknown]. *)
Lemma nameless_place_is_dropped :
  (exists place, place_of nameless_place = Some place)
  /\ _parse_place_result nameless_place = None
  /\ ~ (exists loc, _parse_place_result nameless_place = Some loc).
Proof.
  split; [eexists; vm_compute; reflexivity|].
  evaluate (_parse_place_result nameless_place) E. rewrite E.
  split; [reflexivity|]. intros [loc H]. discriminate.
Qed.

(** A place whose confidence reads 1.5 yields no Location either. *)
Example overconfident_place_is_dropped :
  _parse_place_result overconfident_place = None.
Proof. vm_compute. reflexivity. Qed.

Lemma place_result_degrades_witness :
  exists loc : Location.t,
    _parse_place_result degraded_place = Some loc
    /\ Location.name loc = "Bellevue"
    /\ Location.id loc = None
    /\ Location.coordinates loc = None
    /\ Location.probability loc = None.
Proof.
  evaluate (place_of degraded_place) P.
  destruct (place_result_degrades degraded_place _ "Bellevue" P)
    as (loc & E & Hname & _ & Hid & Hcoord & Hprob).
  - discriminate.
  - left. vm_compute. reflexivity.
  - intros p H. vm_compute in H. discriminate.
  - exists loc. split; [exact E|]. split; [exact Hname|].
    split; [rewrite Hid; vm_compute; reflexivity|].
    split; [rewrite Hcoord; vm_compute; reflexivity|].
    rewrite Hprob. vm_compute. reflexivity.
Defined.

Lemma malformed_document_envelopes_witness :
  TripResponse.success (parse_trip_response "not xml") = false
  /\ TripResponse.trips (parse_trip_response "not xml") = []
  /\ LocationResponse.success (parse_location_response "not xml") = false
  /\ LocationResponse.locations (parse_location_response "not xml") = [].
Proof.
  destruct (malformed_document_envelopes
              "not xml" "Start tag expected, '<' not found, line 1, column 1")
    as ((St & _ & Tt) & (Sl & _ & Tl)).
  - vm_compute. reflexivity.
  - repeat split; assumption.
Defined.


Lemma timed_leg_needs_both_points_witness :
  _parse_timed_leg ride_to_nowhere = None.
Proof.
  apply (proj2 (timed_leg_needs_both_points ride_to_nowhere)).
  right. vm_compute. reflexivity.
Defined.

Lemma timed_leg_instants_witness :
  exists leg : Leg.t,
    _parse_timed_leg ride_with_bad_estimate = Some leg
    /\ Leg.departure_time leg = None
    /\ Leg.arrival_time leg = iso_datetime "2024-03-01T09:20:00Z".
Proof.
  evaluate (_parse_timed_leg ride_with_bad_estimate) E.
  eexists. split; [exact E|].
  eassert (Hb : xpath ride_with_bad_estimate [desc "ojp" "LegBoard"] = [_])
    by (vm_compute; reflexivity).
  eassert (Ha : xpath ride_with_bad_estimate [desc "ojp" "LegAlight"] = [_])
    by (vm_compute; reflexivity).
  destruct (timed_leg_instants _ _ _ _ _ _ E Hb Ha) as [Hd Harr].
  split.
  - etransitivity; [exact Hd|vm_compute; reflexivity].
  - etransitivity; [exact Harr|vm_compute; reflexivity].
Defined.


Lemma transfer_leg_duration_witness :
  exists leg : Leg.t,
    _parse_transfer_leg leg_with_empty_duration transfer_with_duration = Some leg
    /\ Leg.mode leg = "walk"
    /\ read_duration (leaf "ojp" "Duration" "PT5M") = Some 5
    /\ Leg.duration_minutes leg = None.
Proof.
  evaluate (_parse_transfer_leg leg_with_empty_duration transfer_with_duration) E.
  eexists. split; [exact E|].
  split; [reflexivity|]. split; [reflexivity|].
  etransitivity; [exact (transfer_leg_duration _ _ _ E)|reflexivity].
Defined.

Lemma decoded_leg_invariants_witness :
  exists leg : Leg.t,
    _parse_leg (walk_leg "PT5M") = Some leg
    /\ Location.coordinates (Leg.origin leg) = None
    /\ Leg.duration_minutes leg = Some 5
    /\ Leg.departure_time leg = None.
Proof.
  evaluate (_parse_leg (walk_leg "PT5M")) E.
  eexists. split; [exact E|].
  destruct (decoded_leg_invariants _ _ E) as ((Hc & _) & _ & _ & [Hd|(Hdep & _)]).
  - discriminate Hd.
  - split; [exact Hc|]. split; [reflexivity|exact Hdep].
Defined.

Lemma emitted_trip_invariants_witness :
  exists t : Trip.t,
    _parse_trip four_legs = Some t
    /\ len (Trip.legs t) = 4
    /\ 0 <= Trip.transfers t < 4
    /\ Trip.total_duration_minutes t = 60.
Proof.
  evaluate (_parse_trip four_legs) E.
  eexists. split; [exact E|]. split; [reflexivity|].
  destruct (emitted_trip_invariants _ _ E) as (_ & _ & _ & _ & _ & _ & Hdur & Htr).
  split; [exact Htr|].
  apply (Hdur 60); [vm_compute; reflexivity|reflexivity].
Defined.

Lemma decoded_place_invariants_witness :
  exists loc : Location.t,
    _parse_place_result zurich_hb = Some loc
    /\ Location.name loc <> EmptyString
    /\ Location.id loc = Some "8503000"
    /\ Location.probability loc = decimal "0.95".
Proof.
  evaluate (_parse_place_result zurich_hb) E.
  eexists. split; [exact E|].
  destruct (decoded_place_invariants _ _ E) as (Hn & _ & _ & place & _ & _ & _ & _ & Hp).
  split; [exact Hn|]. split; [reflexivity|].
  etransitivity; [exact Hp|vm_compute; reflexivity].
Defined.


Lemma trip_envelope_invariants_witness :
  TripResponse.success (parse_trip_response (serialize trip_document)) = true
  /\ len (TripResponse.trips (parse_trip_response (serialize trip_document))) <= 3
  /\ TripResponse.trips (parse_trip_response "not xml") = [].
Proof.
  destruct (trip_envelope_invariants (serialize trip_document)) as (Hs & _ & _ & Hl).
  destruct (trip_envelope_invariants "not xml") as (_ & He & _ & _).
  split; [|split].
  - apply (proj2 Hs). vm_compute. reflexivity.
  - apply (Hl trip_document). vm_compute. reflexivity.
  - apply He. vm_compute. reflexivity.
Defined.

Lemma location_envelope_invariants_witness :
  LocationResponse.success (parse_location_response (serialize location_document)) = true
  /\ len (LocationResponse.locations
            (parse_location_response (serialize location_document))) <= 3
  /\ LocationResponse.locations (parse_location_response "not xml") = [].
Proof.
  destruct (location_envelope_invariants (serialize location_document))
    as (Hs & _ & _ & Hl).
  destruct (location_envelope_invariants "not xml") as (_ & He & _ & _).
  split; [|split].
  - apply (proj2 Hs). vm_compute. reflexivity.
  - apply (Hl location_document). vm_compute. reflexivity.
  - apply He. vm_compute. reflexivity.
Defined.

(** The type of a transfer is lower-cased as [str.lower()] does it,
    beyond ASCII too. *)
Example transfer_type_outside_ascii :
  option_map Leg.mode (_parse_transfer_leg (node "ojp" "Leg" [transfer_by_bike])
                                           transfer_by_bike)
  = Some velo_in_small_letters.
Proof. vm_compute. reflexivity. Qed.

(** [int()] reads the decimal digits of any script, and takes the
    control characters 28 to 31 for no whitespace. *)
Example duration_digits_outside_ascii :
  read_duration (leaf "ojp" "Duration"
                      (String.concat "" ["PT"; arabic_indic_three; "M"])) = Some 3
  /\ read_duration (leaf "ojp" "Duration"
                         (String.concat "" ["PT"; five_after_control_31; "M"])) = None
  /\ _parse_iso_duration (String.concat "" ["PT"; five_after_control_31; "H30"])
     = ret None.
Proof. repeat split; vm_compute; reflexivity. Qed.

(** A ride that boards with an offset and alights without one cannot
    be timed, and no trip is emitted for it. *)
Example ride_mixing_zones_is_dropped :
  _parse_trip ride_mixing_zones = None.
Proof. vm_compute. reflexivity. Qed.

Lemma client_trip_request_envelope_witness :
  exists (params : TripRequestParams.t) (text : string),
    TripRequestParams.new "Zurich Giesshuebel" "Zurich HB" "8503091" "8503000"
                          None None ["public_transport"] 3 = inr params
    /\ trip_request_of OJPClient.get_ojp_client params = Delivered text
    /\ TripResponse.error_message (OJPClient.trip_request OJPClient.get_ojp_client params)
       = None.
Proof.
  eexists. 
  destruct (client_trip_request_envelope
              OJPClient.get_ojp_client
              {| TripRequestParams.origin := "Zurich Giesshuebel";
                 TripRequestParams.destination := "Zurich HB";
                 TripRequestParams.origin_stop_point_ref := "8503091";
                 TripRequestParams.destination_stop_point_ref := "8503000";
                 TripRequestParams.departure_time := None;
                 TripRequestParams.arrival_time := None;
                 TripRequestParams.transport_modes := ["public_transport"];
                 TripRequestParams.max_results := 3;
                 TripRequestParams.include_accessibility := false |})
    as (Hiff & _ & Hsent).
  assert (S : TripResponse.success
                (OJPClient.trip_request
                   OJPClient.get_ojp_client
                   {| TripRequestParams.origin := "Zurich Giesshuebel";
                      TripRequestParams.destination := "Zurich HB";
                      TripRequestParams.origin_stop_point_ref := "8503091";
                      TripRequestParams.destination_stop_point_ref := "8503000";
                      TripRequestParams.departure_time := None;
                      TripRequestParams.arrival_time := None;
                      TripRequestParams.transport_modes := ["public_transport"];
                      TripRequestParams.max_results := 3;
                      TripRequestParams.include_accessibility := false |}) = true)
    by (vm_compute; reflexivity).
  destruct (Hsent S) as (text & root & Hpost & _ & _).
  exists text. split; [reflexivity|]. split; [exact Hpost|exact (proj1 Hiff S)].
Defined.

Lemma client_location_search_envelope_witness :
  OJPClient.location_search
    OJPClient.get_ojp_client
    {| LocationSearchParams.query := None; LocationSearchParams.coordinates := None;
       LocationSearchParams.radius := 1000; LocationSearchParams.location_types := ["stop"];
       LocationSearchParams.max_results := 10 |}
  = LocationResponse.new false (Some "Query parameter is required for location search") [].
Proof.
  apply (proj1 (client_location_search_envelope
                  OJPClient.get_ojp_client
                  {| LocationSearchParams.query := None;
                     LocationSearchParams.coordinates := None;
                     LocationSearchParams.radius := 1000;
                     LocationSearchParams.location_types := ["stop"];
                     LocationSearchParams.max_results := 10 |})).
  reflexivity.
Defined.

Lemma trip_tool_rejections_witness :
  Main.get "error"
    (Main._trip_request_internal "A" "B" "1" "2" (Some "tomorrow") ["public_transport"] 5)
  = Some (Main.VStr "Invalid departure time format. Use YYYY-MM-DDTHH:MM:SS format.")
  /\ Main.get "success"
       (Main._trip_request_internal "A" "B" "1" "2" None ["public_transport"] 21)
     = Some (Main.VBool false).
Proof.
  split.
  - destruct (trip_tool_rejections "A" "B" "1" "2" (Some "tomorrow")
                                   ["public_transport"] 5) as [Format _].
    rewrite (Format "t"%char "omorrow" eq_refl); [reflexivity|].
    vm_compute. reflexivity.
  - destruct (trip_tool_rejections "A" "B" "1" "2" None ["public_transport"] 21)
      as [_ Bounds].
    rewrite Bounds; [reflexivity|exact I|right; lia].
Defined.

Lemma trip_tool_answer_witness :
  exists success : bool,
    Main.get "success"
      (Main._trip_request_internal "A" "B" "1" "2" (Some "2024-03-01T09:00:00Z")
                                   ["public_transport"] 5)
    = Some (Main.VBool success)
    /\ (success = true
        <-> Main.get "error"
              (Main._trip_request_internal "A" "B" "1" "2" (Some "2024-03-01T09:00:00Z")
                                           ["public_transport"] 5) = None).
Proof.
  destruct (trip_tool_answer "A" "B" "1" "2" (Some "2024-03-01T09:00:00Z")
                             ["public_transport"] 5)
    as [(success & Hs & Hiff & _) _].
  - simpl. vm_compute. discriminate.
  - lia.
  - exists success. split; [exact Hs|exact Hiff].
Defined.

Lemma location_tool_answer_witness :
  Main.get "success" (Main.location_search "Zurich" 51) = Some (Main.VBool false)
  /\ Main.get "error" (Main.location_search "" 10)
     = Some (Main.VStr "Query parameter is required for location search")
  /\ Main.location_search "Zurich" 1 = Main.location_search "Zurich" 50.
Proof.
  destruct (location_tool_answer "Zurich" 51) as [Bounds _].
  destruct (location_tool_answer "" 10) as [_ Empty].
  destruct (location_tool_answer "Zurich" 50) as [_ Same].
  split; [|split].
  - rewrite Bounds; [reflexivity|right; lia].
  - destruct Empty as [E _]; [lia|]. exact (proj1 (proj2 (E eq_refl))).
  - destruct Same as (_ & S & _); [lia|]. apply S. lia.
Defined.

Lemma trip_tool_error_sources_witness :
  1 <= 5 <= 20
  /\ exists params : TripRequestParams.t,
       TripRequestParams.max_results params = 5
       /\ match trip_request_of OJPClient.get_ojp_client params with
          | Delivered text =>
              match etree_fromstring text with
              | inr _ =>
                  Main.get "error"
                    (Main._trip_request_internal "A" "B" "1" "2" None
                       ["public_transport"] 5) = None
                  /\ Main.get "success"
                       (Main._trip_request_internal "A" "B" "1" "2" None
                          ["public_transport"] 5) = Some (Main.VBool true)
              | inl message =>
                  Main.get "error"
                    (Main._trip_request_internal "A" "B" "1" "2" None
                       ["public_transport"] 5)
                  = Some (Main.VStr (String.append "Failed to parse trip response: " message))
              end
          | HTTPStatusError status_code text =>
              Main.get "error"
                (Main._trip_request_internal "A" "B" "1" "2" None
                   ["public_transport"] 5)
              = Some (Main.VStr (String.concat EmptyString
                                   ["HTTP error "; str_of_int status_code; ": "; text]))
          | RequestError message =>
              Main.get "error"
                (Main._trip_request_internal "A" "B" "1" "2" None
                   ["public_transport"] 5)
              = Some (Main.VStr (String.append "Request error: " message))
          | OtherError message =>
              Main.get "error"
                (Main._trip_request_internal "A" "B" "1" "2" None
                   ["public_transport"] 5)
              = Some (Main.VStr (String.append "Unexpected error: " message))
          end.
Proof.
  split; [lia|].
  apply (trip_tool_error_sources "A" "B" "1" "2" None ["public_transport"] 5);
    [exact I|lia].
Defined.
